(** * SnipeBT feature-parity engine: a shallow embedding and its properties

  The development follows the Python sources under [src/deepLearning]:

  - [add_patterns_to_existing_data.py]: candlestick pattern detection and
    context scoring (module [Patterns]);
  - [preprocessor.py]: feature extraction, scaling and the dataset split
    (module [Preprocessor]);
  - [convert_scalers.py]: export of the fitted scalers to a JSON document
    and the transform computed from that document (module [Scalers]);
  - [inference.py]: the request/response loop (module [Inference]).

  Further properties of the same code are gathered in [PatternProperties],
  [PreprocessorProperties], [ScalerProperties] and [InferenceProperties];
  [Dataset] follows [process_training_data] and [merge_data.py], and
  [Schedule] and [Training] follow the learning rate schedule and the
  early stopping of [model_pytorch.py].

  Numbers.  The feature code works on Python floats read from JSON.  They
  are modelled as exact rationals ([Q]): thresholds, branch selection and
  bounds are those of the source, rounding is not modelled.  Python raises
  [ZeroDivisionError] on a float division by zero; that is modelled
  explicitly.  The inference server applies [torch.sigmoid], which is not
  a rational function, so its scores are modelled as real numbers ([R]). *)

From Stdlib Require Import String Ascii Bool Arith Lia ZArith List.
From Stdlib Require Import QArith Qabs Qround.
From Stdlib Require Lqa Reals Lra.
Import ListNotations.

Set Implicit Arguments.

(** ** Python values and exceptions *)

Module Py.
Import Lqa.
Local Open Scope Q_scope.

(** The exceptions the modelled code can raise. *)
Inductive exn : Type :=
| ZeroDivisionError
| IndexError
| KeyError (key : string)
| ValueError (msg : string)
| TypeError (msg : string)
| AttributeError (msg : string)
| AssertionError (msg : string)
| RuntimeError (msg : string)
| JSONDecodeError (msg : string).

(** The outcome of a call: a value, or a raised exception. *)
Inductive result (A : Type) : Type :=
| Ok (a : A)
| Raise (e : exn).
Arguments Ok {A} a.
Arguments Raise {A} e.

Definition bind {A B : Type} (c : result A) (k : A -> result B) : result B :=
  match c with
  | Ok a => k a
  | Raise e => Raise e
  end.

(** [a > b], [a < b] on floats are written [gt a b], [lt a b]. *)
Definition lt (a b : Q) : bool :=
  match a ?= b with Lt => true | _ => false end.
Definition gt (a b : Q) : bool := lt b a.

(** [a != b]. *)
Definition ne (a b : Q) : bool := negb (Qeq_bool a b).

(** [a / b]: true division raises on a zero divisor. *)
Definition div (a b : Q) : result Q :=
  if Qeq_bool b 0 then Raise ZeroDivisionError else Ok (a / b).

(** [max(a, b)] keeps its first argument unless the second is greater;
    [min(a, b)] keeps its first argument unless the second is smaller. *)
Definition max2 (a b : Q) : Q := if gt b a then b else a.
Definition min2 (a b : Q) : Q := if lt b a then b else a.

(** [max(xs)], [min(xs)] over a list: [ValueError] on the empty list. *)
Definition max (xs : list Q) : result Q :=
  match xs with
  | [] => Raise (ValueError "max() arg is an empty sequence")
  | x :: rest => Ok (fold_left max2 rest x)
  end.
Definition min (xs : list Q) : result Q :=
  match xs with
  | [] => Raise (ValueError "min() arg is an empty sequence")
  | x :: rest => Ok (fold_left min2 rest x)
  end.

(** [xs[i]] for [i >= 0], and [xs[-k]] for [k >= 1]. *)
Definition getitem {A : Type} (xs : list A) (i : nat) : result A :=
  match nth_error xs i with
  | Some x => Ok x
  | None => Raise IndexError
  end.
Definition getitem_neg {A : Type} (xs : list A) (k : nat) : result A :=
  if (k <=? length xs)%nat then getitem xs (length xs - k) else Raise IndexError.

(** [xs[-k:]]: the last [k] elements (all of them when there are fewer). *)
Definition slice_last {A : Type} (k : nat) (xs : list A) : list A :=
  skipn (length xs - k) xs.

(** *** Comparisons, division and indexing *)

Lemma bind_Ok {A B : Type} (c : result A) (k : A -> result B) (b : B) :
  bind c k = Ok b <-> exists a, c = Ok a /\ k a = Ok b.
Proof.
  split.
  - destruct c as [a|e]; cbn; [eauto|discriminate].
  - intros (a & -> & H). exact H.
Qed.

Lemma lt_cases (a b : Q) :
  (lt a b = true /\ a < b) \/ (lt a b = false /\ b <= a).
Proof.
  unfold lt. destruct (a ?= b) eqn:E.
  - right. split; [reflexivity|]. apply Qeq_alt in E. lra.
  - left. split; [reflexivity|]. now apply Qlt_alt.
  - right. split; [reflexivity|]. apply Qgt_alt in E. lra.
Qed.

Lemma gt_cases (a b : Q) :
  (gt a b = true /\ b < a) \/ (gt a b = false /\ a <= b).
Proof. unfold gt. apply lt_cases. Qed.

Lemma ne_cases (a b : Q) :
  (ne a b = true /\ ~ a == b) \/ (ne a b = false /\ a == b).
Proof.
  unfold ne. destruct (Qeq_bool a b) eqn:E.
  - right. split; [reflexivity|]. now apply Qeq_bool_iff.
  - left. split; [reflexivity|]. now apply Qeq_bool_neq.
Qed.

Lemma div_ok (a b : Q) : ~ b == 0 -> div a b = Ok (a / b).
Proof.
  intros H. unfold div. destruct (Qeq_bool b 0) eqn:E; [|reflexivity].
  apply Qeq_bool_iff in E. contradiction.
Qed.

Lemma div_zero (a b : Q) : b == 0 -> div a b = Raise ZeroDivisionError.
Proof.
  intros H. unfold div. apply Qeq_bool_iff in H. now rewrite H.
Qed.

Lemma max2_cases (a b : Q) :
  (max2 a b = b /\ a < b) \/ (max2 a b = a /\ b <= a).
Proof. unfold max2. destruct (gt_cases b a) as [[-> H]|[-> H]]; auto. Qed.

Lemma min2_cases (a b : Q) :
  (min2 a b = b /\ b < a) \/ (min2 a b = a /\ a <= b).
Proof. unfold min2. destruct (lt_cases b a) as [[-> H]|[-> H]]; auto. Qed.

Lemma min2_le_r (a b : Q) : min2 a b <= b.
Proof. destruct (min2_cases a b) as [[-> H]|[-> H]]; lra. Qed.

Lemma max2_ge_l (a b : Q) : a <= max2 a b.
Proof. destruct (max2_cases a b) as [[-> H]|[-> H]]; lra. Qed.

Lemma div_nonneg (a b : Q) : 0 <= a -> 0 < b -> 0 <= a / b.
Proof.
  intros Ha Hb. unfold Qdiv. apply Qmult_le_0_compat; [assumption|].
  apply Qlt_le_weak, Qinv_lt_0_compat, Hb.
Qed.

Lemma div_le_1 (a b : Q) : a <= b -> 0 < b -> a / b <= 1.
Proof.
  intros Hab Hb. apply Qle_shift_div_r; [assumption|]. lra.
Qed.

Lemma max_ok (xs : list Q) : xs <> [] -> exists m, max xs = Ok m.
Proof. destruct xs; [congruence|]. cbn. eauto. Qed.

Lemma min_ok (xs : list Q) : xs <> [] -> exists m, min xs = Ok m.
Proof. destruct xs; [congruence|]. cbn. eauto. Qed.

Lemma getitem_neg_ok {A : Type} (xs : list A) (k : nat) :
  (1 <= k <= length xs)%nat -> exists x, getitem_neg xs k = Ok x.
Proof.
  intros H. unfold getitem_neg, getitem.
  destruct (k <=? length xs)%nat eqn:E; [|apply Nat.leb_gt in E; lia].
  destruct (nth_error xs (length xs - k)) eqn:N; [eauto|].
  apply nth_error_None in N. lia.
Qed.

Lemma slice_last_length {A : Type} (k : nat) (xs : list A) :
  (k <= length xs)%nat -> length (slice_last k xs) = k.
Proof. intros H. unfold slice_last. rewrite length_skipn. lia. Qed.

End Py.

Notation "x <- c ;; k" := (Py.bind c (fun x => k))
(at level 61, c at next level, right associativity).
Notation "' pat <- c ;; k" := (Py.bind c (fun x => match x with pat => k end))
(at level 61, pat pattern, c at next level, right associativity).

(** ** add_patterns_to_existing_data.py *)

Module Patterns.
Import Py Lqa.
Local Open Scope Q_scope.

(** One OHLCV observation; the dictionary keys of the source. *)
Record Candle : Type := mkCandle {
  open : Q;
  high : Q;
  low : Q;
  close : Q;
  volume : Q
}.

(** The token context dictionary.  [liquidity] is read with
    [.get('liquidity', 0)] by the scorer, so it may be missing. *)
Record TokenContext : Type := mkContext {
  liquidity : option Q;
  marketCap : Q;
  holders : Q;
  age : Q;
  volume24h : Q
}.

(** The dictionary [detect_candlestick_patterns] returns. *)
Record PatternFeatures : Type := mkPatterns {
  has_bullish_pin : bool;
  has_bearish_pin : bool;
  has_bullish_engulfing : bool;
  has_bearish_engulfing : bool;
  wick_rejection_ratio : Q;
  body_to_range_ratio : Q;
  pattern_confidence : Q;
  context_score : Q
}.

Definition default_patterns : PatternFeatures :=
  mkPatterns false false false false 0 0 0 0.

Definition MIN_WICK_TO_BODY_RATIO : Q := 2.0.

(** Metrics of a candle (lines 31-34 of the source). *)
Definition body (c : Candle) : Q := Qabs (close c - open c).
Definition upper_wick (c : Candle) : Q := high c - max2 (close c) (open c).
Definition lower_wick (c : Candle) : Q := min2 (close c) (open c) - low c.
Definition total_range (c : Candle) : Q := high c - low c.

(** [wick_strength] and the confidence candidate of a pin bar
    (lines 56-57 and 62-63). *)
Definition pin_confidence (wick : Q) (c : Candle) : result Q :=
  wick_strength <-
    (if gt (total_range c) 0
     then q <- div wick (total_range c) ;; Ok (q * 100)
     else Ok 0) ;;
  Ok (min2 (60 + wick_strength * 0.3) 80 / 100).

Definition calculate_context_score
    (candles : list Candle) (token_context : TokenContext) : result Q :=
  let score := 0.0 in
  (* 1. trend over the last 20 candles *)
  score <-
    (if (20 <=? length candles)%nat then
       let recent_candles := slice_last 20 candles in
       first_candle <- getitem recent_candles 0 ;;
       last_candle <- getitem_neg recent_candles 1 ;;
       let first_price := close first_candle in
       let last_price := close last_candle in
       q <- div (last_price - first_price) first_price ;;
       let price_change := q * 100 in
       if gt price_change 10 then Ok (score + 0.30)
       else if gt price_change 0 then Ok (score + 0.15)
       else if lt price_change (-10) then Ok (score + 0.10)
       else Ok score
     else Ok score) ;;
  (* 2. position of the price in the recent range *)
  score <-
    (if (20 <=? length candles)%nat then
       let recent_candles := slice_last 20 candles in
       let highs := map high recent_candles in
       let lows := map low recent_candles in
       recent_high <- max highs ;;
       recent_low <- min lows ;;
       current <- getitem_neg candles 1 ;;
       let current_price := close current in
       if ne recent_high recent_low then
         price_position <-
           div (current_price - recent_low) (recent_high - recent_low) ;;
         if lt price_position 0.20 then Ok (score + 0.25)
         else if gt price_position 0.90 then Ok (score + 0.20)
         else Ok score
       else Ok score
     else Ok score) ;;
  (* 3. liquidity *)
  let liq := match liquidity token_context with Some l => l | None => 0 end in
  let score :=
    if gt liq 500000 then score + 0.20
    else if gt liq 100000 then score + 0.10
    else score in
  Ok (min2 score 1.0).

Definition detect_candlestick_patterns
    (candles : list Candle) (context : TokenContext) : result PatternFeatures :=
  if (length candles <? 2)%nat then Ok default_patterns
  else
    last_candle <- getitem_neg candles 1 ;;
    prev_candle <- getitem_neg candles 2 ;;
    let is_bullish := gt (close last_candle) (open last_candle) in
    let is_bearish := lt (close last_candle) (open last_candle) in
    body_to_range <-
      (if gt (total_range last_candle) 0
       then div (body last_candle) (total_range last_candle)
       else Ok 0) ;;
    wick_rejection <-
      (if gt (body last_candle) 0
       then div (max2 (upper_wick last_candle) (lower_wick last_candle))
                (body last_candle)
       else Ok 0) ;;
    let pattern_conf := 0 in
    (* 1. bullish pin bar *)
    '(bullish_pin, pattern_conf) <-
      (if gt (lower_wick last_candle) (body last_candle * MIN_WICK_TO_BODY_RATIO)
          && is_bullish
       then c <- pin_confidence (lower_wick last_candle) last_candle ;;
            Ok (true, max2 pattern_conf c)
       else Ok (false, pattern_conf)) ;;
    (* 2. bearish pin bar *)
    '(bearish_pin, pattern_conf) <-
      (if gt (upper_wick last_candle) (body last_candle * MIN_WICK_TO_BODY_RATIO)
          && is_bearish
       then c <- pin_confidence (upper_wick last_candle) last_candle ;;
            Ok (true, max2 pattern_conf c)
       else Ok (false, pattern_conf)) ;;
    (* 3. and 4. engulfing candles *)
    let prev_body := body prev_candle in
    let engulfs_previous := gt (body last_candle) (prev_body * 0.6) in
    let '(bullish_engulfing, pattern_conf) :=
      if is_bullish && engulfs_previous && gt body_to_range 0.6
      then (true, max2 pattern_conf 0.65) else (false, pattern_conf) in
    let '(bearish_engulfing, pattern_conf) :=
      if is_bearish && engulfs_previous && gt body_to_range 0.6
      then (true, max2 pattern_conf 0.65) else (false, pattern_conf) in
    cs <- calculate_context_score candles context ;;
    Ok {| has_bullish_pin := bullish_pin;
          has_bearish_pin := bearish_pin;
          has_bullish_engulfing := bullish_engulfing;
          has_bearish_engulfing := bearish_engulfing;
          wick_rejection_ratio := min2 wick_rejection 10;
          body_to_range_ratio := body_to_range;
          pattern_confidence := pattern_conf;
          context_score := cs |}.

(** The confidence candidate of a pin bar as the specification words it:
    [min(60 + (wick/totalRange*100)*0.3, 80)/100] when [totalRange > 0],
    and [0.60] otherwise.  Compared with [pin_confidence] below. *)
Definition pin_candidate (wick : Q) (c : Candle) : Q :=
  if gt (total_range c) 0
  then min2 (60 + (wick / total_range c * 100) * 0.3) 80 / 100
  else 0.60.

(** *** Sample inputs *)

Definition flat (p : Q) : Candle := mkCandle p p p p 1000.

Definition sample_context : TokenContext :=
  mkContext (Some 500000) 1000000 150 2.5 250000.

(** A candle that closes above its recorded high: open 1, high 2, low 1,
    close 3. *)
Definition overshoot : Candle := mkCandle 1 2 1 3 1000.

(** A bullish candle with no upper wick and a lower wick of three bodies:
    open 1.0, high 1.1, low 0.7, close 1.1. *)
Definition hammer : Candle := mkCandle 1.0 1.1 0.7 1.1 1000.

(** Twenty candles, the first of which closed at 0. *)
Definition zero_start_window : list Candle := flat 0 :: repeat (flat 1) 19.

(** Twenty candles, the first of which closed at 0, ending in [hammer]. *)
Definition zero_start_hammer : list Candle :=
  flat 0 :: repeat (flat 1) 18 ++ [hammer].

(** *** Tactics *)

Ltac case_cmp_in H :=
  match type of H with
  | context [lt ?a ?b] =>
      let E := fresh "E" in let C := fresh "C" in
      destruct (lt_cases a b) as [[E C]|[E C]]; rewrite E in H; clear E
  | context [gt ?a ?b] =>
      let E := fresh "E" in let C := fresh "C" in
      destruct (gt_cases a b) as [[E C]|[E C]]; rewrite E in H; clear E
  | context [ne ?a ?b] =>
      let E := fresh "E" in let C := fresh "C" in
      destruct (ne_cases a b) as [[E C]|[E C]]; rewrite E in H; clear E
  end.

Ltac case_cmp :=
  match goal with
  | |- context [lt ?a ?b] =>
      let E := fresh "E" in let C := fresh "C" in
      destruct (lt_cases a b) as [[E C]|[E C]]; rewrite E; clear E
  | |- context [gt ?a ?b] =>
      let E := fresh "E" in let C := fresh "C" in
      destruct (gt_cases a b) as [[E C]|[E C]]; rewrite E; clear E
  | |- context [ne ?a ?b] =>
      let E := fresh "E" in let C := fresh "C" in
      destruct (ne_cases a b) as [[E C]|[E C]]; rewrite E; clear E
  end.

(** Symbolic execution of a call that is known to return. *)
Ltac inv_ok :=
  repeat match goal with
  | H : Raise _ = Ok _ |- _ => discriminate H
  | H : Ok _ = Raise _ |- _ => discriminate H
  | H : Ok ?a = Ok ?b |- _ =>
      first [ is_var b; injection H as <-
            | is_var a; injection H as ->
            | injection H as H ]
  | H : bind ?c _ = _ |- _ => destruct c eqn:?; cbn [bind] in H
  | H : (if _ then _ else _) = _ |- _ => case_cmp_in H; cbn [andb] in H
  end.

(** *** The context scorer *)

Lemma body_nonneg (c : Candle) : 0 <= body c.
Proof. apply Qabs_nonneg. Qed.

(** Whenever the scorer returns, its value is in [0,1]. *)
Lemma context_score_range candles ctx s :
  calculate_context_score candles ctx = Ok s -> 0 <= s /\ s <= 1.
Proof.
  unfold calculate_context_score. intros H.
  assert (exists s2, 0 <= s2 /\ s = min2 s2 1.0) as (s2 & Hs2 & ->).
  { destruct (20 <=? length candles)%nat.
    - inv_ok. all: eexists; (split; [|reflexivity]).
      all: repeat case_cmp; lra.
    - inv_ok. eexists; (split; [|reflexivity]). repeat case_cmp; lra. }
  destruct (min2_cases s2 1.0) as [[-> ?]|[-> ?]]; lra.
Qed.

(** The scorer raises on every window of twenty candles whose first close is
    zero: the trend term divides by that close without a guard. *)
Lemma context_score_raises candles ctx first_candle :
  (20 <= length candles)%nat ->
  getitem (slice_last 20 candles) 0 = Ok first_candle ->
  close first_candle == 0 ->
  calculate_context_score candles ctx = Raise ZeroDivisionError.
Proof.
  intros Hlen Hfirst Hz. unfold calculate_context_score.
  apply Nat.leb_le in Hlen as Hb. rewrite Hb. rewrite Hfirst. cbn [bind].
  destruct (@getitem_neg_ok _ (slice_last 20 candles) 1%nat) as (l & ->).
  { rewrite slice_last_length; lia. }
  cbn [bind]. rewrite (div_zero _ Hz). reflexivity.
Qed.

(** On every other input it returns: the second division is guarded. *)
Lemma context_score_returns candles ctx :
  (length candles < 20)%nat \/
  (exists first_candle,
      getitem (slice_last 20 candles) 0 = Ok first_candle /\
      ~ close first_candle == 0) ->
  exists s, calculate_context_score candles ctx = Ok s.
Proof.
  intros H. unfold calculate_context_score.
  destruct (20 <=? length candles)%nat eqn:Hb.
  - apply Nat.leb_le in Hb. destruct H as [H|(c & Hc & Hnz)]; [lia|].
    rewrite Hc. cbn [bind].
    assert (Hl : length (slice_last 20 candles) = 20%nat)
      by (apply slice_last_length; exact Hb).
    destruct (@getitem_neg_ok _ (slice_last 20 candles) 1%nat) as (l & ->); [lia|].
    cbn [bind]. rewrite (div_ok _ Hnz). cbn [bind].
    destruct (@max_ok (map high (slice_last 20 candles))) as (rh & ->).
    { intros E. apply (f_equal (@length Q)) in E.
      rewrite length_map, Hl in E. discriminate. }
    destruct (@min_ok (map low (slice_last 20 candles))) as (rl & ->).
    { intros E. apply (f_equal (@length Q)) in E.
      rewrite length_map, Hl in E. discriminate. }
    destruct (@getitem_neg_ok _ candles 1%nat) as (cur & ->); [lia|].
    assert (Hstage : forall sc : Q, exists sc',
      (if ne rh rl
       then price_position <- div (close cur - rl) (rh - rl);;
            (if lt price_position 0.20 then Ok (sc + 0.25)
             else if gt price_position 0.90 then Ok (sc + 0.20) else Ok sc)
       else Ok sc) = Ok sc').
    { intros sc. case_cmp; [|eauto].
      rewrite div_ok by lra. cbn [bind]. repeat case_cmp; eauto. }
    repeat case_cmp; cbn [bind];
      match goal with
      | |- context [Ok (0.0 + ?x)] => destruct (Hstage (0.0 + x)) as (sc' & ->)
      | _ => destruct (Hstage 0.0) as (sc' & ->)
      end; cbn [bind]; eauto.
  - cbn [bind]. eauto.
Qed.

(** C3, at the failing input: on twenty candles of which the first closed at
    0 the scorer raises [ZeroDivisionError] instead of returning a score in
    [0,1]. *)
Theorem context_score_zero_close_raises :
  calculate_context_score zero_start_window sample_context
  = Raise ZeroDivisionError.
Proof. vm_compute. reflexivity. Qed.

(** *** The pattern detector *)

Lemma pin_confidence_spec wick c :
  exists v, pin_confidence wick c = Ok v /\ v == pin_candidate wick c.
Proof.
  unfold pin_confidence, pin_candidate. case_cmp.
  - rewrite div_ok by lra. cbn [bind]. eexists. split; reflexivity.
  - cbn [bind]. eexists. split; [reflexivity|]. vm_compute. reflexivity.
Qed.

Lemma pin_candidate_range wick c :
  0 < wick -> 0.6 <= pin_candidate wick c /\ pin_candidate wick c <= 0.8.
Proof.
  intros Hw. unfold pin_candidate. case_cmp; [|lra].
  assert (0 <= wick / total_range c) by (apply div_nonneg; lra).
  destruct (min2_cases (60 + wick / total_range c * 100 * 0.3) 80)
    as [[-> ?]|[-> ?]];
    (split; [apply Qle_shift_div_l; lra | apply Qle_shift_div_r; lra]).
Qed.

Lemma length_ge_2 (candles : list Candle) :
  (2 <= length candles)%nat -> (length candles <? 2)%nat = false.
Proof. intros H. apply Nat.ltb_ge. exact H. Qed.

(** The guarded division of line 40 never raises, and its value. *)
Lemma guarded_body_to_range (c : Candle) :
  exists r,
    (if gt (total_range c) 0 then div (body c) (total_range c) else Ok 0)
    = Ok r /\
    0 <= r /\
    (total_range c <= 0 -> r == 0) /\
    (body c <= total_range c -> r <= 1).
Proof.
  pose proof (body_nonneg c) as Hb. case_cmp.
  - rewrite div_ok by lra. eexists. split; [reflexivity|].
    split; [apply div_nonneg; assumption|]. split; [lra|].
    intros H. apply div_le_1; assumption.
  - eexists. split; [reflexivity|]. split; [lra|]. split; [reflexivity|lra].
Qed.

(** The guarded division of line 43 never raises. *)
Lemma guarded_wick_rejection (c : Candle) :
  exists w,
    (if gt (body c) 0
     then div (max2 (upper_wick c) (lower_wick c)) (body c)
     else Ok 0) = Ok w.
Proof. case_cmp; [rewrite div_ok by lra|]; eauto. Qed.

(** C5: on fewer than two candles the detector returns the default: the four
    flags are false and the four ratios are 0. *)
Theorem detect_short candles ctx :
  (length candles < 2)%nat ->
  exists out,
    detect_candlestick_patterns candles ctx = Ok out /\
    has_bullish_pin out = false /\ has_bearish_pin out = false /\
    has_bullish_engulfing out = false /\ has_bearish_engulfing out = false /\
    wick_rejection_ratio out == 0 /\ body_to_range_ratio out == 0 /\
    pattern_confidence out == 0 /\ context_score out == 0.
Proof.
  intros H. unfold detect_candlestick_patterns.
  apply Nat.ltb_lt in H. rewrite H.
  exists default_patterns. repeat split; reflexivity.
Qed.

Lemma detect_short_witness :
  exists out,
    detect_candlestick_patterns [hammer] sample_context = Ok out /\
    has_bullish_pin out = false /\ has_bearish_pin out = false /\
    has_bullish_engulfing out = false /\ has_bearish_engulfing out = false /\
    wick_rejection_ratio out == 0 /\ body_to_range_ratio out == 0 /\
    pattern_confidence out == 0 /\ context_score out == 0.
Proof. apply (@detect_short [hammer] sample_context). simpl. lia. Defined.

(** C4 as stated fails: for a candle that closes above its recorded high the
    body exceeds the range, and the detector returns a body-to-range ratio
    of 2. *)
Lemma body_to_range_above_one :
  exists out,
    detect_candlestick_patterns [flat 1; overshoot] sample_context = Ok out /\
    1 < body_to_range_ratio out.
Proof. eexists. split; [vm_compute; reflexivity|]. vm_compute. reflexivity. Qed.

(** C4, amended: on two candles or more, whenever the context scorer
    returns, the detector returns an output whose wick rejection ratio is at
    most 10 and whose body-to-range ratio is non-negative, is 0 when the
    final candle's range is not positive, and is at most 1 when the final
    candle's body does not exceed its range. *)
Theorem detect_ratio_bounds candles ctx cs :
  (2 <= length candles)%nat ->
  calculate_context_score candles ctx = Ok cs ->
  exists last_candle out,
    getitem_neg candles 1 = Ok last_candle /\
    detect_candlestick_patterns candles ctx = Ok out /\
    wick_rejection_ratio out <= 10 /\
    0 <= body_to_range_ratio out /\
    (total_range last_candle <= 0 -> body_to_range_ratio out == 0) /\
    (body last_candle <= total_range last_candle ->
     body_to_range_ratio out <= 1).
Proof.
  intros Hlen Hcs. unfold detect_candlestick_patterns.
  rewrite (length_ge_2 _ Hlen).
  destruct (@getitem_neg_ok _ candles 1%nat) as (last_candle & Hlast); [lia|].
  destruct (@getitem_neg_ok _ candles 2%nat) as (prev_candle & Hprev); [lia|].
  rewrite Hlast, Hprev, Hcs. cbn [bind].
  destruct (guarded_body_to_range last_candle) as (r & -> & Hr0 & Hrz & Hr1).
  destruct (guarded_wick_rejection last_candle) as (w & ->).
  destruct (pin_confidence_spec (lower_wick last_candle) last_candle)
    as (c1 & -> & _).
  destruct (pin_confidence_spec (upper_wick last_candle) last_candle)
    as (c2 & -> & _).
  cbn [bind]. exists last_candle.
  repeat match goal with
         | |- context [if ?b then _ else _] => destruct b; cbn [bind]
         end.
  all: eexists; split; [reflexivity|]; split; [reflexivity|]; cbn.
  all: split; [apply min2_le_r|auto].
Qed.

Lemma detect_ratio_bounds_witness :
  exists last_candle out,
    getitem_neg [flat 1; hammer] 1 = Ok last_candle /\
    detect_candlestick_patterns [flat 1; hammer] sample_context = Ok out /\
    wick_rejection_ratio out <= 10 /\
    0 <= body_to_range_ratio out /\
    (total_range last_candle <= 0 -> body_to_range_ratio out == 0) /\
    (body last_candle <= total_range last_candle ->
     body_to_range_ratio out <= 1).
Proof.
  eapply (@detect_ratio_bounds [flat 1; hammer] sample_context).
  - simpl. lia.
  - vm_compute. reflexivity.
Defined.

(** A well-formed candle (low <= open, close <= high) has a body within its
    range. *)
Lemma well_formed_body_le_range (c : Candle) :
  low c <= open c -> low c <= close c ->
  open c <= high c -> close c <= high c ->
  body c <= total_range c.
Proof.
  intros H1 H2 H3 H4. unfold body, total_range.
  apply Qabs_case; intros _; lra.
Qed.

(** The bullish pin rule, whenever the context scorer returns: the flag is
    set, the bearish flag is not, and the confidence is the rule's candidate
    unless the bullish engulfing rule raised it to 0.65. *)
Lemma bullish_pin_rule candles ctx cs :
  (2 <= length candles)%nat ->
  calculate_context_score candles ctx = Ok cs ->
  forall last_candle, getitem_neg candles 1 = Ok last_candle ->
  body last_candle * 2.0 < lower_wick last_candle ->
  open last_candle < close last_candle ->
  exists out,
    detect_candlestick_patterns candles ctx = Ok out /\
    has_bullish_pin out = true /\
    has_bearish_pin out = false /\
    pin_candidate (lower_wick last_candle) last_candle
      <= pattern_confidence out /\
    (pattern_confidence out
       == pin_candidate (lower_wick last_candle) last_candle \/
     has_bullish_engulfing out = true /\ pattern_confidence out == 0.65).
Proof.
  intros Hlen Hcs last_candle Hlast Hwick Hbull.
  unfold detect_candlestick_patterns.
  rewrite (length_ge_2 _ Hlen).
  destruct (@getitem_neg_ok _ candles 2%nat) as (prev_candle & Hprev); [lia|].
  rewrite Hlast, Hprev, Hcs. cbn [bind].
  destruct (guarded_body_to_range last_candle) as (r & -> & _).
  destruct (guarded_wick_rejection last_candle) as (w & ->).
  destruct (pin_confidence_spec (lower_wick last_candle) last_candle)
    as (c1 & -> & Hc1).
  destruct (pin_confidence_spec (upper_wick last_candle) last_candle)
    as (c2 & -> & _).
  pose proof (body_nonneg last_candle) as Hb.
  destruct (@pin_candidate_range (lower_wick last_candle) last_candle)
    as [Hlo Hhi].
  { unfold MIN_WICK_TO_BODY_RATIO in *. lra. }
  cbn [bind].
  destruct (gt_cases (lower_wick last_candle)
                     (body last_candle * MIN_WICK_TO_BODY_RATIO))
    as [[-> _]|[_ C]]; [|unfold MIN_WICK_TO_BODY_RATIO in C; lra].
  destruct (gt_cases (close last_candle) (open last_candle))
    as [[-> _]|[_ C]]; [|lra].
  destruct (lt_cases (close last_candle) (open last_candle))
    as [[_ C]|[-> _]]; [lra|].
  rewrite !andb_false_r. cbn [andb bind].
  assert (Hm : max2 0 c1 = c1).
  { destruct (max2_cases 0 c1) as [[-> ?]|[? ?]]; [reflexivity|lra]. }
  rewrite Hm.
  destruct (gt (body last_candle) (body prev_candle * 0.6) && gt r 0.6).
  - eexists. split; [reflexivity|]. cbn. rewrite <- Hc1.
    split; [reflexivity|]. split; [reflexivity|].
    split; [apply max2_ge_l|].
    destruct (max2_cases c1 0.65) as [[-> ?]|[-> ?]];
      [right; split; reflexivity|left; reflexivity].
  - eexists. split; [reflexivity|]. cbn. rewrite <- Hc1.
    split; [reflexivity|]. split; [reflexivity|].
    split; [lra|left; reflexivity].
Qed.

(** The synthetic candle of the specification on a short history. *)
Lemma hammer_is_bullish_pin :
  exists out,
    detect_candlestick_patterns [flat 1; hammer] sample_context = Ok out /\
    has_bullish_pin out = true /\ has_bearish_pin out = false /\
    pattern_confidence out == 0.8.
Proof. eexists. split; [vm_compute; reflexivity|]. vm_compute. auto. Qed.

(** C6, at the failing input: the final candle is bullish, has no upper wick
    and a lower wick of three bodies, yet on a history of twenty candles of
    which the first closed at 0 the detector raises [ZeroDivisionError] and
    returns no flags at all. *)
Theorem detect_zero_close_raises :
  (2 <= length zero_start_hammer)%nat /\
  getitem_neg zero_start_hammer 1 = Ok hammer /\
  body hammer * 2.0 < lower_wick hammer /\
  open hammer < close hammer /\
  upper_wick hammer == 0 /\
  lower_wick hammer == 3 * body hammer /\
  detect_candlestick_patterns zero_start_hammer sample_context
  = Raise ZeroDivisionError.
Proof. split; [simpl; lia|]. repeat split; vm_compute; reflexivity. Qed.
End Patterns.

(** ** preprocessor.py *)

Module Preprocessor.
Import Py Patterns Lqa.
Local Open Scope Q_scope.

Definition matrix : Type := list (list Q).

Record Indicators : Type := mkIndicators {
  rsi : Q;
  macd : Q;
  ema_fast : Q;
  ema_slow : Q;
  bbands_width : Q
}.

Record Labels : Type := mkLabels {
  profitable : bool;
  max_profit : Q;
  rug_risk : bool
}.

(** A training example.  The [patterns] key is optional (line 90 tests
    ['patterns' in example]). *)
Record Example : Type := mkExample {
  ex_candles : list Candle;
  ex_context : TokenContext;
  ex_indicators : Indicators;
  ex_patterns : option PatternFeatures;
  ex_labels : Labels
}.

(** What the loop of lines 62-109 appends for one example. *)
Record Features : Type := mkFeatures {
  f_candles : matrix;
  f_context : list Q;
  f_indicators : list Q;
  f_patterns : list Q;
  f_profitable : Q;
  f_max_profit : Q;
  f_rug_risk : Q
}.

(** [1.0 if b else 0.0]. *)
Definition indicator_of (b : bool) : Q := if b then 1.0 else 0.0.

(** [np.zeros(n)]. *)
Definition zeros (n : nat) : list Q := repeat 0 n.

Definition candle_row (c : Candle) : list Q :=
  [open c; high c; low c; close c; volume c].

Definition context_row (ctx : TokenContext) : result (list Q) :=
  match liquidity ctx with
  | Some l => Ok [l; marketCap ctx; holders ctx; age ctx; volume24h ctx]
  | None => Raise (KeyError "liquidity")
  end.

Definition indicator_row (ind : Indicators) : list Q :=
  [rsi ind; macd ind; ema_fast ind; ema_slow ind; bbands_width ind].

Definition pattern_row (patterns : option PatternFeatures) : list Q :=
  match patterns with
  | Some p =>
      [indicator_of (has_bullish_pin p);
       indicator_of (has_bearish_pin p);
       indicator_of (has_bullish_engulfing p);
       indicator_of (has_bearish_engulfing p);
       wick_rejection_ratio p;
       body_to_range_ratio p;
       pattern_confidence p;
       context_score p]
  | None => zeros 8
  end.

Definition extract_example (example : Example) : result Features :=
  let candles := map candle_row (ex_candles example) in
  context <- context_row (ex_context example) ;;
  let indicators := indicator_row (ex_indicators example) in
  let patterns := pattern_row (ex_patterns example) in
  Ok {| f_candles := candles;
        f_context := context;
        f_indicators := indicators;
        f_patterns := patterns;
        f_profitable := indicator_of (profitable (ex_labels example));
        f_max_profit := max_profit (ex_labels example);
        f_rug_risk := indicator_of (rug_risk (ex_labels example)) |}.

(** The loop over the examples: the first failing example aborts it. *)
Fixpoint extract_features (examples : list Example) : result (list Features) :=
  match examples with
  | [] => Ok []
  | example :: rest =>
      f <- extract_example example ;;
      fs <- extract_features rest ;;
      Ok (f :: fs)
  end.

(** [N, timesteps, features = X_candles.shape]: the stacked candles must
    form a three-dimensional array, that is, at least one example and the
    same positive number of candles in each.  Returns [(N, timesteps)]. *)
Definition candles_shape (X_candles : list matrix) : result (nat * nat) :=
  match X_candles with
  | [] => Raise (ValueError "not enough values to unpack")
  | m :: _ =>
      if (0 <? length m)%nat && forallb (fun m' => length m' =? length m)%nat X_candles
      then Ok (length X_candles, length m)
      else Raise (ValueError "not enough values to unpack")
  end.

(** [X.reshape(N, timesteps, features)] of a matrix of [N * timesteps] rows. *)
Fixpoint chunks (n timesteps : nat) (rows : matrix) : list matrix :=
  match n with
  | O => []
  | S n' => firstn timesteps rows :: chunks n' timesteps (skipn timesteps rows)
  end.

(** [np.concatenate([A, B, C], axis=1)]: the three matrices must have the
    same number of rows. *)
Fixpoint concatenate_axis1 (A B C : matrix) : result matrix :=
  match A, B, C with
  | [], [], [] => Ok []
  | a :: A', b :: B', c :: C' =>
      rest <- concatenate_axis1 A' B' C' ;;
      Ok ((a ++ b ++ c) :: rest)
  | _, _, _ => Raise (ValueError "all the input array dimensions must match")
  end.

(** [X[idx]] for an array of indices. *)
Fixpoint take {A : Type} (X : list A) (idx : list nat) : result (list A) :=
  match idx with
  | [] => Ok []
  | i :: idx' =>
      x <- getitem X i ;;
      xs <- take X idx' ;;
      Ok (x :: xs)
  end.

Record Dataset : Type := mkDataset {
  d_candles : list matrix;
  d_combined : matrix
}.

Record Splits : Type := mkSplits {
  X_train : Dataset;
  X_val : Dataset;
  X_test : Dataset;
  y_train : matrix;
  y_val : matrix;
  y_test : matrix
}.

Section Pipeline.

(** The scikit-learn collaborators: the fitted parameters of the two
    scalers, their [fit_transform], and [train_test_split] with its
    [test_size] and [stratify] arguments ([random_state] is fixed to 42). *)
Variable RobustParams : Type.
Variable StandardParams : Type.
Variable robust_fit_transform : matrix -> result (RobustParams * matrix).
Variable standard_fit_transform : matrix -> result (StandardParams * matrix).
Variable train_test_split :
  list nat -> Q -> list Q -> result (list nat * list nat).

(** The three scalers of a [DataPreprocessor] once fitted. *)
Record Scalers : Type := mkScalers {
  candle_scaler : RobustParams;
  context_scaler : StandardParams;
  indicator_scaler : StandardParams
}.

Definition _scale_candles (X_candles : list matrix)
  : result (RobustParams * list matrix) :=
  '(N, timesteps) <- candles_shape X_candles ;;
  let X_reshaped := concat X_candles in
  '(fitted, X_scaled) <- robust_fit_transform X_reshaped ;;
  if (length X_scaled =? N * timesteps)%nat
  then Ok (fitted, chunks N timesteps X_scaled)
  else Raise (ValueError "cannot reshape array").

(** Lines 53-142: what is computed before the split. *)
Record Assembled : Type := mkAssembled {
  a_scalers : Scalers;
  a_candles_scaled : list matrix;
  a_combined : matrix;
  a_y : matrix;
  a_y_profitable : list Q
}.

Definition assemble (examples : list Example) : result Assembled :=
  features <- extract_features examples ;;
  let X_candles := map f_candles features in
  let X_context := map f_context features in
  let X_indicators := map f_indicators features in
  let X_patterns := map f_patterns features in
  let y_profitable := map f_profitable features in
  '(candle_fit, X_candles_scaled) <- _scale_candles X_candles ;;
  '(context_fit, X_context_scaled) <- standard_fit_transform X_context ;;
  '(indicator_fit, X_indicators_scaled) <- standard_fit_transform X_indicators ;;
  X_combined <- concatenate_axis1 X_context_scaled X_indicators_scaled X_patterns ;;
  let y := map (fun f => [f_profitable f; f_max_profit f; f_rug_risk f]) features in
  Ok {| a_scalers := mkScalers candle_fit context_fit indicator_fit;
        a_candles_scaled := X_candles_scaled;
        a_combined := X_combined;
        a_y := y;
        a_y_profitable := y_profitable |}.

(** Lines 144-162: the 70/15/15 split of the indices. *)
Definition split_indices (n : nat) (y_profitable : list Q)
  : result (list nat * list nat * list nat) :=
  let indices := seq 0 n in
  '(train_idx, temp_idx) <- train_test_split indices 0.3 y_profitable ;;
  stratify <- take y_profitable temp_idx ;;
  '(val_idx, test_idx) <- train_test_split temp_idx 0.5 stratify ;;
  Ok (train_idx, val_idx, test_idx).

Definition select (a : Assembled) (idx : list nat) : result (Dataset * matrix) :=
  candles <- take (a_candles_scaled a) idx ;;
  combined <- take (a_combined a) idx ;;
  y <- take (a_y a) idx ;;
  Ok (mkDataset candles combined, y).

Definition load_and_preprocess (examples : list Example)
  : result (Scalers * Splits) :=
  a <- assemble examples ;;
  '(train_idx, val_idx, test_idx) <-
    split_indices (length (a_candles_scaled a)) (a_y_profitable a) ;;
  '(train, ytrain) <- select a train_idx ;;
  '(val, yval) <- select a val_idx ;;
  '(test, ytest) <- select a test_idx ;;
  Ok (a_scalers a, mkSplits train val test ytrain yval ytest).

End Pipeline.

(** *** A small instance

    A scaler whose only fitted statistic is the per-feature mean and whose
    transform subtracts it (scikit-learn's [StandardScaler(with_std=False)]),
    and a split that keeps the order of the indices, where scikit-learn's
    shuffles them: it serves where the order of the indices does not
    matter. *)

Definition mean (xs : list Q) : Q :=
  fold_right Qplus 0 xs / inject_Z (Z.of_nat (length xs)).

Definition column (j : nat) (X : matrix) : list Q :=
  map (fun row => nth j row 0) X.

Definition centering_fit_transform (X : matrix) : result (list Q * matrix) :=
  match X with
  | [] => Raise (ValueError "Found array with 0 sample(s)")
  | row :: _ =>
      let means := map (fun j => mean (column j X)) (seq 0 (length row)) in
      Ok (means, map (fun r => map (fun xm => fst xm - snd xm) (combine r means)) X)
  end.

Definition ordered_split (indices : list nat) (test_size : Q) (stratify : list Q)
  : result (list nat * list nat) :=
  let n := length indices in
  let n_test := Z.to_nat (Qceiling (test_size * inject_Z (Z.of_nat n))) in
  if (n_test <? n)%nat && (0 <? n_test)%nat
  then Ok (firstn (n - n_test) indices, skipn (n - n_test) indices)
  else Raise (ValueError "the resulting train set will be empty").

Definition sample_indicators : Indicators := mkIndicators 55 0.0001 0.0011 0.001 0.05.

Definition sample_labels : Labels := mkLabels true 4.0 false.

(** An example without patterns, of two candles, with the given liquidity. *)
Definition example_with_liquidity (l : Q) : Example :=
  mkExample [flat 1; hammer]
            (mkContext (Some l) 1000000 150 2.5 250000)
            sample_indicators None sample_labels.

Definition dataset_a : list Example :=
  [example_with_liquidity 1; example_with_liquidity 1;
   example_with_liquidity 1; example_with_liquidity 1].

(** [dataset_a] with another last example. *)
Definition dataset_b : list Example :=
  [example_with_liquidity 1; example_with_liquidity 1;
   example_with_liquidity 1; example_with_liquidity 5].

(** [dataset_a] with the liquidity of its example [k] changed to 5. *)
Definition changed_at (k : nat) : list Example :=
  map (fun i => example_with_liquidity (if (i =? k)%nat then 5 else 1))
      (seq 0 4).

(** The labels by which the split of [dataset_a] is stratified. *)
Definition profitable_labels (examples : list Example) : list Q :=
  map (fun e => indicator_of (profitable (ex_labels e))) examples.

Definition without_patterns (example : Example) : Example :=
  mkExample (ex_candles example) (ex_context example) (ex_indicators example)
            None (ex_labels example).

Definition has_shape (n w : nat) (X : matrix) : Prop :=
  length X = n /\ Forall (fun row => length row = w) X.


(** *** Properties of the pipeline *)

Lemma extract_features_length examples features :
  extract_features examples = Ok features -> length features = length examples.
Proof.
  revert features. induction examples as [|e rest IH]; intros features H; cbn in H.
  - injection H as <-. reflexivity.
  - apply bind_Ok in H as (f & _ & H). apply bind_Ok in H as (fs & Hfs & H).
    injection H as <-. cbn. f_equal. apply IH. exact Hfs.
Qed.

Lemma extract_features_nth examples features i example :
  extract_features examples = Ok features ->
  nth_error examples i = Some example ->
  exists f, nth_error features i = Some f /\ extract_example example = Ok f.
Proof.
  revert features i. induction examples as [|e rest IH]; intros features i H Hi.
  - destruct i; discriminate.
  - cbn in H. apply bind_Ok in H as (f & Hf & H).
    apply bind_Ok in H as (fs & Hfs & H). injection H as <-.
    destruct i as [|i]; cbn in Hi.
    + injection Hi as <-. exists f. split; [reflexivity|exact Hf].
    + cbn. eapply IH; eassumption.
Qed.

Lemma extract_example_shape example f :
  extract_example example = Ok f ->
  length (f_context f) = 5%nat /\ length (f_indicators f) = 5%nat /\
  length (f_patterns f) = 8%nat /\
  (ex_patterns example = None -> f_patterns f = zeros 8).
Proof.
  unfold extract_example, context_row. intros H.
  destruct (liquidity (ex_context example)); [|discriminate].
  cbn in H. injection H as <-. cbn.
  repeat split.
  - destruct (ex_patterns example); reflexivity.
  - intros ->. reflexivity.
Qed.

Lemma extract_features_shape examples features :
  extract_features examples = Ok features ->
  has_shape (length examples) 5 (map f_context features) /\
  has_shape (length examples) 5 (map f_indicators features) /\
  has_shape (length examples) 8 (map f_patterns features).
Proof.
  intros H. pose proof (@extract_features_length _ _ H) as Hlen.
  unfold has_shape. rewrite !length_map, Hlen.
  assert (Hall : Forall (fun f => length (f_context f) = 5%nat /\
                                 length (f_indicators f) = 5%nat /\
                                 length (f_patterns f) = 8%nat) features).
  { clear Hlen. revert features H.
    induction examples as [|e rest IH]; intros features H; cbn in H.
    - injection H as <-. constructor.
    - apply bind_Ok in H as (f & Hf & H). apply bind_Ok in H as (fs & Hfs & H).
      injection H as <-. constructor; [|apply IH; exact Hfs].
      destruct (@extract_example_shape _ _ Hf) as (? & ? & ? & _). auto. }
  repeat split; try reflexivity; apply Forall_map;
    (eapply Forall_impl; [|exact Hall]); cbn; intros f (? & ? & ?); assumption.
Qed.

(** Dropping the patterns changes nothing but the pattern rows. *)
Lemma extract_features_without_patterns examples features :
  extract_features examples = Ok features ->
  exists features',
    extract_features (map without_patterns examples) = Ok features' /\
    map f_candles features' = map f_candles features /\
    map f_context features' = map f_context features /\
    map f_indicators features' = map f_indicators features /\
    map f_profitable features' = map f_profitable features /\
    length features' = length features.
Proof.
  revert features. induction examples as [|e rest IH]; intros features H; cbn in H.
  - injection H as <-. exists []. cbn. repeat split; reflexivity.
  - apply bind_Ok in H as (f & Hf & H). apply bind_Ok in H as (fs & Hfs & H).
    injection H as <-.
    destruct (IH _ Hfs) as (fs' & E & H1 & H2 & H3 & H4 & H5).
    unfold extract_example in Hf.
    destruct (context_row (ex_context e)) as [c|] eqn:Ec; [|discriminate].
    cbn in Hf. injection Hf as <-.
    cbn. unfold extract_example at 1. cbn. rewrite Ec. cbn. rewrite E. cbn.
    eexists. split; [reflexivity|]. cbn.
    rewrite H1, H2, H3, H4, H5. repeat split; reflexivity.
Qed.

Lemma concatenate_axis1_ok (A B C : matrix) :
  length A = length B -> length B = length C ->
  exists X, concatenate_axis1 A B C = Ok X.
Proof.
  revert B C. induction A as [|a A IH]; intros [|b B] [|c C] H1 H2;
    try discriminate; cbn.
  - eauto.
  - destruct (IH B C) as (X & ->); [cbn in *; lia..|]. cbn. eauto.
Qed.

Lemma concatenate_axis1_length (A B C X : matrix) :
  concatenate_axis1 A B C = Ok X ->
  length A = length X /\ length B = length X /\ length C = length X.
Proof.
  revert B C X. induction A as [|a A IH]; intros [|b B] [|c C] X H;
    try discriminate; cbn in H.
  - injection H as <-. auto.
  - apply bind_Ok in H as (rest & Hrest & H). injection H as <-.
    destruct (IH _ _ _ Hrest) as (? & ? & ?). cbn. auto.
Qed.

Lemma concatenate_axis1_nth (A B C X : matrix) i c :
  concatenate_axis1 A B C = Ok X ->
  nth_error C i = Some c ->
  exists a b,
    nth_error A i = Some a /\ nth_error B i = Some b /\
    nth_error X i = Some (a ++ b ++ c).
Proof.
  revert B C X i. induction A as [|a A IH]; intros [|b B] [|c' C] X i H Hi;
    try discriminate; cbn in H.
  - destruct i; discriminate.
  - apply bind_Ok in H as (rest & Hrest & H). injection H as <-.
    destruct i as [|i]; cbn in Hi.
    + injection Hi as ->. exists a, b. cbn. auto.
    + cbn. eapply IH; eassumption.
Qed.

Section PipelineProperties.

Variable RobustParams : Type.
Variable StandardParams : Type.
Variable robust_fit_transform : matrix -> result (RobustParams * matrix).
Variable standard_fit_transform : matrix -> result (StandardParams * matrix).
Variable train_test_split :
  list nat -> Q -> list Q -> result (list nat * list nat).

(** [StandardScaler.fit_transform] returns an array of the shape of its
    input. *)
Hypothesis standard_keeps_shape :
  forall X fitted X' n w,
    standard_fit_transform X = Ok (fitted, X') ->
    has_shape n w X -> has_shape n w X'.


(** C2, amended: the three scalers are fitted on the rows of every example
    of the dataset, before any split: the candle scaler on all candles of
    all examples, the context and indicator scalers on one row per
    example. *)
Theorem scalers_fitted_on_every_example examples fitted splits :
  load_and_preprocess robust_fit_transform standard_fit_transform
                      train_test_split examples = Ok (fitted, splits) ->
  exists features Xc Xx Xi,
    extract_features examples = Ok features /\
    length features = length examples /\
    robust_fit_transform (concat (map f_candles features))
      = Ok (candle_scaler fitted, Xc) /\
    standard_fit_transform (map f_context features)
      = Ok (context_scaler fitted, Xx) /\
    standard_fit_transform (map f_indicators features)
      = Ok (indicator_scaler fitted, Xi).
Proof.
  unfold load_and_preprocess. intros H.
  apply bind_Ok in H as (a & Ha & H).
  apply bind_Ok in H as ([[train_idx val_idx] test_idx] & _ & H).
  apply bind_Ok in H as ([train ytrain] & _ & H).
  apply bind_Ok in H as ([val yval] & _ & H).
  apply bind_Ok in H as ([test ytest] & _ & H).
  injection H as <- _.
  unfold assemble in Ha.
  apply bind_Ok in Ha as (features & Hfeat & Ha).
  apply bind_Ok in Ha as ([candle_fit Xc] & Hc & Ha).
  apply bind_Ok in Ha as ([context_fit Xx] & Hx & Ha).
  apply bind_Ok in Ha as ([indicator_fit Xi] & Hi & Ha).
  apply bind_Ok in Ha as (X_combined & _ & Ha).
  injection Ha as <-. cbn.
  unfold _scale_candles in Hc.
  apply bind_Ok in Hc as ([N timesteps] & _ & Hc).
  apply bind_Ok in Hc as ([fitted' X_scaled] & Hfit & Hc).
  destruct (length X_scaled =? N * timesteps)%nat; [|discriminate Hc].
  injection Hc as <- _.
  exists features, X_scaled, Xx, Xi.
  split; [exact Hfeat|]. split; [eapply extract_features_length; eassumption|].
  auto.
Qed.

End PipelineProperties.


(** *** The instance *)

Lemma centering_keeps_shape (X : matrix) (fitted : list Q) (X' : matrix) (n w : nat) :
  centering_fit_transform X = Ok (fitted, X') ->
  has_shape n w X -> has_shape n w X'.
Proof.
  unfold centering_fit_transform, has_shape.
  destruct X as [|row rest]; [discriminate|].
  intros H [Hn Hw]. injection H as _ <-.
  inversion Hw as [|? ? Hrow Hrest]; subst.
  assert (Hlen : forall r : list Q,
             length r = length row ->
             length (map (fun xm : Q * Q => fst xm - snd xm)
                       (combine r
                          (map (fun j => mean (column j (row :: rest)))
                             (seq 0 (length row))))) = length row).
  { intros r Hr.
    rewrite length_map, length_combine, length_map, length_seq, Hr.
    apply Nat.min_id. }
  split; [cbn [length]; now rewrite length_map|].
  constructor; [apply Hlen; reflexivity|].
  apply Forall_map. eapply Forall_impl; [|exact Hrest].
  cbn beta. intros r Hr. apply Hlen. exact Hr.
Qed.


Lemma take_ok {A : Type} (X : list A) (idx : list nat) :
  Forall (fun i => (i < length X)%nat) idx -> exists rows, take X idx = Ok rows.
Proof.
  induction 1 as [|i idx Hi _ (rows & IH)]; cbn; [eauto|].
  unfold getitem. destruct (nth_error X i) eqn:N.
  - cbn. rewrite IH. cbn. eauto.
  - apply nth_error_None in N. lia.
Qed.

Lemma take_ext {A : Type} (X Y : list A) (idx : list nat) :
  (forall i, In i idx -> nth_error X i = nth_error Y i) ->
  take X idx = take Y idx.
Proof.
  induction idx as [|i idx IH]; intros H; cbn; [reflexivity|].
  unfold getitem. rewrite (H i) by (left; reflexivity).
  rewrite IH; [reflexivity|]. intros j Hj. apply H. right. exact Hj.
Qed.

Lemma changed_at_elsewhere (k i : nat) :
  i <> k -> nth_error dataset_a i = nth_error (changed_at k) i.
Proof.
  intros Hne. unfold changed_at, dataset_a.
  do 4 (destruct i as [|i];
        [destruct k as [|[|[|[|k]]]]; try reflexivity; contradiction|]).
  destruct i; reflexivity.
Qed.

Section AnySplit.

Variable train_test_split :
  list nat -> Q -> list Q -> result (list nat * list nat).

Local Abbreviation load_and_preprocess :=
  (load_and_preprocess centering_fit_transform centering_fit_transform
                       train_test_split).

Lemma load_and_preprocess_returns examples a train_idx val_idx test_idx :
  assemble centering_fit_transform centering_fit_transform examples = Ok a ->
  split_indices train_test_split (length (a_candles_scaled a)) (a_y_profitable a)
  = Ok (train_idx, val_idx, test_idx) ->
  length (a_candles_scaled a) = length (a_combined a) ->
  length (a_candles_scaled a) = length (a_y a) ->
  Forall (fun i => (i < length (a_candles_scaled a))%nat)
         (train_idx ++ val_idx ++ test_idx) ->
  exists splits, load_and_preprocess examples = Ok (a_scalers a, splits).
Proof.
  intros Ha Hs Lc Ly Hall.
  apply Forall_app in Hall as [Ht Hall]. apply Forall_app in Hall as [Hv Hte].
  assert (Hsel : forall idx,
             Forall (fun i => (i < length (a_candles_scaled a))%nat) idx ->
             exists d y, select a idx = Ok (d, y)).
  { intros idx Hidx. unfold select.
    destruct (take_ok (a_candles_scaled a) Hidx) as (c & ->).
    rewrite Lc in Hidx. destruct (take_ok (a_combined a) Hidx) as (cb & ->).
    rewrite <- Lc, Ly in Hidx. destruct (take_ok (a_y a) Hidx) as (y & ->).
    cbn. eauto. }
  destruct (Hsel _ Ht) as (d1 & y1 & E1). destruct (Hsel _ Hv) as (d2 & y2 & E2).
  destruct (Hsel _ Hte) as (d3 & y3 & E3).
  unfold Preprocessor.load_and_preprocess. rewrite Ha. cbn [bind].
  rewrite Hs. cbn [bind]. rewrite E1. cbn [bind]. rewrite E2. cbn [bind].
  rewrite E3. cbn [bind]. eauto.
Qed.

End AnySplit.

Lemma assemble_changed (k : nat) :
  (k < 4)%nat ->
  exists a,
    assemble centering_fit_transform centering_fit_transform (changed_at k) = Ok a /\
    length (a_candles_scaled a) = 4%nat /\
    a_y_profitable a = profitable_labels dataset_a /\
    length (a_combined a) = 4%nat /\ length (a_y a) = 4%nat /\
    nth 0 (context_scaler (a_scalers a)) 0 == 2.
Proof.
  intros Hk.
  destruct k as [|[|[|[|k]]]]; [| | | |lia];
    (eexists; split; [vm_compute; reflexivity|]);
    repeat split; reflexivity.
Qed.

Lemma assemble_dataset_a :
  exists a,
    assemble centering_fit_transform centering_fit_transform dataset_a = Ok a /\
    length (a_candles_scaled a) = 4%nat /\
    a_y_profitable a = profitable_labels dataset_a /\
    length (a_combined a) = 4%nat /\ length (a_y a) = 4%nat /\
    nth 0 (context_scaler (a_scalers a)) 0 == 1.
Proof.
  eexists. split; [vm_compute; reflexivity|]. repeat split; reflexivity.
Qed.

(** C2 as stated fails, whatever the split: [dataset_b] is [dataset_a] with
    another liquidity in its last example; and for every [train_test_split]
    and every example [k] that it puts in the test set of [dataset_a] only,
    [dataset_a] and the dataset changed in example [k] are split alike and
    have the same training and validation examples, yet the fitted mean of
    the liquidity differs (1 against 2).  Such a split and such an example
    exist: the split that keeps the order puts example 3 in the test set. *)
Lemma test_example_changes_fitted_mean :
  changed_at 3 = dataset_b /\
  (exists train_idx val_idx test_idx,
      split_indices ordered_split (length dataset_a)
                    (profitable_labels dataset_a)
      = Ok (train_idx, val_idx, test_idx) /\
      Forall (fun i => (i < length dataset_a)%nat)
             (train_idx ++ val_idx ++ test_idx) /\
      In 3%nat test_idx /\ ~ In 3%nat train_idx /\ ~ In 3%nat val_idx) /\
  forall train_test_split train_idx val_idx test_idx k,
    split_indices train_test_split (length dataset_a)
                  (profitable_labels dataset_a)
    = Ok (train_idx, val_idx, test_idx) ->
    Forall (fun i => (i < length dataset_a)%nat)
           (train_idx ++ val_idx ++ test_idx) ->
    In k test_idx -> ~ In k train_idx -> ~ In k val_idx ->
    profitable_labels (changed_at k) = profitable_labels dataset_a /\
    take dataset_a train_idx = take (changed_at k) train_idx /\
    take dataset_a val_idx = take (changed_at k) val_idx /\
    exists fitted_a splits_a fitted_b splits_b,
      load_and_preprocess centering_fit_transform centering_fit_transform
                          train_test_split dataset_a = Ok (fitted_a, splits_a) /\
      load_and_preprocess centering_fit_transform centering_fit_transform
                          train_test_split (changed_at k)
      = Ok (fitted_b, splits_b) /\
      ~ nth 0 (context_scaler fitted_a) 0 == nth 0 (context_scaler fitted_b) 0.
Proof.
  split; [reflexivity|].
  split.
  { exists [0; 1]%nat, [2%nat], [3%nat].
    split; [vm_compute; reflexivity|].
    split; [repeat constructor|].
    split; [left; reflexivity|].
    split; cbn; intros H; decompose [or] H; discriminate || contradiction. }
  intros tts train_idx val_idx test_idx k Hs Hall Hk Htrain Hval.
  assert (Hk4 : (k < 4)%nat).
  { rewrite !Forall_app in Hall. destruct Hall as (_ & _ & Hte).
    rewrite Forall_forall in Hte. exact (Hte k Hk). }
  split.
  { destruct k as [|[|[|[|k]]]]; [reflexivity..|lia]. }
  split.
  { apply take_ext. intros i Hi. apply changed_at_elsewhere. congruence. }
  split.
  { apply take_ext. intros i Hi. apply changed_at_elsewhere. congruence. }
  destruct assemble_dataset_a as (a & Ha & La & Ya & Lc & Ly & Ma).
  destruct (assemble_changed Hk4) as (b & Hb & Lb & Yb & Lcb & Lyb & Mb).
  destruct (@load_and_preprocess_returns tts dataset_a a train_idx val_idx test_idx)
    as (splits_a & Ea); try congruence.
  { rewrite La, Ya. exact Hs. }
  { rewrite La. exact Hall. }
  destruct (@load_and_preprocess_returns tts (changed_at k) b train_idx val_idx
              test_idx) as (splits_b & Eb); try congruence.
  { rewrite Lb, Yb. exact Hs. }
  { rewrite Lb. exact Hall. }
  exists (a_scalers a), splits_a, (a_scalers b), splits_b.
  split; [exact Ea|]. split; [exact Eb|].
  rewrite Ma, Mb. discriminate.
Qed.

Lemma scalers_fitted_on_every_example_witness :
  exists fitted splits features Xc Xx Xi,
    load_and_preprocess centering_fit_transform centering_fit_transform
                        ordered_split dataset_b = Ok (fitted, splits) /\
    extract_features dataset_b = Ok features /\
    length features = length dataset_b /\
    centering_fit_transform (concat (map f_candles features))
      = Ok (candle_scaler fitted, Xc) /\
    centering_fit_transform (map f_context features)
      = Ok (context_scaler fitted, Xx) /\
    centering_fit_transform (map f_indicators features)
      = Ok (indicator_scaler fitted, Xi).
Proof.
  destruct (load_and_preprocess centering_fit_transform centering_fit_transform
              ordered_split dataset_b) as [[fitted splits]|e] eqn:E;
    [|vm_compute in E; discriminate E].
  destruct (@scalers_fitted_on_every_example _ _ centering_fit_transform
              centering_fit_transform ordered_split dataset_b fitted splits E)
    as (features & Xc & Xx & Xi & H).
  exists fitted, splits, features, Xc, Xx, Xi. split; [reflexivity|exact H].
Defined.

End Preprocessor.

(** ** convert_scalers.py *)

Module Scalers.
Import Py Lqa.
Local Open Scope Q_scope.
Local Open Scope string_scope.

(** A fitted scikit-learn scaler object with the attributes the converter
    reads. *)
Inductive Scaler : Type :=
| RobustScaler (center_ scale_ : list Q) (n_features_in_ : nat)
| StandardScaler (mean_ scale_ var_ : list Q) (n_features_in_ : nat).

(** The unpickled dictionary of scalers. *)
Definition ScalerDict : Type := list (string * Scaler).

(** A JSON document. *)
#[warnings="-register-all"]
Inductive json : Type :=
| JNull
| JBool (b : bool)
| JNumber (q : Q)
| JString (s : string)
| JArray (items : list json)
| JObject (fields : list (string * json)).

Fixpoint lookup {A : Type} (key : string) (d : list (string * A)) : option A :=
  match d with
  | [] => None
  | (k, v) :: rest => if String.eqb k key then Some v else lookup key rest
  end.

(** [array.tolist()]. *)
Definition tolist (xs : list Q) : json := JArray (map JNumber xs).

Definition int (n : nat) : json := JNumber (inject_Z (Z.of_nat n)).

(** Lines 44-51: the entry written for the candle scaler.  Reading
    [center_] off an object that is no [RobustScaler] raises
    [AttributeError]. *)
Definition robust_entry (s : Scaler) : result json :=
  match s with
  | RobustScaler center scale n =>
      Ok (JObject [("type", JString "RobustScaler");
                   ("center_", tolist center);
                   ("scale_", tolist scale);
                   ("n_features_in_", int n)])
  | StandardScaler _ _ _ _ =>
      Raise (AttributeError "'StandardScaler' object has no attribute 'center_'")
  end.

(** Lines 55-63 and 67-75: the entry written for a standard scaler. *)
Definition standard_entry (s : Scaler) : result json :=
  match s with
  | StandardScaler mean scale var n =>
      Ok (JObject [("type", JString "StandardScaler");
                   ("mean_", tolist mean);
                   ("scale_", tolist scale);
                   ("var_", tolist var);
                   ("n_features_in_", int n)])
  | RobustScaler _ _ _ =>
      Raise (AttributeError "'RobustScaler' object has no attribute 'mean_'")
  end.

(** [if key in scalers: scaler_json[key] = entry(scalers[key])]. *)
Definition add_entry (key : string) (entry : Scaler -> result json)
    (scalers : ScalerDict) (scaler_json : list (string * json))
  : result (list (string * json)) :=
  match lookup key scalers with
  | Some s => e <- entry s ;; Ok (scaler_json ++ [(key, e)])%list
  | None => Ok scaler_json
  end.

(** Lines 92-94: the three assertions on the document read back. *)
Definition validate (loaded : list (string * json)) : result unit :=
  match lookup "candle_scaler" loaded with
  | None => Raise (AssertionError "Missing candle_scaler")
  | Some _ =>
    match lookup "context_scaler" loaded with
    | None => Raise (AssertionError "Missing context_scaler")
    | Some _ =>
      match lookup "indicator_scaler" loaded with
      | None => Raise (AssertionError "Missing indicator_scaler")
      | Some _ => Ok tt
      end
    end
  end.

(** [convert_scalers]: the document written to [scalers.json], when the
    function returns [True]; every exception makes it return [False]. *)
Definition convert_scalers (scalers : ScalerDict) : result json :=
  let scaler_json := [] in
  scaler_json <- add_entry "candle_scaler" robust_entry scalers scaler_json ;;
  scaler_json <- add_entry "context_scaler" standard_entry scalers scaler_json ;;
  scaler_json <- add_entry "indicator_scaler" standard_entry scalers scaler_json ;;
  _ <- validate scaler_json ;;
  Ok (JObject scaler_json).

(** *** Reading the document back ([verify_scalers]) *)

(** [d[key]] on a JSON value. *)
Definition getkey (d : json) (key : string) : result json :=
  match d with
  | JObject fields =>
      match lookup key fields with
      | Some v => Ok v
      | None => Raise (KeyError key)
      end
  | _ => Raise (TypeError "not subscriptable by a key")
  end.

(** [a[j]] on a JSON array of numbers. *)
Definition getnumber (a : json) (j : nat) : result Q :=
  match a with
  | JArray items =>
      match nth_error items j with
      | Some (JNumber q) => Ok q
      | Some _ => Raise (TypeError "unsupported operand type")
      | None => Raise IndexError
      end
  | _ => Raise (TypeError "not subscriptable by an index")
  end.

(** [enumerate(sample)]. *)
Definition enumerate {A : Type} (xs : list A) : list (nat * A) :=
  combine (seq 0 (length xs)) xs.

Fixpoint mapM {A B : Type} (f : A -> result B) (xs : list A) : result (list B) :=
  match xs with
  | [] => Ok []
  | x :: rest => y <- f x ;; ys <- mapM f rest ;; Ok (y :: ys)
  end.

(** [[(val - scaler[center_key][j]) / scaler['scale_'][j]
      for j, val in enumerate(sample)]] (lines 163-164, 174-175, 185-186).
    The sample holds numpy floats, whose division does not raise. *)
Definition scale_sample (scaler : json) (center_key : string) (sample : list Q)
  : result (list Q) :=
  mapM (fun jv : nat * Q =>
          let (j, val) := jv in
          center <- getkey scaler center_key ;;
          c <- getnumber center j ;;
          scale <- getkey scaler "scale_" ;;
          s <- getnumber scale j ;;
          Ok ((val - c) / s))
       (enumerate sample).

Definition json_candle_transform (json_scalers : json) (sample : list Q) :=
  candle_scaler <- getkey json_scalers "candle_scaler" ;;
  scale_sample candle_scaler "center_" sample.

Definition json_context_transform (json_scalers : json) (sample : list Q) :=
  context_scaler <- getkey json_scalers "context_scaler" ;;
  scale_sample context_scaler "mean_" sample.

Definition json_indicator_transform (json_scalers : json) (sample : list Q) :=
  indicator_scaler <- getkey json_scalers "indicator_scaler" ;;
  scale_sample indicator_scaler "mean_" sample.

(** *** The in-memory transform *)

Definition n_features (s : Scaler) : nat :=
  match s with
  | RobustScaler _ _ n => n
  | StandardScaler _ _ _ n => n
  end.

Definition center_of (s : Scaler) : list Q :=
  match s with
  | RobustScaler center _ _ => center
  | StandardScaler mean _ _ _ => mean
  end.

Definition scale_of (s : Scaler) : list Q :=
  match s with
  | RobustScaler _ scale _ => scale
  | StandardScaler _ scale _ _ => scale
  end.

(** Modelled from the spec: scikit-learn's [transform] of a fitted scaler on
    one row, which is not part of the sources.  It "requires input
    feature-count to exactly equal the recorded fit-time feature count" and
    computes [(x - center[f]) / scale[f]] (robust) or
    [(x - mean[f]) / scale[f]] (standard) for every feature [f]. *)
Definition transform (s : Scaler) (x : list Q) : result (list Q) :=
  if (length x =? n_features s)%nat
  then Ok (map (fun xcs : Q * (Q * Q) =>
                  let '(v, (c, sc)) := xcs in (v - c) / sc)
               (combine x (combine (center_of s) (scale_of s))))
  else Raise (ValueError "X has a different number of features than the scaler was fitted with").

(** A fitted scaler: one statistic per feature, and no stored scale is zero
    (a constant feature gets the scale 1 at fit time). *)
Definition fitted (s : Scaler) : Prop :=
  length (center_of s) = n_features s /\
  length (scale_of s) = n_features s /\
  Forall (fun sc => ~ sc == 0) (scale_of s).

(** Agreement of two outputs within the tolerance [1e-6], feature by
    feature. *)
Definition agree (y y' : list Q) : Prop :=
  Forall2 (fun a b => Qabs (a - b) <= 1e-6) y y'.

(** *** Sample scalers *)

Definition sample_candle_scaler : Scaler :=
  RobustScaler [0.001; 0.0012; 0.0009; 0.0011; 1000]
               [0.0002; 0.0002; 0.0002; 0.0002; 500] 5.

Definition sample_context_scaler : Scaler :=
  StandardScaler [400000; 900000; 120; 3; 200000]
                 [100000; 300000; 40; 1.5; 50000]
                 [10000000000; 90000000000; 1600; 2.25; 2500000000] 5.

Definition sample_indicator_scaler : Scaler :=
  StandardScaler [50; 0; 0.001; 0.001; 0.04]
                 [10; 0.0002; 0.0005; 0.0005; 0.02]
                 [100; 0.00000004; 0.00000025; 0.00000025; 0.0004] 5.

Definition sample_scalers : ScalerDict :=
  [("candle_scaler", sample_candle_scaler);
   ("context_scaler", sample_context_scaler);
   ("indicator_scaler", sample_indicator_scaler)].


(** *** The round trip *)

(** What one element of the comprehension computes once the two arrays are
    at hand. *)
Definition scale_entry (center scale : list Q) (jv : nat * Q) : result Q :=
  let (j, val) := jv in
  c <- getnumber (tolist center) j ;;
  s <- getnumber (tolist scale) j ;;
  Ok ((val - c) / s).

Lemma mapM_ext {A B : Type} (f g : A -> result B) (xs : list A) :
  (forall x, f x = g x) -> mapM f xs = mapM g xs.
Proof.
  intros H. induction xs as [|x rest IH]; cbn; [reflexivity|].
  now rewrite H, IH.
Qed.

Lemma getnumber_tolist (pre post : list Q) (q : Q) :
  getnumber (tolist (pre ++ q :: post)) (length pre) = Ok q.
Proof.
  unfold getnumber, tolist.
  rewrite nth_error_map, nth_error_app2, Nat.sub_diag by lia. reflexivity.
Qed.

Lemma mapM_scale_entry (x pc ps cs ss : list Q) :
  length pc = length ps -> length cs = length x -> length ss = length x ->
  mapM (scale_entry (pc ++ cs) (ps ++ ss)) (combine (seq (length pc) (length x)) x)
  = Ok (map (fun xcs : Q * (Q * Q) => let '(v, (c, sc)) := xcs in (v - c) / sc)
            (combine x (combine cs ss))).
Proof.
  revert pc ps cs ss.
  induction x as [|v x IH]; intros pc ps cs ss Hp Hc Hs; [reflexivity|].
  destruct cs as [|c cs]; [discriminate|]. destruct ss as [|sc ss]; [discriminate|].
  cbn [length seq combine mapM map]. unfold scale_entry at 1.
  rewrite getnumber_tolist. cbn [bind]. rewrite Hp, getnumber_tolist. cbn [bind].
  specialize (IH (pc ++ [c])%list (ps ++ [sc])%list cs ss).
  rewrite !length_app in IH. cbn [length] in IH.
  rewrite <- !app_assoc in IH. cbn [app] in IH.
  replace (length pc + 1)%nat with (S (length pc)) in IH by lia.
  rewrite <- Hp. rewrite IH; [reflexivity|lia|cbn in Hc; lia|cbn in Hs; lia].
Qed.

Lemma scale_sample_entry (fields : list (string * json)) (center_key : string)
    (center scale x : list Q) :
  lookup center_key fields = Some (tolist center) ->
  lookup "scale_" fields = Some (tolist scale) ->
  length center = length x -> length scale = length x ->
  scale_sample (JObject fields) center_key x
  = Ok (map (fun xcs : Q * (Q * Q) => let '(v, (c, sc)) := xcs in (v - c) / sc)
            (combine x (combine center scale))).
Proof.
  intros Hc Hs Lc Ls. unfold scale_sample, enumerate.
  rewrite (@mapM_ext _ _ _ (scale_entry center scale)).
  - apply (@mapM_scale_entry x [] [] center scale); auto.
  - intros [j val]. unfold getkey. rewrite Hc, Hs. reflexivity.
Qed.

Lemma agree_refl (y : list Q) : agree y y.
Proof.
  unfold agree. induction y as [|a y IH]; constructor; [|exact IH].
  setoid_replace (a - a) with 0 by ring. vm_compute. discriminate.
Qed.

(** The export followed by the reading back computes what the in-memory
    scaler computes. *)
Lemma entry_round_trip (s : Scaler) (fields : list (string * json))
    (center_key : string) (x : list Q) :
  lookup center_key fields = Some (tolist (center_of s)) ->
  lookup "scale_" fields = Some (tolist (scale_of s)) ->
  fitted s -> length x = n_features s ->
  exists y, transform s x = Ok y /\ scale_sample (JObject fields) center_key x = Ok y.
Proof.
  intros Hc Hs (Lc & Ls & _) Lx. unfold transform.
  apply Nat.eqb_eq in Lx as Hb. rewrite Hb.
  eexists. split; [reflexivity|].
  apply scale_sample_entry; auto; congruence.
Qed.

(** The document of a successful conversion has the three entries, each
    written from the scaler of its kind. *)
Lemma convert_scalers_inv (scalers : ScalerDict) (doc : json) :
  convert_scalers scalers = Ok doc ->
  exists candle context indicator ce xe ie,
    lookup "candle_scaler" scalers = Some candle /\
    lookup "context_scaler" scalers = Some context /\
    lookup "indicator_scaler" scalers = Some indicator /\
    robust_entry candle = Ok ce /\
    standard_entry context = Ok xe /\
    standard_entry indicator = Ok ie /\
    doc = JObject [("candle_scaler", ce); ("context_scaler", xe);
                   ("indicator_scaler", ie)].
Proof.
  unfold convert_scalers, add_entry. intros H.
  destruct (lookup "candle_scaler" scalers) as [candle|];
    [destruct (robust_entry candle) as [ce|] eqn:Ec; [|discriminate]|];
    (destruct (lookup "context_scaler" scalers) as [context|];
     [destruct (standard_entry context) as [xe|] eqn:Ex; [|discriminate]|]);
    (destruct (lookup "indicator_scaler" scalers) as [indicator|];
     [destruct (standard_entry indicator) as [ie|] eqn:Ei; [|discriminate]|]);
    cbn in H; try discriminate.
  injection H as <-. exists candle, context, indicator, ce, xe, ie.
  repeat split; assumption.
Qed.

Lemma robust_round_trip (s : Scaler) (e : json) (x : list Q) :
  robust_entry s = Ok e -> fitted s -> length x = n_features s ->
  exists y, transform s x = Ok y /\ scale_sample e "center_" x = Ok y.
Proof.
  destruct s as [center scale n|]; [|discriminate].
  intros H Hf Hx. injection H as <-.
  apply entry_round_trip; auto.
Qed.

Lemma standard_round_trip (s : Scaler) (e : json) (x : list Q) :
  standard_entry s = Ok e -> fitted s -> length x = n_features s ->
  exists y, transform s x = Ok y /\ scale_sample e "mean_" x = Ok y.
Proof.
  destruct s as [|mean scale var n]; [discriminate|].
  intros H Hf Hx. injection H as <-.
  apply entry_round_trip; auto.
Qed.

(** C8: for every dictionary of scalers the converter accepts, and every
    fitted scaler in it, the transform computed from the exported document
    agrees with the scaler's own transform within 1e-6 on every feature, for
    every input of the recorded width. *)
Theorem export_import_round_trip (scalers : ScalerDict) (doc : json) :
  convert_scalers scalers = Ok doc ->
  exists candle context indicator,
    lookup "candle_scaler" scalers = Some candle /\
    lookup "context_scaler" scalers = Some context /\
    lookup "indicator_scaler" scalers = Some indicator /\
    (forall x, fitted candle -> length x = n_features candle ->
       exists y y', transform candle x = Ok y /\
                    json_candle_transform doc x = Ok y' /\ agree y y') /\
    (forall x, fitted context -> length x = n_features context ->
       exists y y', transform context x = Ok y /\
                    json_context_transform doc x = Ok y' /\ agree y y') /\
    (forall x, fitted indicator -> length x = n_features indicator ->
       exists y y', transform indicator x = Ok y /\
                    json_indicator_transform doc x = Ok y' /\ agree y y').
Proof.
  intros H.
  destruct (@convert_scalers_inv _ _ H)
    as (candle & context & indicator & ce & xe & ie
        & Lc & Lx & Li & Ec & Ex & Ei & ->).
  exists candle, context, indicator. repeat (split; [assumption|]).
  repeat split; intros x Hf Hlen.
  - destruct (@robust_round_trip _ _ x Ec Hf Hlen) as (y & Hy & Hy').
    exists y, y. split; [exact Hy|]. split; [exact Hy'|apply agree_refl].
  - destruct (@standard_round_trip _ _ x Ex Hf Hlen) as (y & Hy & Hy').
    exists y, y. split; [exact Hy|]. split; [exact Hy'|apply agree_refl].
  - destruct (@standard_round_trip _ _ x Ei Hf Hlen) as (y & Hy & Hy').
    exists y, y. split; [exact Hy|]. split; [exact Hy'|apply agree_refl].
Qed.

Lemma sample_scalers_fitted :
  fitted sample_candle_scaler /\ fitted sample_context_scaler /\
  fitted sample_indicator_scaler.
Proof.
  unfold fitted. cbn.
  repeat split; repeat constructor; intros H; discriminate H.
Qed.

Lemma export_import_round_trip_witness :
  exists doc candle context indicator,
    convert_scalers sample_scalers = Ok doc /\
    lookup "candle_scaler" sample_scalers = Some candle /\
    lookup "context_scaler" sample_scalers = Some context /\
    lookup "indicator_scaler" sample_scalers = Some indicator /\
    (forall x, fitted candle -> length x = n_features candle ->
       exists y y', transform candle x = Ok y /\
                    json_candle_transform doc x = Ok y' /\ agree y y') /\
    (forall x, fitted context -> length x = n_features context ->
       exists y y', transform context x = Ok y /\
                    json_context_transform doc x = Ok y' /\ agree y y') /\
    (forall x, fitted indicator -> length x = n_features indicator ->
       exists y y', transform indicator x = Ok y /\
                    json_indicator_transform doc x = Ok y' /\ agree y y').
Proof.
  destruct (convert_scalers sample_scalers) as [doc|e] eqn:E;
    [|vm_compute in E; discriminate E].
  destruct (@export_import_round_trip sample_scalers doc E)
    as (candle & context & indicator & H).
  exists doc, candle, context, indicator. split; [reflexivity|exact H].
Defined.

End Scalers.

(** ** inference.py *)

Module Inference.
Import Py Reals Lra.
Local Open Scope R_scope.
Local Open Scope string_scope.

(** *** Lines *)

(** [str.isspace] on the code points below 256: tab to carriage return,
    the four separators 28-31, space, NEL and the no-break space. *)
Definition is_space (c : ascii) : bool :=
  let n := nat_of_ascii c in
  ((9 <=? n) && (n <=? 13) || (28 <=? n) && (n <=? 32)
   || (n =? 133) || (n =? 160))%nat.

Fixpoint lstrip (s : string) : string :=
  match s with
  | EmptyString => EmptyString
  | String c rest => if is_space c then lstrip rest else s
  end.

Fixpoint rstrip (s : string) : string :=
  match s with
  | EmptyString => EmptyString
  | String c rest =>
      match rstrip rest with
      | EmptyString => if is_space c then EmptyString else String c EmptyString
      | kept => String c kept
      end
  end.

(** [line.strip()]. *)
Definition strip (s : string) : string := rstrip (lstrip s).

(** The line is empty or made of whitespace only. *)
Fixpoint blank (s : string) : bool :=
  match s with
  | EmptyString => true
  | String c rest => is_space c && blank rest
  end.

(** [not line]. *)
Definition is_empty (s : string) : bool :=
  match s with
  | EmptyString => true
  | String _ _ => false
  end.

(** *** Arrays and tensors *)

(** A numpy array or a torch tensor: its shape and its data in row-major
    order. *)
Record ndarray : Type := mkArray {
  shape : list nat;
  data : list R
}.

Definition shape_eqb (s t : list nat) : bool :=
  if list_eq_dec Nat.eq_dec s t then true else false.

(** [x.reshape(1, -1)]. *)
Definition reshape_row (x : ndarray) : ndarray :=
  mkArray [1%nat; length (data x)] (data x).

(** [X[0]]. *)
Definition first_row (X : ndarray) : result ndarray :=
  match shape X with
  | S _ :: rest => Ok (mkArray rest (firstn (fold_right Nat.mul 1%nat rest) (data X)))
  | O :: _ => Raise IndexError
  | [] => Raise IndexError
  end.

(** [np.concatenate([a, b, c])] where [c] is one-dimensional: the three
    arrays must have one dimension each. *)
Definition concatenate (a b c : ndarray) : result ndarray :=
  match shape a, shape b, shape c with
  | [na], [nb], [nc] =>
      Ok (mkArray [(na + nb + nc)%nat] (data a ++ data b ++ data c)%list)
  | _, _, _ =>
      Raise (ValueError "all the input arrays must have same number of dimensions")
  end.

(** [torch.tensor(x, dtype=torch.float32).unsqueeze(0)]. *)
Definition unsqueeze0 (x : ndarray) : ndarray :=
  mkArray (1%nat :: shape x) (data x).

(** [torch.sigmoid] on a real number and on a tensor. *)
Definition sigmoid (x : R) : R := 1 / (1 + exp (- x)).

Definition torch_sigmoid (t : ndarray) : ndarray :=
  mkArray (shape t) (map sigmoid (data t)).

(** [t.item()]: the value of a tensor of one element. *)
Definition item (t : ndarray) : result R :=
  match data t with
  | [v] => Ok v
  | _ => Raise (RuntimeError "a Tensor with several elements cannot be converted to Scalar")
  end.

(** *** Responses *)

(** The dictionary written for a request; [error] is present on the
    fail-closed responses only. *)
Record Response : Type := mkResponse {
  error : option string;
  profitable : R;
  max_profit : R;
  rug_risk : R;
  confidence : R
}.

Definition fail_closed (description : string) : Response :=
  mkResponse (Some description) 0.0 0.0 1.0 0.0.

(** [str(e)]. *)
Definition str (e : exn) : string :=
  match e with
  | ZeroDivisionError => "division by zero"
  | IndexError => "index out of range"
  | KeyError key => "'" ++ key ++ "'"
  | ValueError msg => msg
  | TypeError msg => msg
  | AttributeError msg => msg
  | AssertionError msg => msg
  | RuntimeError msg => msg
  | JSONDecodeError msg => msg
  end.

Section Server.

(** The collaborators of the server: the parsed request and [json.loads];
    [np.array(raw_input[key], dtype=np.float32)]; the [transform] of the
    scaler stored under a name; the loaded model. *)
Variable request : Type.
Variable json_loads : string -> result request.
Variable np_array_field : request -> string -> result ndarray.
Variable scaler_transform : string -> ndarray -> result ndarray.
Variable model : ndarray -> ndarray -> result (ndarray * ndarray * ndarray).

Definition preprocess (raw_input : request) : result (ndarray * ndarray) :=
  candles <- np_array_field raw_input "candles" ;;
  context <- np_array_field raw_input "context" ;;
  indicators <- np_array_field raw_input "indicators" ;;
  patterns <- np_array_field raw_input "patterns" ;;
  if negb (shape_eqb (shape candles) [100; 5]%nat)
  then Raise (ValueError "Expected candles shape (100, 5)")
  else if negb (shape_eqb (shape context) [5%nat])
  then Raise (ValueError "Expected context shape (5,)")
  else if negb (shape_eqb (shape indicators) [5%nat])
  then Raise (ValueError "Expected indicators shape (5,)")
  else if negb (shape_eqb (shape patterns) [8%nat])
  then Raise (ValueError "Expected patterns shape (8,)")
  else
    candles_scaled <- scaler_transform "candle_scaler" candles ;;
    context_2d <- scaler_transform "context_scaler" (reshape_row context) ;;
    context_scaled <- first_row context_2d ;;
    indicators_2d <- scaler_transform "indicator_scaler" (reshape_row indicators) ;;
    indicators_scaled <- first_row indicators_2d ;;
    let patterns_scaled := patterns in
    combined <- concatenate context_scaled indicators_scaled patterns_scaled ;;
    Ok (unsqueeze0 candles_scaled, unsqueeze0 combined).

(** The body of the [try] block of [predict]. *)
Definition infer (raw_input : request) : result Response :=
  '(candles, combined) <- preprocess raw_input ;;
  '(profitable_logit, max_profit_pred, rug_logit) <- model candles combined ;;
  profitable_prob <- item (torch_sigmoid profitable_logit) ;;
  rug_prob <- item (torch_sigmoid rug_logit) ;;
  max_profit_value <- item max_profit_pred ;;
  let profitable_confidence := Rabs (profitable_prob - 0.5) * 2 in
  let rug_confidence := Rabs (rug_prob - 0.5) * 2 in
  let overall_confidence := (profitable_confidence + rug_confidence) / 2 in
  Ok (mkResponse None profitable_prob max_profit_value rug_prob overall_confidence).

Definition predict (raw_input : request) : Response :=
  match infer raw_input with
  | Ok result => result
  | Raise e => fail_closed (str e)
  end.

(** One iteration of the loop of [run]: the responses printed for a line. *)
Definition handle_line (line : string) : list Response :=
  let line := strip line in
  if is_empty line then []
  else
    match json_loads line with
    | Ok request => [predict request]
    | Raise (JSONDecodeError msg) => [fail_closed ("Invalid JSON: " ++ msg)]
    | Raise e => [fail_closed ("Inference failed: " ++ str e)]
    end.

(** [run]: the responses printed for the lines of the standard input, until
    it ends. *)
Fixpoint run (stdin : list string) : list Response :=
  match stdin with
  | [] => []
  | line :: rest => (handle_line line ++ run rest)%list
  end.

(** A stage of the processing of a line fails: parsing, shape validation,
    scaling, the model, or any other step of [predict]. *)
Inductive stage_fails (line : string) : Prop :=
| parse_fails (e : exn) :
    json_loads (strip line) = Raise e -> stage_fails line
| shape_fails (raw : request) (candles context indicators patterns : ndarray) :
    json_loads (strip line) = Ok raw ->
    np_array_field raw "candles" = Ok candles ->
    np_array_field raw "context" = Ok context ->
    np_array_field raw "indicators" = Ok indicators ->
    np_array_field raw "patterns" = Ok patterns ->
    shape candles <> [100; 5]%nat \/ shape context <> [5%nat] \/
    shape indicators <> [5%nat] \/ shape patterns <> [8%nat] ->
    stage_fails line
| scaling_fails (raw : request) (candles context indicators patterns : ndarray)
    (name : string) (X : ndarray) (e : exn) :
    json_loads (strip line) = Ok raw ->
    np_array_field raw "candles" = Ok candles ->
    np_array_field raw "context" = Ok context ->
    np_array_field raw "indicators" = Ok indicators ->
    np_array_field raw "patterns" = Ok patterns ->
    In (name, X) [("candle_scaler", candles);
                  ("context_scaler", reshape_row context);
                  ("indicator_scaler", reshape_row indicators)] ->
    scaler_transform name X = Raise e ->
    stage_fails line
| model_fails (raw : request) (candles combined : ndarray) (e : exn) :
    json_loads (strip line) = Ok raw ->
    preprocess raw = Ok (candles, combined) ->
    model candles combined = Raise e -> stage_fails line
| step_fails (raw : request) (e : exn) :
    json_loads (strip line) = Ok raw ->
    infer raw = Raise e -> stage_fails line.

End Server.

(** *** A stub server

    A parser that knows one request, scalers that leave their input
    unchanged, and a model that returns the scores (0.7, 4.0, 0.05). *)

Definition stub_request : Type := list (string * ndarray).

Definition example_request : stub_request :=
  [("candles",
    mkArray [100; 5]%nat
            (concat (repeat [0.001; 0.0012; 0.0009; 0.0011; 1000] 100)));
   ("context", mkArray [5%nat] [500000; 1000000; 150; 2.5; 250000]);
   ("indicators", mkArray [5%nat] [55; 0.0001; 0.0011; 0.001; 0.05]);
   ("patterns", mkArray [8%nat] [1; 0; 1; 0; 3.5; 0.7; 0.75; 0.6])].

(** The text of [example_request] on the wire. *)
Definition example_line : string := "<example request>".

Definition stub_loads (line : string) : result stub_request :=
  if String.eqb line example_line then Ok example_request
  else Raise (JSONDecodeError "Expecting value: line 1 column 1 (char 0)").

Fixpoint lookup (key : string) (d : stub_request) : option ndarray :=
  match d with
  | [] => None
  | (k, v) :: rest => if String.eqb k key then Some v else lookup key rest
  end.

Definition stub_array_field (raw : stub_request) (key : string) : result ndarray :=
  match lookup key raw with
  | Some a => Ok a
  | None => Raise (KeyError key)
  end.

Definition identity_transform (name : string) (X : ndarray) : result ndarray :=
  Ok X.

(** A tensor of shape (1, 1). *)
Definition scalar (v : R) : ndarray := mkArray [1; 1]%nat [v].

Definition stub_model (candles combined : ndarray)
  : result (ndarray * ndarray * ndarray) :=
  Ok (scalar 0.7, scalar 4.0, scalar 0.05).

Definition stub_predict : stub_request -> Response :=
  predict stub_array_field identity_transform stub_model.

Definition stub_run : list string -> list Response :=
  run stub_loads stub_array_field identity_transform stub_model.

(** A line of two spaces and a line feed. *)
Definition blank_line : string := "  " ++ String (ascii_of_nat 10) EmptyString.

(** The confidence the specification computes from two scores. *)
Definition spec_confidence (profitable_score rug_score : R) : R :=
  (Rabs (profitable_score - 0.5) * 2 + Rabs (rug_score - 0.5) * 2) / 2.

(** *** Blank lines *)

Lemma lstrip_blank (s : string) : blank s = true -> lstrip s = EmptyString.
Proof.
  induction s as [|c rest IH]; cbn; [reflexivity|].
  destruct (is_space c); cbn; [exact IH|discriminate].
Qed.

Lemma rstrip_keeps_head (c : ascii) (rest : string) :
  is_space c = false -> rstrip (String c rest) <> EmptyString.
Proof.
  intros Hc. cbn. destruct (rstrip rest); [rewrite Hc|]; discriminate.
Qed.

Lemma strip_blank (s : string) : is_empty (strip s) = blank s.
Proof.
  unfold strip. induction s as [|c rest IH]; cbn; [reflexivity|].
  destruct (is_space c) eqn:Hc; cbn; [exact IH|].
  pose proof (@rstrip_keeps_head c rest Hc) as H. cbn in H.
  destruct (rstrip rest); [rewrite Hc in *|]; reflexivity.
Qed.

Section ServerProperties.

Variable request : Type.
Variable json_loads : string -> result request.
Variable np_array_field : request -> string -> result ndarray.
Variable scaler_transform : string -> ndarray -> result ndarray.
Variable model : ndarray -> ndarray -> result (ndarray * ndarray * ndarray).

Local Abbreviation preprocess := (preprocess np_array_field scaler_transform).
Local Abbreviation infer := (infer np_array_field scaler_transform model).
Local Abbreviation predict := (predict np_array_field scaler_transform model).
Local Abbreviation handle_line :=
  (handle_line json_loads np_array_field scaler_transform model).
Local Abbreviation run := (run json_loads np_array_field scaler_transform model).
Local Abbreviation stage_fails :=
  (stage_fails json_loads np_array_field scaler_transform model).

Lemma run_app (l1 l2 : list string) : run (l1 ++ l2) = (run l1 ++ run l2)%list.
Proof.
  induction l1 as [|line rest IH]; cbn; [reflexivity|].
  now rewrite IH, app_assoc.
Qed.

Lemma shape_eqb_false (s t : list nat) : s <> t -> shape_eqb s t = false.
Proof. intros H. unfold shape_eqb. destruct (list_eq_dec Nat.eq_dec s t); tauto. Qed.

Lemma shape_eqb_cases (s t : list nat) :
  (shape_eqb s t = true /\ s = t) \/ (shape_eqb s t = false /\ s <> t).
Proof. unfold shape_eqb. destruct (list_eq_dec Nat.eq_dec s t); auto. Qed.

(** A failing shape validation makes [preprocess] raise. *)
Lemma preprocess_shape_error raw candles context indicators patterns :
  np_array_field raw "candles" = Ok candles ->
  np_array_field raw "context" = Ok context ->
  np_array_field raw "indicators" = Ok indicators ->
  np_array_field raw "patterns" = Ok patterns ->
  shape candles <> [100; 5]%nat \/ shape context <> [5%nat] \/
  shape indicators <> [5%nat] \/ shape patterns <> [8%nat] ->
  exists e, preprocess raw = Raise e.
Proof.
  intros Hc Hx Hi Hp H. unfold Inference.preprocess.
  rewrite Hc, Hx, Hi, Hp. cbn [bind].
  destruct (shape_eqb_cases (shape candles) [100; 5]%nat) as [[-> E1]|[-> _]];
    cbn [negb]; [|eauto].
  destruct (shape_eqb_cases (shape context) [5%nat]) as [[-> E2]|[-> _]];
    cbn [negb]; [|eauto].
  destruct (shape_eqb_cases (shape indicators) [5%nat]) as [[-> E3]|[-> _]];
    cbn [negb]; [|eauto].
  destruct (shape_eqb_cases (shape patterns) [8%nat]) as [[-> E4]|[-> _]];
    cbn [negb]; [|eauto].
  tauto.
Qed.

(** A scaler that raises makes [preprocess] raise. *)
Lemma preprocess_scaling_error raw candles context indicators patterns name X e :
  np_array_field raw "candles" = Ok candles ->
  np_array_field raw "context" = Ok context ->
  np_array_field raw "indicators" = Ok indicators ->
  np_array_field raw "patterns" = Ok patterns ->
  In (name, X) [("candle_scaler", candles);
                ("context_scaler", reshape_row context);
                ("indicator_scaler", reshape_row indicators)] ->
  scaler_transform name X = Raise e ->
  exists e', preprocess raw = Raise e'.
Proof.
  intros Hc Hx Hi Hp Hin He. unfold Inference.preprocess.
  rewrite Hc, Hx, Hi, Hp. cbn [bind].
  repeat match goal with
         | |- context [if ?b then _ else _] => destruct b; [eauto|]
         end.
  destruct (scaler_transform "candle_scaler" candles) as [cs|e1] eqn:E1;
    cbn [bind]; [|eauto].
  destruct (scaler_transform "context_scaler" (reshape_row context))
    as [x2|e2] eqn:E2; cbn [bind]; [|eauto].
  destruct (first_row x2) as [xs|e3]; cbn [bind]; [|eauto].
  destruct (scaler_transform "indicator_scaler" (reshape_row indicators))
    as [i2|e4] eqn:E4; cbn [bind]; [|eauto].
  exfalso. cbn in Hin.
  destruct Hin as [H|[H|[H|[]]]]; injection H as <- <-; congruence.
Qed.

Lemma infer_preprocess_error raw e :
  preprocess raw = Raise e -> infer raw = Raise e.
Proof. intros H. unfold Inference.infer. now rewrite H. Qed.

Lemma infer_model_error raw candles combined e :
  preprocess raw = Ok (candles, combined) ->
  model candles combined = Raise e -> infer raw = Raise e.
Proof. intros H1 H2. unfold Inference.infer. rewrite H1. cbn. now rewrite H2. Qed.

Lemma handle_line_parse_error line e :
  blank line = false -> json_loads (strip line) = Raise e ->
  exists description, handle_line line = [fail_closed description].
Proof.
  intros Hb He. unfold Inference.handle_line.
  rewrite strip_blank, Hb, He. destruct e; eauto.
Qed.

Lemma handle_line_infer_error line raw e :
  blank line = false -> json_loads (strip line) = Ok raw ->
  infer raw = Raise e ->
  handle_line line = [fail_closed (str e)].
Proof.
  intros Hb Hl He. unfold Inference.handle_line, Inference.predict.
  now rewrite strip_blank, Hb, Hl, He.
Qed.


Lemma handle_line_nonblank line :
  blank line = false -> exists response, handle_line line = [response].
Proof.
  intros Hb. unfold Inference.handle_line. rewrite strip_blank, Hb.
  destruct (json_loads (strip line)) as [raw|e]; [eauto|destruct e; eauto].
Qed.

(** C10: a line that is empty or holds whitespace only prints nothing, and
    the loop goes on with the next line; the number of responses is the
    number of non-blank lines. *)
Theorem blank_line_emits_nothing (before after : list string) (line : string) :
  blank line = true ->
  handle_line line = [] /\
  run (before ++ line :: after) = run (before ++ after) /\
  length (run (before ++ line :: after))
  = length (filter (fun l => negb (blank l)) (before ++ after)).
Proof.
  intros Hb.
  assert (Hline : handle_line line = []).
  { unfold Inference.handle_line. now rewrite strip_blank, Hb. }
  assert (Hrun : run (before ++ line :: after) = run (before ++ after)).
  { rewrite !run_app. cbn [Inference.run]. now rewrite Hline. }
  split; [exact Hline|]. split; [exact Hrun|].
  rewrite Hrun. generalize (before ++ after)%list as lines.
  induction lines as [|l rest IH]; cbn [Inference.run filter]; [reflexivity|].
  rewrite length_app, IH.
  destruct (blank l) eqn:Hl; cbn [negb].
  - unfold Inference.handle_line. now rewrite strip_blank, Hl.
  - destruct (@handle_line_nonblank l Hl) as (r & ->). reflexivity.
Qed.

(** What [predict] answers when no stage fails: the sigmoid of the model's
    first and third outputs, and the confidence computed from these. *)
Lemma predict_scores raw candles combined p m r :
  preprocess raw = Ok (candles, combined) ->
  model candles combined = Ok (scalar p, scalar m, scalar r) ->
  predict raw
  = mkResponse None (sigmoid p) m (sigmoid r)
               (spec_confidence (sigmoid p) (sigmoid r)).
Proof.
  intros Hpre Hmodel. unfold Inference.predict, Inference.infer.
  rewrite Hpre. cbn [bind]. rewrite Hmodel. reflexivity.
Qed.

End ServerProperties.

(** *** The sigmoid *)

Lemma sigmoid_lt (x c : R) : 1 < c * (1 + exp (- x)) -> sigmoid x < c.
Proof.
  intros H. unfold sigmoid. pose proof (exp_pos (- x)) as Hpos.
  apply Rmult_lt_reg_r with (1 + exp (- x)); [lra|].
  unfold Rdiv. rewrite Rmult_1_l, Rinv_l by lra. exact H.
Qed.

Lemma sigmoid_gt (x c : R) : c * (1 + exp (- x)) < 1 -> c < sigmoid x.
Proof.
  intros H. unfold sigmoid. pose proof (exp_pos (- x)) as Hpos.
  apply Rmult_lt_reg_r with (1 + exp (- x)); [lra|].
  unfold Rdiv. rewrite Rmult_1_l, Rinv_l by lra. exact H.
Qed.

Lemma sigmoid_above_half (x : R) : 0 < x -> 1 / 2 < sigmoid x < 1.
Proof.
  intros Hx. pose proof (exp_pos (- x)) as Hpos.
  assert (Hlt : exp (- x) < 1).
  { rewrite <- exp_0. apply exp_increasing. lra. }
  split; [apply sigmoid_gt|apply sigmoid_lt]; lra.
Qed.

Lemma sigmoid_7_10 : sigmoid 0.7 < 0.7.
Proof.
  apply sigmoid_lt.
  set (q := - (0.7) / 4).
  assert (E : exp (- (0.7)) = exp q * exp q * (exp q * exp q)).
  { rewrite <- !exp_plus. f_equal. unfold q. lra. }
  pose proof (exp_ineq1_le q) as H. unfold q in H at 1.
  assert (H2 : 0.680625 <= exp q * exp q) by nra.
  assert (H4 : 0.46 <= exp (- (0.7))) by (rewrite E; nra).
  lra.
Qed.

Lemma sigmoid_5_100 : 1 / 2 < sigmoid 0.05 < 0.52.
Proof.
  split; [apply sigmoid_above_half; lra|].
  apply sigmoid_lt. pose proof (exp_ineq1_le (- (0.05))). lra.
Qed.

(** *** The stub server at work *)

Lemma stub_preprocess_example :
  exists candles combined,
    preprocess stub_array_field identity_transform example_request
    = Ok (candles, combined) /\
    shape candles = [1; 100; 5]%nat /\ shape combined = [1; 18]%nat.
Proof. do 2 eexists. split; [reflexivity|]. split; reflexivity. Qed.

(** C7, at the failing input: the model returns the scores
    (0.7, 4.0, 0.05), for which the specification's response is
    (0.7, 4.0, 0.05, 0.65); the server answers the sigmoid of the first and
    third score instead, so that profitable is below 0.7, rug_risk is above
    1/2 and the confidence is below 0.65. *)
Theorem stub_scores_go_through_sigmoid :
  (forall candles combined,
      stub_model candles combined = Ok (scalar 0.7, scalar 4.0, scalar 0.05)) /\
  spec_confidence 0.7 0.05 = 0.65 /\
  error (stub_predict example_request) = None /\
  profitable (stub_predict example_request) = sigmoid 0.7 /\
  max_profit (stub_predict example_request) = 4.0 /\
  rug_risk (stub_predict example_request) = sigmoid 0.05 /\
  profitable (stub_predict example_request) < 0.7 /\
  1 / 2 < rug_risk (stub_predict example_request) /\
  confidence (stub_predict example_request) < 0.65.
Proof.
  destruct stub_preprocess_example as (candles & combined & Hpre & _).
  unfold stub_predict.
  rewrite (@predict_scores _ stub_array_field identity_transform stub_model
             example_request candles combined 0.7 4.0 0.05 Hpre eq_refl).
  cbn [error profitable max_profit rug_risk confidence].
  pose proof sigmoid_7_10 as H7.
  destruct (@sigmoid_above_half 0.7) as [L7 U7]; [lra|].
  destruct sigmoid_5_100 as [L5 S5].
  split; [reflexivity|].
  split.
  { unfold spec_confidence.
    rewrite (Rabs_pos_eq (0.7 - 0.5)) by lra.
    rewrite (Rabs_left (0.05 - 0.5)) by lra. lra. }
  repeat (split; [reflexivity || lra|]).
  unfold spec_confidence.
  rewrite !Rabs_pos_eq by lra. lra.
Qed.


Lemma blank_line_emits_nothing_witness :
  handle_line stub_loads stub_array_field identity_transform stub_model
              blank_line = [] /\
  stub_run ([example_line] ++ blank_line :: [example_line])
  = stub_run ([example_line] ++ [example_line]) /\
  length (stub_run ([example_line] ++ blank_line :: [example_line]))
  = length (filter (fun l => negb (blank l)) ([example_line] ++ [example_line])).
Proof.
  apply (@blank_line_emits_nothing stub_request stub_loads stub_array_field
           identity_transform stub_model [example_line] [example_line]
           blank_line).
  reflexivity.
Defined.

(** A request of 99 candles fails the shape validation and is answered
    fail-closed. *)
Lemma short_window_fails_closed :
  stub_predict
    [("candles", mkArray [99; 5]%nat []);
     ("context", mkArray [5%nat] []);
     ("indicators", mkArray [5%nat] []);
     ("patterns", mkArray [8%nat] [])]
  = fail_closed "Expected candles shape (100, 5)".
Proof. reflexivity. Qed.

End Inference.

(** ** Further properties of the pattern detector and the scorer *)

Module PatternProperties.
Import Py Patterns Lqa.
Local Open Scope Q_scope.

(** *** Sample inputs *)

(** A bearish candle with no lower wick and an upper wick of three bodies:
    open 1.1, high 1.4, low 1.0, close 1.0. *)
Definition shooting_star : Candle := mkCandle 1.1 1.4 1.0 1.0 1000.

(** A candle that closes where it opened. *)
Definition doji : Candle := mkCandle 1 1.2 0.9 1 1000.

(** A strong bullish candle: open 1, high 2.1, low 1, close 2. *)
Definition marubozu : Candle := mkCandle 1 2.1 1 2 1000.

Definition no_liquidity : TokenContext := mkContext None 1000000 150 2.5 250000.

(** Twenty-five candles rising from 1 to 2 in steps. *)
Definition rising_window : list Candle :=
  repeat (flat 1) 20 ++ [flat 1.2; flat 1.4; flat 1.6; flat 1.8; marubozu].

(** The liquidity of a context, as the scorer reads it. *)
Definition liquidity_or_zero (ctx : TokenContext) : Q :=
  match liquidity ctx with Some l => l | None => 0 end.

(** X1: the three terms of the score add up to 0.75 at most, so the cap of
    1.0 is never reached: a returned score lies between 0 and 0.75. *)
Theorem context_score_at_most_three_quarters candles ctx s :
  calculate_context_score candles ctx = Ok s -> 0 <= s /\ s <= 0.75.
Proof.
  unfold calculate_context_score. intros H.
  assert (exists s2, (0 <= s2 /\ s2 <= 0.75) /\ s = min2 s2 1.0)
    as (s2 & Hs2 & ->).
  { destruct (20 <=? length candles)%nat.
    - inv_ok. all: eexists; (split; [|reflexivity]).
      all: repeat case_cmp; lra.
    - inv_ok. eexists; (split; [|reflexivity]). repeat case_cmp; lra. }
  destruct (min2_cases s2 1.0) as [[-> ?]|[-> ?]]; lra.
Qed.

Lemma context_score_at_most_three_quarters_witness :
  exists s,
    calculate_context_score rising_window sample_context = Ok s /\
    0 <= s /\ s <= 0.75.
Proof.
  destruct (calculate_context_score rising_window sample_context) as [s|e] eqn:E;
    [|vm_compute in E; discriminate E].
  exists s. split; [reflexivity|].
  exact (@context_score_at_most_three_quarters rising_window sample_context s E).
Defined.

(** X2: the scorer raises on no other input than a history of 20 candles or
    more whose 20th candle from the end closed at 0, and then it raises
    [ZeroDivisionError]; on every other input it returns. *)
Theorem context_score_fails_only_on_zero_close candles ctx :
  (exists s, calculate_context_score candles ctx = Ok s) /\
  ((length candles < 20)%nat \/
   exists first_candle,
     getitem (slice_last 20 candles) 0 = Ok first_candle /\
     ~ close first_candle == 0)
  \/
  calculate_context_score candles ctx = Raise ZeroDivisionError /\
  (20 <= length candles)%nat /\
  exists first_candle,
    getitem (slice_last 20 candles) 0 = Ok first_candle /\
    close first_candle == 0.
Proof.
  destruct (Nat.lt_ge_cases (length candles) 20) as [Hlt|Hge].
  - left. split; [apply context_score_returns|]; auto.
  - destruct (getitem (slice_last 20 candles) 0) as [c|e] eqn:Hc.
    + destruct (Qeq_dec (close c) 0) as [Hz|Hnz].
      * right. split; [eapply context_score_raises; eassumption|].
        split; [exact Hge|]. eauto.
      * left. split; [apply context_score_returns|]; right; eauto.
    + exfalso. unfold getitem in Hc.
      destruct (nth_error (slice_last 20 candles) 0) eqn:N; [discriminate|].
      apply nth_error_None in N. rewrite slice_last_length in N; lia.
Qed.

(** X3: on fewer than 20 candles the trend and the position terms are
    skipped and the score is the liquidity term alone: 0.20 above 500000,
    0.10 above 100000, 0 otherwise and when the key is missing. *)
Theorem short_history_scores_liquidity_only candles ctx :
  (length candles < 20)%nat ->
  exists s,
    calculate_context_score candles ctx = Ok s /\
    (500000 < liquidity_or_zero ctx -> s == 0.20) /\
    (100000 < liquidity_or_zero ctx <= 500000 -> s == 0.10) /\
    (liquidity_or_zero ctx <= 100000 -> s == 0).
Proof.
  intros H. unfold calculate_context_score, liquidity_or_zero.
  apply Nat.leb_gt in H. rewrite H. cbn [bind].
  eexists. split; [reflexivity|].
  repeat case_cmp;
    repeat match goal with
           | |- context [min2 ?a ?b] =>
               destruct (min2_cases a b) as [[-> ?]|[-> ?]]
           end; repeat split; intros; lra.
Qed.

Lemma short_history_scores_liquidity_only_witness :
  exists s,
    calculate_context_score [flat 1; hammer] sample_context = Ok s /\
    (500000 < liquidity_or_zero sample_context -> s == 0.20) /\
    (100000 < liquidity_or_zero sample_context <= 500000 -> s == 0.10) /\
    (liquidity_or_zero sample_context <= 100000 -> s == 0).
Proof.
  apply (@short_history_scores_liquidity_only [flat 1; hammer] sample_context).
  simpl. lia.
Defined.

(** *** The detector *)

(** The detector's own steps do not raise: on two candles or more its
    outcome is decided by the scorer, and its output is given by the
    conditions of the four rules. *)
Lemma detect_inv candles ctx :
  (2 <= length candles)%nat ->
  exists last_candle prev_candle r w c1 c2,
    getitem_neg candles 1 = Ok last_candle /\
    getitem_neg candles 2 = Ok prev_candle /\
    (0 <= r /\ (total_range last_candle <= 0 -> r == 0) /\
     (0 < total_range last_candle ->
      r == body last_candle / total_range last_candle)) /\
    (0 < body last_candle ->
     w = max2 (upper_wick last_candle) (lower_wick last_candle)
         / body last_candle) /\
    (body last_candle <= 0 -> w = 0) /\
    c1 == pin_candidate (lower_wick last_candle) last_candle /\
    c2 == pin_candidate (upper_wick last_candle) last_candle /\
    let is_bullish := gt (close last_candle) (open last_candle) in
    let is_bearish := lt (close last_candle) (open last_candle) in
    let bp := gt (lower_wick last_candle)
                 (body last_candle * MIN_WICK_TO_BODY_RATIO) && is_bullish in
    let brp := gt (upper_wick last_candle)
                  (body last_candle * MIN_WICK_TO_BODY_RATIO) && is_bearish in
    let engulfs := gt (body last_candle) (body prev_candle * 0.6) in
    let be := is_bullish && engulfs && gt r 0.6 in
    let bre := is_bearish && engulfs && gt r 0.6 in
    let p1 := if bp then max2 0 c1 else 0 in
    let p2 := if brp then max2 p1 c2 else p1 in
    let p3 := if be then max2 p2 0.65 else p2 in
    let p4 := if bre then max2 p3 0.65 else p3 in
    detect_candlestick_patterns candles ctx
    = (cs <- calculate_context_score candles ctx ;;
       Ok (mkPatterns bp brp be bre (min2 w 10) r p4 cs)).
Proof.
  intros Hlen. unfold detect_candlestick_patterns.
  rewrite (length_ge_2 _ Hlen).
  destruct (@getitem_neg_ok _ candles 1%nat) as (last_candle & Hlast); [lia|].
  destruct (@getitem_neg_ok _ candles 2%nat) as (prev_candle & Hprev); [lia|].
  rewrite Hlast, Hprev. cbn [bind].
  destruct (pin_confidence_spec (lower_wick last_candle) last_candle)
    as (c1 & Hc1 & Ec1).
  destruct (pin_confidence_spec (upper_wick last_candle) last_candle)
    as (c2 & Hc2 & Ec2).
  pose proof (body_nonneg last_candle) as Hb.
  assert (exists r,
    (if gt (total_range last_candle) 0
     then div (body last_candle) (total_range last_candle) else Ok 0) = Ok r /\
    0 <= r /\ (total_range last_candle <= 0 -> r == 0) /\
    (0 < total_range last_candle ->
     r == body last_candle / total_range last_candle)) as (r & Hr & Hr0 & Hrz & Hrp).
  { case_cmp.
    - rewrite div_ok by lra. eexists. split; [reflexivity|].
      split; [apply div_nonneg; assumption|]. split; [lra|reflexivity].
    - eexists. split; [reflexivity|]. split; [lra|]. split; [reflexivity|lra]. }
  assert (exists w,
    (if gt (body last_candle) 0
     then div (max2 (upper_wick last_candle) (lower_wick last_candle))
              (body last_candle)
     else Ok 0) = Ok w /\
    (0 < body last_candle ->
     w = max2 (upper_wick last_candle) (lower_wick last_candle)
         / body last_candle) /\
    (body last_candle <= 0 -> w = 0)) as (w & Hw & Hwp & Hwz).
  { case_cmp.
    - rewrite div_ok by lra. eexists. split; [reflexivity|].
      split; [reflexivity|lra].
    - eexists. split; [reflexivity|]. split; [lra|reflexivity]. }
  exists last_candle, prev_candle, r, w, c1, c2.
  rewrite Hr, Hw, Hc1, Hc2. cbn [bind].
  repeat (split; [solve [assumption | reflexivity | auto]|]).
  cbv zeta.
  repeat match goal with
         | |- context [if ?b then _ else _] => destruct b; cbn [bind]
         end; reflexivity.
Qed.

Lemma max2_zero_candidate (c : Q) : 0.6 <= c -> max2 0 c = c.
Proof.
  intros H. destruct (max2_cases 0 c) as [[-> ?]|[? ?]]; [reflexivity|lra].
Qed.

Ltac fields :=
  cbn [has_bullish_pin has_bearish_pin has_bullish_engulfing
       has_bearish_engulfing wick_rejection_ratio body_to_range_ratio
       pattern_confidence context_score].

Ltac case_bool :=
  repeat match goal with
         | |- context [andb ?a ?b] =>
             first [is_var a | destruct a eqn:?]; first [is_var b | destruct b eqn:?]
         end.

(** X4: the rules set a bullish flag on a candle that closed above its open
    only, and a bearish flag on a candle that closed below its open only; so
    no output holds a bullish and a bearish flag together. *)
Theorem flags_follow_the_candle_direction candles ctx out last_candle :
  (2 <= length candles)%nat ->
  getitem_neg candles 1 = Ok last_candle ->
  detect_candlestick_patterns candles ctx = Ok out ->
  (has_bullish_pin out = true \/ has_bullish_engulfing out = true ->
   open last_candle < close last_candle) /\
  (has_bearish_pin out = true \/ has_bearish_engulfing out = true ->
   close last_candle < open last_candle) /\
  ((has_bullish_pin out || has_bullish_engulfing out)
   && (has_bearish_pin out || has_bearish_engulfing out) = false).
Proof.
  intros Hlen Hlast H.
  destruct (@detect_inv candles ctx Hlen)
    as (l & p & r & w & c1 & c2 & Hl & _ & _ & _ & _ & _ & _ & E).
  cbv zeta in E. rewrite E in H. clear E.
  rewrite Hlast in Hl. injection Hl as <-.
  apply bind_Ok in H as (cs & _ & H). injection H as <-. fields.
  generalize (gt (lower_wick last_candle)
                 (body last_candle * MIN_WICK_TO_BODY_RATIO)) as b1.
  generalize (gt (upper_wick last_candle)
                 (body last_candle * MIN_WICK_TO_BODY_RATIO)) as b2.
  generalize (gt (body last_candle) (body p * 0.6)) as b3.
  generalize (gt r 0.6) as b4.
  intros b4 b3 b2 b1.
  destruct (gt_cases (close last_candle) (open last_candle)) as [[-> Hd]|[-> Hd]];
    destruct (lt_cases (close last_candle) (open last_candle)) as [[-> Hd']|[-> Hd']];
    try lra; destruct b1, b2, b3, b4; cbn;
    (split; [|split]); try reflexivity; try (intros [?|?]; discriminate);
    intros _; assumption.
Qed.

Lemma flags_follow_the_candle_direction_witness :
  exists out,
    detect_candlestick_patterns rising_window sample_context = Ok out /\
    (has_bullish_pin out = true \/ has_bullish_engulfing out = true ->
     open marubozu < close marubozu) /\
    (has_bearish_pin out = true \/ has_bearish_engulfing out = true ->
     close marubozu < open marubozu) /\
    ((has_bullish_pin out || has_bullish_engulfing out)
     && (has_bearish_pin out || has_bearish_engulfing out) = false).
Proof.
  destruct (detect_candlestick_patterns rising_window sample_context)
    as [out|e] eqn:E; [|vm_compute in E; discriminate E].
  exists out. split; [reflexivity|].
  apply (@flags_follow_the_candle_direction rising_window sample_context out
           marubozu); [simpl; lia|reflexivity|exact E].
Defined.

(** X5: a candle that closes where it opened matches no rule: the four flags
    are false, the confidence is 0 and so is the wick rejection ratio. *)
Theorem doji_matches_no_rule candles ctx out last_candle :
  getitem_neg candles 1 = Ok last_candle ->
  close last_candle == open last_candle ->
  detect_candlestick_patterns candles ctx = Ok out ->
  has_bullish_pin out = false /\ has_bearish_pin out = false /\
  has_bullish_engulfing out = false /\ has_bearish_engulfing out = false /\
  pattern_confidence out == 0 /\ wick_rejection_ratio out == 0.
Proof.
  intros Hlast Hdoji H.
  destruct (Nat.lt_ge_cases (length candles) 2) as [Hlt|Hlen].
  { unfold detect_candlestick_patterns in H. apply Nat.ltb_lt in Hlt.
    rewrite Hlt in H. injection H as <-. cbn. repeat split; reflexivity. }
  destruct (@detect_inv candles ctx Hlen)
    as (l & p & r & w & c1 & c2 & Hl & _ & _ & _ & Hwz & _ & _ & E).
  cbv zeta in E. rewrite E in H. clear E.
  rewrite Hlast in Hl. injection Hl as <-.
  apply bind_Ok in H as (cs & _ & H). injection H as <-. fields.
  destruct (gt_cases (close last_candle) (open last_candle)) as [[-> Hd]|[-> Hd]];
    [lra|].
  destruct (lt_cases (close last_candle) (open last_candle)) as [[-> Hd']|[-> Hd']];
    [lra|].
  rewrite !andb_false_r. cbn [andb].
  assert (Hb : body last_candle <= 0).
  { unfold body. apply Qabs_case; intros _; lra. }
  rewrite (Hwz Hb).
  repeat (split; [reflexivity|]).
  destruct (min2_cases 0 10) as [[-> ?]|[-> ?]]; lra.
Qed.

Lemma doji_matches_no_rule_witness :
  exists out,
    detect_candlestick_patterns [hammer; doji] sample_context = Ok out /\
    has_bullish_pin out = false /\ has_bearish_pin out = false /\
    has_bullish_engulfing out = false /\ has_bearish_engulfing out = false /\
    pattern_confidence out == 0 /\ wick_rejection_ratio out == 0.
Proof.
  destruct (detect_candlestick_patterns [hammer; doji] sample_context)
    as [out|e] eqn:E; [|vm_compute in E; discriminate E].
  exists out. split; [reflexivity|].
  apply (@doji_matches_no_rule [hammer; doji] sample_context out doji);
    [reflexivity|reflexivity|exact E].
Defined.

(** X6: the confidence is 0 when no flag is set, and lies between 0.6 and 0.8
    as soon as one is. *)
Theorem confidence_tells_a_match candles ctx out :
  detect_candlestick_patterns candles ctx = Ok out ->
  (has_bullish_pin out || has_bearish_pin out
   || has_bullish_engulfing out || has_bearish_engulfing out = false ->
   pattern_confidence out == 0) /\
  (has_bullish_pin out || has_bearish_pin out
   || has_bullish_engulfing out || has_bearish_engulfing out = true ->
   0.6 <= pattern_confidence out /\ pattern_confidence out <= 0.8).
Proof.
  intros H.
  destruct (Nat.lt_ge_cases (length candles) 2) as [Hlt|Hlen].
  { unfold detect_candlestick_patterns in H. apply Nat.ltb_lt in Hlt.
    rewrite Hlt in H. injection H as <-. cbn.
    split; [reflexivity|discriminate]. }
  destruct (@detect_inv candles ctx Hlen)
    as (l & p & r & w & c1 & c2 & _ & _ & _ & _ & _ & Hc1 & Hc2 & E).
  cbv zeta in E. rewrite E in H. clear E.
  apply bind_Ok in H as (cs & _ & H). injection H as <-. fields.
  pose proof (body_nonneg l) as Hb.
  destruct (gt_cases (lower_wick l) (body l * MIN_WICK_TO_BODY_RATIO))
    as [[-> G1]|[-> G1]];
    destruct (gt_cases (upper_wick l) (body l * MIN_WICK_TO_BODY_RATIO))
      as [[-> G2]|[-> G2]];
    unfold MIN_WICK_TO_BODY_RATIO in G1, G2;
    try (destruct (@pin_candidate_range (lower_wick l) l) as [L1 U1]; [lra|]);
    try (destruct (@pin_candidate_range (upper_wick l) l) as [L2 U2]; [lra|]);
    generalize (gt (close l) (open l)) as b1;
    generalize (lt (close l) (open l)) as b2;
    generalize (gt (body l) (body p * 0.6)) as b3;
    generalize (gt r 0.6) as b4;
    intros [|] [|] [|] [|]; cbn [andb orb];
    (split; [intros E; try discriminate E; reflexivity|]);
    intros E; try discriminate E;
    repeat match goal with
           | |- context [max2 ?a ?b] =>
               destruct (max2_cases a b) as [[-> ?]|[-> ?]]
           end; lra.
Qed.

Lemma confidence_tells_a_match_witness :
  exists out,
    detect_candlestick_patterns rising_window sample_context = Ok out /\
    (has_bullish_pin out || has_bearish_pin out
     || has_bullish_engulfing out || has_bearish_engulfing out = false ->
     pattern_confidence out == 0) /\
    (has_bullish_pin out || has_bearish_pin out
     || has_bullish_engulfing out || has_bearish_engulfing out = true ->
     0.6 <= pattern_confidence out /\ pattern_confidence out <= 0.8).
Proof.
  destruct (detect_candlestick_patterns rising_window sample_context)
    as [out|e] eqn:E; [|vm_compute in E; discriminate E].
  exists out. split; [reflexivity|].
  exact (@confidence_tells_a_match rising_window sample_context out E).
Defined.

(** X7: the bearish pin rule read from its flag: the flag is set only on a
    history of two candles or more whose last candle closed below its open
    with an upper wick above twice its body; the bullish pin flag is then
    not set and the confidence lies between 0.6 and 0.8. *)
Theorem bearish_pin_rule candles ctx out last_candle :
  getitem_neg candles 1 = Ok last_candle ->
  detect_candlestick_patterns candles ctx = Ok out ->
  has_bearish_pin out = true ->
  (2 <= length candles)%nat /\
  close last_candle < open last_candle /\
  body last_candle * 2.0 < upper_wick last_candle /\
  has_bullish_pin out = false /\
  0.6 <= pattern_confidence out /\ pattern_confidence out <= 0.8.
Proof.
  intros Hlast H Hflag.
  destruct (Nat.lt_ge_cases (length candles) 2) as [Hlt|Hlen].
  { unfold detect_candlestick_patterns in H. apply Nat.ltb_lt in Hlt.
    rewrite Hlt in H. injection H as <-. discriminate Hflag. }
  split; [exact Hlen|].
  destruct (@detect_inv candles ctx Hlen)
    as (l & p & r & w & c1 & c2 & Hl & _ & _ & _ & _ & Hc1 & Hc2 & E).
  cbv zeta in E. rewrite E in H. clear E.
  rewrite Hlast in Hl. injection Hl as <-.
  apply bind_Ok in H as (cs & _ & H). injection H as <-.
  revert Hflag. fields.
  pose proof (body_nonneg last_candle) as Hb.
  destruct (gt_cases (upper_wick last_candle)
                     (body last_candle * MIN_WICK_TO_BODY_RATIO))
    as [[-> G]|[-> _]]; [|discriminate].
  unfold MIN_WICK_TO_BODY_RATIO in G.
  destruct (lt_cases (close last_candle) (open last_candle))
    as [[-> Hd]|[-> _]]; [|discriminate].
  destruct (gt_cases (close last_candle) (open last_candle))
    as [[_ C]|[-> _]]; [lra|].
  intros _. rewrite !andb_false_r. cbn [andb].
  destruct (@pin_candidate_range (upper_wick last_candle) last_candle)
    as [Lo Hi]; [lra|].
  rewrite (@max2_zero_candidate c2) by lra.
  split; [exact Hd|]. split; [exact G|]. split; [reflexivity|].
  destruct (gt (body last_candle) (body p * 0.6) && gt r 0.6);
    [destruct (max2_cases c2 0.65) as [[-> ?]|[-> ?]]|]; lra.
Qed.

Lemma bearish_pin_rule_witness :
  exists out,
    detect_candlestick_patterns [flat 1; shooting_star] sample_context = Ok out /\
    (2 <= length [flat 1; shooting_star])%nat /\
    close shooting_star < open shooting_star /\
    body shooting_star * 2.0 < upper_wick shooting_star /\
    has_bullish_pin out = false /\
    0.6 <= pattern_confidence out /\ pattern_confidence out <= 0.8.
Proof.
  destruct (detect_candlestick_patterns [flat 1; shooting_star] sample_context)
    as [out|e] eqn:E; [|vm_compute in E; discriminate E].
  exists out. split; [reflexivity|].
  apply (@bearish_pin_rule [flat 1; shooting_star] sample_context out
           shooting_star); [reflexivity|exact E|].
  vm_compute in E. injection E as <-. reflexivity.
Defined.

(** X8: on two candles or more the detector fails exactly when the scorer
    fails, with the scorer's exception; when the scorer returns, the
    detector returns and embeds the scorer's value. *)
Theorem detector_fails_only_with_the_scorer candles ctx :
  (2 <= length candles)%nat ->
  (forall e,
      calculate_context_score candles ctx = Raise e ->
      detect_candlestick_patterns candles ctx = Raise e) /\
  (forall cs,
      calculate_context_score candles ctx = Ok cs ->
      exists out,
        detect_candlestick_patterns candles ctx = Ok out /\
        context_score out = cs).
Proof.
  intros Hlen.
  destruct (@detect_inv candles ctx Hlen)
    as (l & p & r & w & c1 & c2 & _ & _ & _ & _ & _ & _ & _ & E).
  cbv zeta in E. rewrite E. clear E.
  split.
  - intros e ->. reflexivity.
  - intros cs ->. cbn [bind]. eexists. split; reflexivity.
Qed.

Lemma detector_fails_only_with_the_scorer_witness :
  (forall e,
      calculate_context_score zero_start_hammer sample_context = Raise e ->
      detect_candlestick_patterns zero_start_hammer sample_context = Raise e) /\
  (forall cs,
      calculate_context_score zero_start_hammer sample_context = Ok cs ->
      exists out,
        detect_candlestick_patterns zero_start_hammer sample_context = Ok out /\
        context_score out = cs).
Proof.
  apply (@detector_fails_only_with_the_scorer zero_start_hammer sample_context).
  simpl. lia.
Defined.

(** X9: on a well-formed final candle (low <= open, close <= high) the wick
    rejection ratio is between 0 and 10. *)
Theorem wick_rejection_of_a_well_formed_candle candles ctx out last_candle :
  getitem_neg candles 1 = Ok last_candle ->
  low last_candle <= open last_candle ->
  low last_candle <= close last_candle ->
  open last_candle <= high last_candle ->
  close last_candle <= high last_candle ->
  detect_candlestick_patterns candles ctx = Ok out ->
  0 <= wick_rejection_ratio out /\ wick_rejection_ratio out <= 10.
Proof.
  intros Hlast H1 H2 H3 H4 H.
  destruct (Nat.lt_ge_cases (length candles) 2) as [Hlt|Hlen].
  { unfold detect_candlestick_patterns in H. apply Nat.ltb_lt in Hlt.
    rewrite Hlt in H. injection H as <-. cbn. lra. }
  destruct (@detect_inv candles ctx Hlen)
    as (l & p & r & w & c1 & c2 & Hl & _ & _ & Hwp & Hwz & _ & _ & E).
  cbv zeta in E. rewrite E in H. clear E.
  rewrite Hlast in Hl. injection Hl as <-.
  apply bind_Ok in H as (cs & _ & H). injection H as <-. fields.
  split; [|apply min2_le_r].
  assert (Hw : 0 <= w).
  { pose proof (body_nonneg last_candle) as Hb.
    destruct (Qlt_le_dec 0 (body last_candle)) as [Hpos|Hz].
    - rewrite (Hwp Hpos). apply div_nonneg; [|exact Hpos].
      unfold upper_wick, lower_wick.
      destruct (max2_cases (close last_candle) (open last_candle)) as [[-> ?]|[-> ?]];
        destruct (min2_cases (close last_candle) (open last_candle)) as [[-> ?]|[-> ?]];
        match goal with
        | |- 0 <= max2 ?a ?b =>
            destruct (max2_cases a b) as [[-> ?]|[-> ?]]; lra
        end.
    - rewrite (Hwz Hz). lra. }
  destruct (min2_cases w 10) as [[-> ?]|[-> ?]]; lra.
Qed.

Lemma wick_rejection_of_a_well_formed_candle_witness :
  exists out,
    detect_candlestick_patterns [flat 1; hammer] sample_context = Ok out /\
    0 <= wick_rejection_ratio out /\ wick_rejection_ratio out <= 10.
Proof.
  destruct (detect_candlestick_patterns [flat 1; hammer] sample_context)
    as [out|e] eqn:E; [|vm_compute in E; discriminate E].
  exists out. split; [reflexivity|].
  apply (@wick_rejection_of_a_well_formed_candle [flat 1; hammer]
           sample_context out hammer);
    [reflexivity|vm_compute; discriminate|vm_compute; discriminate
    |vm_compute; discriminate|vm_compute; discriminate|exact E].
Defined.

End PatternProperties.

(** ** Adding the patterns to a training data file *)

Module Dataset.
Import Py Patterns Preprocessor PatternProperties Lqa.
Local Open Scope Q_scope.
Local Open Scope string_scope.

(** A training data file: the [examples] and [metadata] keys of its top
    level dictionary, either of which may be missing. *)
Record Document (M : Type) : Type := mkDocument {
  doc_examples : option (list Example);
  doc_metadata : option M
}.
Arguments mkDocument {M} doc_examples doc_metadata.

(** [str.lower] on the code points below 256. *)
Definition lower_char (c : ascii) : ascii :=
  let n := nat_of_ascii c in
  if ((65 <=? n) && (n <=? 90)
      || (192 <=? n) && (n <=? 222) && negb (n =? 215))%nat
  then ascii_of_nat (n + 32) else c.

Fixpoint lower (s : string) : string :=
  match s with
  | EmptyString => EmptyString
  | String c rest => String (lower_char c) (lower rest)
  end.

(** [example['patterns'] = patterns]. *)
Definition set_patterns (example : Example) (patterns : PatternFeatures) : Example :=
  mkExample (ex_candles example) (ex_context example) (ex_indicators example)
            (Some patterns) (ex_labels example).

(** The loop of lines 165-172: the first example on which the detector
    raises aborts it. *)
Fixpoint add_patterns (examples : list Example) : result (list Example) :=
  match examples with
  | [] => Ok []
  | example :: rest =>
      patterns <- detect_candlestick_patterns (ex_candles example)
                                              (ex_context example) ;;
      rest' <- add_patterns rest ;;
      Ok (set_patterns example patterns :: rest')
  end.

(** ['patterns' in examples[0]] when [examples] is not empty. *)
Definition already_has_patterns (examples : list Example) : bool :=
  match examples with
  | example :: _ =>
      match ex_patterns example with Some _ => true | None => false end
  | [] => false
  end.

(** [process_training_data].  [response] is what the user types when asked
    whether to recalculate; the result is the document written to the
    output file, or [None] when the user declined and nothing was written.
    When the [examples] key is missing, [data.get('examples', data)] is the
    dictionary itself, and indexing it with 0 raises [KeyError]. *)
Definition process_training_data {M : Type} (response : string)
    (data : Document M) : result (option (Document M)) :=
  match doc_examples data with
  | None => Raise (KeyError "0")
  | Some examples =>
      if already_has_patterns examples
         && negb (String.eqb (lower response) "yes")
      then Ok None
      else
        examples' <- add_patterns examples ;;
        sample <- getitem examples' 0 ;;
        Ok (Some (mkDocument (Some examples') (doc_metadata data)))
  end.

(** *** merge_data.py *)

Record MergeMetadata : Type := mkMergeMetadata {
  total_examples : nat;
  source : string
}.

Definition merge_data {M1 M2 : Type} (checkpoint : Document M1)
    (full : Document M2) : result (Document MergeMetadata) :=
  match doc_examples checkpoint with
  | None => Raise (KeyError "examples")
  | Some c =>
      match doc_examples full with
      | None => Raise (KeyError "examples")
      | Some f =>
          Ok (mkDocument
                (Some (c ++ f)%list)
                (Some (mkMergeMetadata (length c + length f)
                                       "merged from checkpoint and full")))
      end
  end.

(** *** Sample documents *)

Definition example_of (candles : list Candle) : Example :=
  mkExample candles sample_context sample_indicators None sample_labels.

Definition checkpoint_document : Document unit :=
  mkDocument (Some [example_of [flat 1; hammer]; example_of rising_window]) None.

Definition full_document : Document unit :=
  mkDocument (Some [example_of [flat 1; shooting_star]]) (Some tt).

(** What an example and its processed version have in common. *)
Definition patterns_added (example example' : Example) : Prop :=
  ex_candles example' = ex_candles example /\
  ex_context example' = ex_context example /\
  ex_indicators example' = ex_indicators example /\
  ex_labels example' = ex_labels example /\
  exists patterns,
    detect_candlestick_patterns (ex_candles example) (ex_context example)
    = Ok patterns /\
    ex_patterns example' = Some patterns.

(** *** Properties of the processing *)

Lemma Forall2_In_l {A B : Type} (R : A -> B -> Prop) (l : list A)
    (l' : list B) (x : A) :
  Forall2 R l l' -> In x l -> exists y, In y l' /\ R x y.
Proof.
  induction 1 as [|a b l l' Hab _ IH]; intros Hin; [destruct Hin|].
  destruct Hin as [->|Hin].
  - exists b. split; [left; reflexivity|exact Hab].
  - destruct (IH Hin) as (y & Hy & Hxy). exists y. split; [right|]; assumption.
Qed.

Lemma add_patterns_spec examples examples' :
  add_patterns examples = Ok examples' ->
  Forall2 patterns_added examples examples'.
Proof.
  revert examples'. induction examples as [|e rest IH]; intros examples' H;
    cbn in H.
  - injection H as <-. constructor.
  - apply bind_Ok in H as (p & Hp & H). apply bind_Ok in H as (rest' & Hr & H).
    injection H as <-. constructor; [|apply IH; exact Hr].
    unfold patterns_added. cbn. repeat split; eauto.
Qed.

Lemma add_patterns_again examples examples' :
  add_patterns examples = Ok examples' ->
  add_patterns examples' = Ok examples'.
Proof.
  revert examples'. induction examples as [|e rest IH]; intros examples' H;
    cbn in H.
  - injection H as <-. reflexivity.
  - apply bind_Ok in H as (p & Hp & H). apply bind_Ok in H as (rest' & Hr & H).
    injection H as <-. cbn. rewrite Hp. cbn. rewrite (IH _ Hr). reflexivity.
Qed.

Lemma process_training_data_inv {M : Type} response (data out : Document M) :
  process_training_data response data = Ok (Some out) ->
  exists examples first_example rest,
    doc_examples data = Some examples /\
    add_patterns examples = Ok (first_example :: rest) /\
    out = mkDocument (Some (first_example :: rest)) (doc_metadata data).
Proof.
  unfold process_training_data. intros H.
  destruct (doc_examples data) as [examples|]; [|discriminate].
  destruct (already_has_patterns examples && negb (lower response =? "yes"));
    [discriminate|].
  apply bind_Ok in H as (examples' & Hadd & H).
  apply bind_Ok in H as (sample & Hs & H). injection H as <-.
  destruct examples' as [|f rest]; [discriminate|].
  exists examples, f, rest. auto.
Qed.

(** X10: when the processing writes a document, it holds as many examples as
    the input, in the same order; each keeps its candles, context,
    indicators and labels and carries the detector's output for its candles
    and context; the metadata is kept. *)
Theorem every_example_gets_its_patterns {M : Type} response
    (data out : Document M) :
  process_training_data response data = Ok (Some out) ->
  exists examples examples',
    doc_examples data = Some examples /\
    doc_examples out = Some examples' /\
    doc_metadata out = doc_metadata data /\
    examples' <> [] /\
    Forall2 patterns_added examples examples'.
Proof.
  intros H.
  destruct (process_training_data_inv _ _ H)
    as (examples & f & rest & Hd & Hadd & ->).
  exists examples, (f :: rest). cbn.
  repeat split; try assumption; try discriminate.
  apply add_patterns_spec. exact Hadd.
Qed.

Lemma every_example_gets_its_patterns_witness :
  exists out examples examples',
    process_training_data "" checkpoint_document = Ok (Some out) /\
    doc_examples checkpoint_document = Some examples /\
    doc_examples out = Some examples' /\
    doc_metadata out = doc_metadata checkpoint_document /\
    examples' <> [] /\
    Forall2 patterns_added examples examples'.
Proof.
  destruct (process_training_data "" checkpoint_document) as [[out|]|e] eqn:E;
    [|vm_compute in E; discriminate E|vm_compute in E; discriminate E].
  destruct (@every_example_gets_its_patterns unit "" checkpoint_document out E)
    as (examples & examples' & H).
  exists out, examples, examples'. split; [reflexivity|exact H].
Defined.

(** X11: processing a processed document again, with the answer yes in any
    letter case, writes the same document. *)
Theorem processing_again_changes_nothing {M : Type} response response'
    (data out : Document M) :
  process_training_data response data = Ok (Some out) ->
  lower response' = "yes" ->
  process_training_data response' out = Ok (Some out).
Proof.
  intros H Hyes.
  destruct (process_training_data_inv _ _ H)
    as (examples & f & rest & Hd & Hadd & ->).
  unfold process_training_data. cbn [doc_examples doc_metadata].
  rewrite Hyes, String.eqb_refl. cbn [negb]. rewrite andb_false_r.
  rewrite (add_patterns_again _ Hadd). reflexivity.
Qed.

Lemma processing_again_changes_nothing_witness :
  exists out,
    process_training_data "" checkpoint_document = Ok (Some out) /\
    process_training_data "YES" out = Ok (Some out).
Proof.
  destruct (process_training_data "" checkpoint_document) as [[out|]|e] eqn:E;
    [|vm_compute in E; discriminate E|vm_compute in E; discriminate E].
  exists out. split; [reflexivity|].
  apply (@processing_again_changes_nothing unit "" "YES" checkpoint_document
           out E).
  reflexivity.
Defined.

(** X12: an empty list of examples makes the processing raise [IndexError],
    a document without the examples key makes it raise [KeyError], and an
    example on which the detector raises makes it raise too: in none of
    these cases is a document written. *)
Theorem nothing_is_written_on_failure {M : Type} response (data : Document M) :
  (doc_examples data = Some [] ->
   process_training_data response data = Raise IndexError) /\
  (doc_examples data = None ->
   process_training_data response data = Raise (KeyError "0")) /\
  (forall examples example e,
     doc_examples data = Some examples ->
     In example examples ->
     detect_candlestick_patterns (ex_candles example) (ex_context example)
     = Raise e ->
     forall out, process_training_data response data <> Ok (Some out)).
Proof.
  split; [|split].
  - intros Hd. unfold process_training_data. rewrite Hd. reflexivity.
  - intros Hd. unfold process_training_data. rewrite Hd. reflexivity.
  - intros examples example e Hd Hin He out H.
    destruct (process_training_data_inv _ _ H)
      as (examples0 & f & rest & Hd0 & Hadd & _).
    rewrite Hd in Hd0. injection Hd0 as <-.
    apply add_patterns_spec in Hadd.
    destruct (@Forall2_In_l _ _ _ _ _ _ Hadd Hin)
      as (example' & _ & _ & _ & _ & _ & p & Hp & _).
    congruence.
Qed.

Lemma Forall2_In_r {A B : Type} (R : A -> B -> Prop) (l : list A)
    (l' : list B) (y : B) :
  Forall2 R l l' -> In y l' -> exists x, In x l /\ R x y.
Proof.
  induction 1 as [|a b l l' Hab _ IH]; intros Hin; [destruct Hin|].
  destruct Hin as [->|Hin].
  - exists a. split; [left; reflexivity|exact Hab].
  - destruct (IH Hin) as (x & Hx & Hxy). exists x. split; [right|]; assumption.
Qed.

Lemma detect_ranges candles ctx out :
  detect_candlestick_patterns candles ctx = Ok out ->
  wick_rejection_ratio out <= 10 /\ 0 <= body_to_range_ratio out /\
  0 <= context_score out /\ context_score out <= 1.
Proof.
  intros H.
  destruct (Nat.lt_ge_cases (length candles) 2) as [Hlt|Hlen].
  { unfold detect_candlestick_patterns in H. apply Nat.ltb_lt in Hlt.
    rewrite Hlt in H. injection H as <-. cbn. lra. }
  destruct (@detect_inv candles ctx Hlen)
    as (l & p & r & w & c1 & c2 & _ & _ & (Hr & _) & _ & _ & _ & _ & E).
  cbv zeta in E. rewrite E in H. clear E.
  apply bind_Ok in H as (cs & Hcs & H). injection H as <-. fields.
  destruct (context_score_range _ _ Hcs) as [? ?].
  split; [apply min2_le_r|]. auto.
Qed.

Lemma confidence_range candles ctx out :
  detect_candlestick_patterns candles ctx = Ok out ->
  0 <= pattern_confidence out /\ pattern_confidence out <= 1.
Proof.
  intros H.
  destruct (Nat.lt_ge_cases (length candles) 2) as [Hlt|Hlen].
  { unfold detect_candlestick_patterns in H. apply Nat.ltb_lt in Hlt.
    rewrite Hlt in H. injection H as <-. cbn. lra. }
  destruct (@detect_inv candles ctx Hlen)
    as (l & p & r & w & c1 & c2 & _ & _ & _ & _ & _ & Hc1 & Hc2 & E).
  cbv zeta in E. rewrite E in H. clear E.
  apply bind_Ok in H as (cs & _ & H). injection H as <-. fields.
  pose proof (body_nonneg l) as Hb.
  destruct (gt_cases (lower_wick l) (body l * MIN_WICK_TO_BODY_RATIO))
    as [[-> G1]|[-> G1]];
    destruct (gt_cases (upper_wick l) (body l * MIN_WICK_TO_BODY_RATIO))
      as [[-> G2]|[-> G2]];
    unfold MIN_WICK_TO_BODY_RATIO in G1, G2;
    try (destruct (@pin_candidate_range (lower_wick l) l) as [L1 U1]; [lra|]);
    try (destruct (@pin_candidate_range (upper_wick l) l) as [L2 U2]; [lra|]);
    generalize (gt (close l) (open l)) as b1;
    generalize (lt (close l) (open l)) as b2;
    generalize (gt (body l) (body p * 0.6)) as b3;
    generalize (gt r 0.6) as b4;
    intros [|] [|] [|] [|]; cbn [andb];
    repeat match goal with
           | |- context [max2 ?a ?b] =>
               destruct (max2_cases a b) as [[-> ?]|[-> ?]]
           end; lra.
Qed.

(** X13: an example of a processed document has its patterns key, so the
    preprocessor reads its pattern row from the detector's output and not
    from the zero fallback: four entries that are 0 or 1, then the wick
    rejection ratio (at most 10), the body-to-range ratio (at least 0), the
    confidence (between 0 and 1) and the context score (between 0 and 1). *)
Theorem processed_examples_need_no_fallback {M : Type} response
    (data out : Document M) examples' example' f :
  process_training_data response data = Ok (Some out) ->
  doc_examples out = Some examples' ->
  In example' examples' ->
  extract_example example' = Ok f ->
  exists patterns,
    detect_candlestick_patterns (ex_candles example') (ex_context example')
    = Ok patterns /\
    f_patterns f
    = [indicator_of (has_bullish_pin patterns);
       indicator_of (has_bearish_pin patterns);
       indicator_of (has_bullish_engulfing patterns);
       indicator_of (has_bearish_engulfing patterns);
       wick_rejection_ratio patterns;
       body_to_range_ratio patterns;
       pattern_confidence patterns;
       context_score patterns] /\
    wick_rejection_ratio patterns <= 10 /\
    0 <= body_to_range_ratio patterns /\
    (0 <= pattern_confidence patterns /\ pattern_confidence patterns <= 1) /\
    0 <= context_score patterns /\ context_score patterns <= 1.
Proof.
  intros H Hout Hin Hf.
  destruct (process_training_data_inv _ _ H)
    as (examples & f0 & rest & Hd & Hadd & ->).
  cbn in Hout. injection Hout as <-.
  apply add_patterns_spec in Hadd.
  destruct (@Forall2_In_r _ _ _ _ _ _ Hadd Hin)
    as (example & _ & Hc & Hx & _ & _ & p & Hp & Hsome).
  exists p. rewrite Hc, Hx. split; [exact Hp|].
  split.
  2:{ destruct (detect_ranges _ _ Hp) as (Hw & Hb & Hcs).
      pose proof (confidence_range _ _ Hp) as Hpc. auto. }
  unfold extract_example in Hf.
  destruct (context_row (ex_context example')) as [row|]; [|discriminate].
  cbn in Hf. injection Hf as <-. cbn. rewrite Hsome. reflexivity.
Qed.

Lemma processed_examples_need_no_fallback_witness :
  exists out examples' f patterns,
    process_training_data "" checkpoint_document = Ok (Some out) /\
    doc_examples out = Some examples' /\
    extract_example (hd (example_of []) examples') = Ok f /\
    detect_candlestick_patterns
      (ex_candles (hd (example_of []) examples'))
      (ex_context (hd (example_of []) examples'))
    = Ok patterns /\
    f_patterns f
    = [indicator_of (has_bullish_pin patterns);
       indicator_of (has_bearish_pin patterns);
       indicator_of (has_bullish_engulfing patterns);
       indicator_of (has_bearish_engulfing patterns);
       wick_rejection_ratio patterns;
       body_to_range_ratio patterns;
       pattern_confidence patterns;
       context_score patterns] /\
    wick_rejection_ratio patterns <= 10 /\
    0 <= body_to_range_ratio patterns /\
    (0 <= pattern_confidence patterns /\ pattern_confidence patterns <= 1) /\
    0 <= context_score patterns /\ context_score patterns <= 1.
Proof.
  destruct (process_training_data "" checkpoint_document) as [[out|]|e] eqn:E;
    [|vm_compute in E; discriminate E|vm_compute in E; discriminate E].
  destruct (doc_examples out) as [examples'|] eqn:Eo;
    [|vm_compute in E; injection E as <-; discriminate Eo].
  destruct (extract_example (hd (example_of []) examples')) as [f|e] eqn:Ef;
    [|vm_compute in E; injection E as <-; injection Eo as <-;
      vm_compute in Ef; discriminate Ef].
  assert (Hin : In (hd (example_of []) examples') examples').
  { vm_compute in E. injection E as <-. injection Eo as <-. left. reflexivity. }
  destruct (@processed_examples_need_no_fallback unit "" checkpoint_document
              out examples' (hd (example_of []) examples') f E Eo Hin Ef)
    as (patterns & H).
  exists out, examples', f, patterns.
  split; [reflexivity|]. split; [exact Eo|]. split; [exact Ef|exact H].
Defined.

(** X14: merging two documents and processing the result writes a document
    whose metadata counts exactly the examples it holds: those of the
    checkpoint followed by those of the full file, each with its patterns
    added. *)
Theorem merged_count_survives_processing {M1 M2 : Type} response
    (checkpoint : Document M1) (full : Document M2)
    (merged out : Document MergeMetadata) :
  merge_data checkpoint full = Ok merged ->
  process_training_data response merged = Ok (Some out) ->
  exists c f examples' metadata,
    doc_examples checkpoint = Some c /\
    doc_examples full = Some f /\
    doc_examples out = Some examples' /\
    doc_metadata out = Some metadata /\
    total_examples metadata = length examples' /\
    Forall2 patterns_added (c ++ f) examples'.
Proof.
  unfold merge_data. intros Hm H.
  destruct (doc_examples checkpoint) as [c|]; [|discriminate].
  destruct (doc_examples full) as [f|]; [|discriminate].
  injection Hm as <-.
  destruct (process_training_data_inv _ _ H)
    as (examples & f0 & rest & Hd & Hadd & ->).
  cbn in Hd. injection Hd as <-.
  apply add_patterns_spec in Hadd.
  eexists c, f, (f0 :: rest), _. cbn [doc_examples doc_metadata].
  repeat (split; [reflexivity|]). split; [|exact Hadd].
  cbn [total_examples]. rewrite <- (Forall2_length Hadd), length_app.
  reflexivity.
Qed.

Lemma merged_count_survives_processing_witness :
  exists merged out c f examples' metadata,
    merge_data checkpoint_document full_document = Ok merged /\
    process_training_data "" merged = Ok (Some out) /\
    doc_examples checkpoint_document = Some c /\
    doc_examples full_document = Some f /\
    doc_examples out = Some examples' /\
    doc_metadata out = Some metadata /\
    total_examples metadata = length examples' /\
    Forall2 patterns_added (c ++ f) examples'.
Proof.
  destruct (merge_data checkpoint_document full_document) as [merged|e] eqn:Em;
    [|vm_compute in Em; discriminate Em].
  destruct (process_training_data "" merged) as [[out|]|e] eqn:E;
    [|vm_compute in Em; injection Em as <-; vm_compute in E; discriminate E
     |vm_compute in Em; injection Em as <-; vm_compute in E; discriminate E].
  destruct (@merged_count_survives_processing unit unit "" checkpoint_document
              full_document merged out Em E)
    as (c & f & examples' & metadata & H).
  exists merged, out, c, f, examples', metadata.
  split; [reflexivity|]. split; [exact E|exact H].
Defined.

End Dataset.

(** ** Further properties of the preprocessing *)

Module PreprocessorProperties.
Import Py Patterns Preprocessor PatternProperties Lqa.
Local Open Scope Q_scope.
Local Open Scope string_scope.

(** *** Sample datasets *)

Definition example_without_liquidity : Example :=
  mkExample [flat 1; hammer] no_liquidity sample_indicators None sample_labels.

(** An example that carries the patterns of its two candles. *)
Definition example_with_patterns : Example :=
  mkExample [flat 1; hammer] sample_context sample_indicators
            (Some (mkPatterns true false false false 3 0.25 0.8 0.1))
            sample_labels.

Definition dataset_c : list Example :=
  [example_with_patterns; example_with_liquidity 1;
   example_with_patterns; example_with_liquidity 5].

(** *** Extraction *)

Lemma extract_example_error example e :
  extract_example example = Raise e ->
  e = KeyError "liquidity" /\ liquidity (ex_context example) = None.
Proof.
  unfold extract_example, context_row.
  destruct (liquidity (ex_context example)); cbn; [discriminate|].
  intros H. injection H as <-. auto.
Qed.

Lemma extract_example_ok example :
  liquidity (ex_context example) <> None ->
  exists f, extract_example example = Ok f.
Proof.
  unfold extract_example, context_row.
  destruct (liquidity (ex_context example)); [cbn; eauto|congruence].
Qed.

Lemma extract_features_missing_liquidity examples :
  (exists example,
      In example examples /\ liquidity (ex_context example) = None) ->
  extract_features examples = Raise (KeyError "liquidity").
Proof.
  induction examples as [|e rest IH]; intros (x & Hin & Hx); [destruct Hin|].
  cbn. destruct (extract_example e) as [f|err] eqn:Ee; cbn.
  - destruct Hin as [->|Hin].
    + unfold extract_example, context_row in Ee. rewrite Hx in Ee. discriminate.
    + rewrite IH by eauto. reflexivity.
  - apply extract_example_error in Ee as [-> _]. reflexivity.
Qed.

Lemma extract_example_patterns example f :
  extract_example example = Ok f ->
  f_patterns f = pattern_row (ex_patterns example) /\
  f_candles f = map candle_row (ex_candles example).
Proof.
  unfold extract_example. intros H.
  destruct (context_row (ex_context example)); [|discriminate].
  cbn in H. injection H as <-. auto.
Qed.

Lemma extract_features_candles examples features :
  extract_features examples = Ok features ->
  map (@length (list Q)) (map f_candles features)
  = map (fun e => length (ex_candles e)) examples.
Proof.
  revert features. induction examples as [|e rest IH]; intros features H;
    cbn in H.
  - injection H as <-. reflexivity.
  - apply bind_Ok in H as (f & Hf & H). apply bind_Ok in H as (fs & Hfs & H).
    injection H as <-. cbn. rewrite (IH _ Hfs).
    destruct (extract_example_patterns _ Hf) as [_ ->].
    now rewrite length_map.
Qed.

Lemma candles_shape_inv (X : list matrix) (n t : nat) :
  candles_shape X = Ok (n, t) ->
  X <> [] /\ n = length X /\ (0 < t)%nat /\ Forall (fun m => length m = t) X.
Proof.
  unfold candles_shape. destruct X as [|m rest]; [discriminate|].
  destruct (0 <? length m)%nat eqn:Hpos; [|discriminate].
  destruct (forallb (fun m' => (length m' =? length m)%nat) (m :: rest)) eqn:Hall;
    [|discriminate].
  cbn [andb]. intros H. injection H as <- <-.
  apply Nat.ltb_lt in Hpos. rewrite forallb_forall in Hall.
  repeat split; try assumption; try discriminate.
  apply Forall_forall. intros m' Hin. apply Nat.eqb_eq. apply Hall. exact Hin.
Qed.

Lemma take_length {A : Type} (X : list A) idx rows :
  take X idx = Ok rows -> length rows = length idx.
Proof.
  revert rows. induction idx as [|i idx IH]; intros rows H; cbn in H.
  - injection H as <-. reflexivity.
  - apply bind_Ok in H as (x & _ & H). apply bind_Ok in H as (xs & Hxs & H).
    injection H as <-. cbn. f_equal. apply IH. exact Hxs.
Qed.

Lemma take_In {A : Type} (X : list A) idx rows :
  take X idx = Ok rows -> Forall (fun row => In row X) rows.
Proof.
  revert rows. induction idx as [|i idx IH]; intros rows H; cbn in H.
  - injection H as <-. constructor.
  - apply bind_Ok in H as (x & Hx & H). apply bind_Ok in H as (xs & Hxs & H).
    injection H as <-. constructor; [|apply IH; exact Hxs].
    unfold getitem in Hx. destruct (nth_error X i) eqn:N; [|discriminate].
    injection Hx as <-. eapply nth_error_In. exact N.
Qed.

Section Pipeline.

Variable RobustParams : Type.
Variable StandardParams : Type.
Variable robust_fit_transform : matrix -> result (RobustParams * matrix).
Variable standard_fit_transform : matrix -> result (StandardParams * matrix).
Variable train_test_split :
  list nat -> Q -> list Q -> result (list nat * list nat).

Local Abbreviation assemble :=
  (assemble robust_fit_transform standard_fit_transform).
Local Abbreviation load_and_preprocess :=
  (load_and_preprocess robust_fit_transform standard_fit_transform
                       train_test_split).

(** X15: one example without the liquidity key aborts the whole run with
    [KeyError], whatever the scalers and the split would do. *)
Theorem missing_liquidity_aborts_the_run examples example :
  In example examples ->
  liquidity (ex_context example) = None ->
  load_and_preprocess examples = Raise (KeyError "liquidity").
Proof.
  intros Hin Hnone. unfold Preprocessor.load_and_preprocess, Preprocessor.assemble.
  rewrite extract_features_missing_liquidity by eauto. reflexivity.
Qed.

(** X16: whenever the preprocessing returns, the dataset was not empty and
    all its examples had the same positive number of candles. *)
Theorem preprocessing_needs_equal_windows examples fitted splits :
  load_and_preprocess examples = Ok (fitted, splits) ->
  examples <> [] /\
  exists timesteps,
    (0 < timesteps)%nat /\
    Forall (fun e => length (ex_candles e) = timesteps) examples.
Proof.
  unfold Preprocessor.load_and_preprocess. intros H.
  apply bind_Ok in H as (a & Ha & _).
  unfold Preprocessor.assemble in Ha.
  apply bind_Ok in Ha as (features & Hfeat & Ha).
  apply bind_Ok in Ha as ([candle_fit Xc] & Hc & _).
  unfold _scale_candles in Hc.
  apply bind_Ok in Hc as ([N timesteps] & Hshape & _).
  apply candles_shape_inv in Hshape as (Hne & _ & Hpos & Hall).
  pose proof (extract_features_candles _ Hfeat) as Hlen.
  split.
  - intros ->. cbn in Hfeat. injection Hfeat as <-. apply Hne. reflexivity.
  - exists timesteps. split; [exact Hpos|].
    apply Forall_forall. intros e Hin.
    apply (in_map (fun e => length (ex_candles e))) in Hin.
    rewrite <- Hlen in Hin. apply in_map_iff in Hin as (m & <- & Hm).
    rewrite Forall_forall in Hall. apply Hall. exact Hm.
Qed.

(** X17: in each of the three splits the candles, the combined rows and the
    labels have the same number of rows, and every label row holds the
    three labels. *)
Theorem splits_stay_aligned examples fitted splits :
  load_and_preprocess examples = Ok (fitted, splits) ->
  (length (d_candles (X_train splits)) = length (d_combined (X_train splits)) /\
   length (d_combined (X_train splits)) = length (y_train splits)) /\
  (length (d_candles (X_val splits)) = length (d_combined (X_val splits)) /\
   length (d_combined (X_val splits)) = length (y_val splits)) /\
  (length (d_candles (X_test splits)) = length (d_combined (X_test splits)) /\
   length (d_combined (X_test splits)) = length (y_test splits)) /\
  Forall (fun row => length row = 3%nat)
         (y_train splits ++ y_val splits ++ y_test splits).
Proof.
  unfold Preprocessor.load_and_preprocess. intros H.
  apply bind_Ok in H as (a & Ha & H).
  apply bind_Ok in H as ([[train_idx val_idx] test_idx] & _ & H).
  apply bind_Ok in H as ([train ytrain] & Htrain & H).
  apply bind_Ok in H as ([val yval] & Hval & H).
  apply bind_Ok in H as ([test ytest] & Htest & H).
  injection H as _ <-. cbn.
  assert (Hy : Forall (fun row => length row = 3%nat) (a_y a)).
  { unfold Preprocessor.assemble in Ha.
    apply bind_Ok in Ha as (features & _ & Ha).
    apply bind_Ok in Ha as ([? ?] & _ & Ha).
    apply bind_Ok in Ha as ([? ?] & _ & Ha).
    apply bind_Ok in Ha as ([? ?] & _ & Ha).
    apply bind_Ok in Ha as (? & _ & Ha).
    injection Ha as <-. cbn. apply Forall_map. apply Forall_forall.
    intros f _. reflexivity. }
  assert (Hsel : forall idx d y,
             select a idx = Ok (d, y) ->
             (length (d_candles d) = length (d_combined d) /\
              length (d_combined d) = length y) /\
             Forall (fun row => length row = 3%nat) y).
  { intros idx d y Hs. unfold select in Hs.
    apply bind_Ok in Hs as (c & Hc & Hs).
    apply bind_Ok in Hs as (cb & Hcb & Hs).
    apply bind_Ok in Hs as (y0 & Hy0 & Hs).
    injection Hs as <- <-. cbn.
    rewrite (take_length _ _ Hc), (take_length _ _ Hcb), (take_length _ _ Hy0).
    split; [auto|].
    apply take_In in Hy0. rewrite Forall_forall in *.
    intros row Hrow. apply Hy. apply Hy0. exact Hrow. }
  destruct (Hsel _ _ _ Htrain) as [? ?].
  destruct (Hsel _ _ _ Hval) as [? ?].
  destruct (Hsel _ _ _ Htest) as [? ?].
  repeat (split; [assumption|]).
  rewrite !Forall_app. auto.
Qed.

(** [StandardScaler.fit_transform] returns an array of the shape of its
    input. *)
Hypothesis standard_keeps_shape :
  forall X fitted X' n w,
    standard_fit_transform X = Ok (fitted, X') ->
    has_shape n w X -> has_shape n w X'.

(** X18: the pattern features are not scaled: the combined row of every
    example has length 18 and ends in the example's own pattern row. *)
Theorem patterns_pass_through_unscaled examples a i example :
  assemble examples = Ok a ->
  nth_error examples i = Some example ->
  exists row,
    nth_error (a_combined a) i = Some row /\
    length row = 18%nat /\
    skipn 10 row = pattern_row (ex_patterns example).
Proof.
  unfold Preprocessor.assemble. intros H Hnth.
  apply bind_Ok in H as (features & Hfeat & H).
  apply bind_Ok in H as ([candle_fit Xc] & Hc & H).
  apply bind_Ok in H as ([context_fit Xx] & Hx & H).
  apply bind_Ok in H as ([indicator_fit Xi] & Hi & H).
  apply bind_Ok in H as (X_combined & Hcomb & H).
  injection H as <-. cbn [a_combined].
  destruct (@extract_features_shape _ _ Hfeat) as (Sx & Si & Sp).
  pose proof (@standard_keeps_shape _ _ _ _ _ Hx Sx) as [Lx Fx].
  pose proof (@standard_keeps_shape _ _ _ _ _ Hi Si) as [Li Fi].
  destruct (@extract_features_nth _ _ _ _ Hfeat Hnth) as (f & Hf & Hex).
  destruct (extract_example_patterns _ Hex) as [Hp _].
  destruct (@extract_example_shape _ _ Hex) as (_ & _ & Hp8 & _).
  assert (Hrow : nth_error (map f_patterns features) i
                 = Some (pattern_row (ex_patterns example))).
  { rewrite nth_error_map, Hf. cbn. now rewrite Hp. }
  destruct (@concatenate_axis1_nth _ _ _ _ _ _ Hcomb Hrow)
    as (cx & ci & Hcx & Hci & Hr).
  exists (cx ++ ci ++ pattern_row (ex_patterns example))%list.
  split; [exact Hr|].
  apply nth_error_In in Hcx, Hci.
  rewrite Forall_forall in Fx, Fi.
  specialize (Fx _ Hcx). specialize (Fi _ Hci). cbn in Fx, Fi.
  rewrite <- Hp.
  split.
  - rewrite !length_app, Fx, Fi, Hp8. reflexivity.
  - rewrite app_assoc, skipn_app, skipn_all2 by (rewrite length_app; lia).
    rewrite length_app, Fx, Fi. reflexivity.
Qed.

End Pipeline.

(** *** The instance *)

Lemma missing_liquidity_aborts_the_run_witness :
  load_and_preprocess centering_fit_transform centering_fit_transform
                      ordered_split
                      [example_with_liquidity 1; example_without_liquidity]
  = Raise (KeyError "liquidity").
Proof.
  apply (@missing_liquidity_aborts_the_run _ _ centering_fit_transform
           centering_fit_transform ordered_split
           [example_with_liquidity 1; example_without_liquidity]
           example_without_liquidity).
  - right. left. reflexivity.
  - reflexivity.
Defined.

Lemma preprocessing_needs_equal_windows_witness :
  exists fitted splits,
    load_and_preprocess centering_fit_transform centering_fit_transform
                        ordered_split dataset_b = Ok (fitted, splits) /\
    dataset_b <> [] /\
    exists timesteps,
      (0 < timesteps)%nat /\
      Forall (fun e => length (ex_candles e) = timesteps) dataset_b.
Proof.
  destruct (load_and_preprocess centering_fit_transform centering_fit_transform
              ordered_split dataset_b) as [[fitted splits]|e] eqn:E;
    [|vm_compute in E; discriminate E].
  exists fitted, splits. split; [reflexivity|].
  exact (@preprocessing_needs_equal_windows _ _ centering_fit_transform
           centering_fit_transform ordered_split dataset_b fitted splits E).
Defined.

Lemma splits_stay_aligned_witness :
  exists fitted splits,
    load_and_preprocess centering_fit_transform centering_fit_transform
                        ordered_split dataset_b = Ok (fitted, splits) /\
    (length (d_candles (X_train splits)) = length (d_combined (X_train splits)) /\
     length (d_combined (X_train splits)) = length (y_train splits)) /\
    (length (d_candles (X_val splits)) = length (d_combined (X_val splits)) /\
     length (d_combined (X_val splits)) = length (y_val splits)) /\
    (length (d_candles (X_test splits)) = length (d_combined (X_test splits)) /\
     length (d_combined (X_test splits)) = length (y_test splits)) /\
    Forall (fun row => length row = 3%nat)
           (y_train splits ++ y_val splits ++ y_test splits).
Proof.
  destruct (load_and_preprocess centering_fit_transform centering_fit_transform
              ordered_split dataset_b) as [[fitted splits]|e] eqn:E;
    [|vm_compute in E; discriminate E].
  exists fitted, splits. split; [reflexivity|].
  exact (@splits_stay_aligned _ _ centering_fit_transform
           centering_fit_transform ordered_split dataset_b fitted splits E).
Defined.

Lemma patterns_pass_through_unscaled_witness :
  exists a row,
    assemble centering_fit_transform centering_fit_transform dataset_c = Ok a /\
    nth_error (a_combined a) 0 = Some row /\
    length row = 18%nat /\
    skipn 10 row = pattern_row (ex_patterns example_with_patterns).
Proof.
  destruct (assemble centering_fit_transform centering_fit_transform dataset_c)
    as [a|e] eqn:E; [|vm_compute in E; discriminate E].
  destruct (@patterns_pass_through_unscaled _ _ centering_fit_transform
              centering_fit_transform centering_keeps_shape dataset_c a 0%nat
              example_with_patterns E eq_refl) as (row & H).
  exists a, row. split; [reflexivity|exact H].
Defined.

End PreprocessorProperties.

(** ** Further properties of the scaler export *)

Module ScalerProperties.
Import Py Scalers Lqa.
Local Open Scope Q_scope.
Local Open Scope string_scope.

(** The three scalers are there, each of its kind. *)
Definition complete (scalers : ScalerDict) : Prop :=
  (exists center scale n,
      lookup "candle_scaler" scalers = Some (RobustScaler center scale n)) /\
  (exists mean scale var n,
      lookup "context_scaler" scalers = Some (StandardScaler mean scale var n)) /\
  (exists mean scale var n,
      lookup "indicator_scaler" scalers = Some (StandardScaler mean scale var n)).

(** The entry of a scaler in the exported document and the key of its
    centering array. *)
Inductive exported (s : Scaler) (entry : json) (center_key : string) : Prop :=
| exported_robust :
    robust_entry s = Ok entry -> center_key = "center_" ->
    exported s entry center_key
| exported_standard :
    standard_entry s = Ok entry -> center_key = "mean_" ->
    exported s entry center_key.

(** A sample of two values, for a scaler fitted on five columns. *)
Definition short_sample : list Q := [0.001; 0.0012].

(** X19: the converter returns a document exactly for the dictionaries that
    hold a robust candle scaler and standard context and indicator scalers;
    on every other dictionary it raises [AttributeError] (a scaler of the
    wrong kind) or [AssertionError] (a scaler missing). *)
Theorem converter_accepts_complete_dictionaries_only (scalers : ScalerDict) :
  ((exists doc, convert_scalers scalers = Ok doc) <-> complete scalers) /\
  (forall e,
      convert_scalers scalers = Raise e ->
      (exists msg, e = AttributeError msg) \/ (exists msg, e = AssertionError msg)).
Proof.
  split; [split|].
  - intros (doc & H).
    destruct (@convert_scalers_inv _ _ H)
      as (candle & context & indicator & ce & xe & ie
          & Lc & Lx & Li & Ec & Ex & Ei & _).
    destruct candle; [|discriminate]. destruct context; [discriminate|].
    destruct indicator; [discriminate|].
    unfold complete. rewrite Lc, Lx, Li. repeat split; eauto.
  - intros ((c & s & n & Lc) & (xm & xs & xv & xn & Lx)
            & (im & isc & iv & n' & Li)).
    unfold convert_scalers, add_entry. rewrite Lc, Lx, Li. cbn. eauto.
  - intros e. unfold convert_scalers, add_entry.
    destruct (lookup "candle_scaler" scalers) as [[? ? ?|? ? ? ?]|];
      destruct (lookup "context_scaler" scalers) as [[? ? ?|? ? ? ?]|];
      destruct (lookup "indicator_scaler" scalers) as [[? ? ?|? ? ? ?]|];
      cbn; intros H; try discriminate H; injection H as <-; eauto.
Qed.

(** *** Widths *)

Lemma getnumber_past_the_end (xs : list Q) :
  getnumber (tolist xs) (length xs) = Raise IndexError.
Proof.
  unfold getnumber, tolist.
  destruct (nth_error (map JNumber xs) (length xs)) eqn:N; [|reflexivity].
  assert (nth_error (map JNumber xs) (length xs) = None) as E
    by (apply nth_error_None; rewrite length_map; lia).
  congruence.
Qed.

Lemma mapM_length {A B : Type} (f : A -> result B) xs ys :
  mapM f xs = Ok ys -> length ys = length xs.
Proof.
  revert ys. induction xs as [|x rest IH]; intros ys H; cbn in H.
  - injection H as <-. reflexivity.
  - apply bind_Ok in H as (y & _ & H). apply bind_Ok in H as (ys' & Hys & H).
    injection H as <-. cbn. f_equal. apply IH. exact Hys.
Qed.

Lemma mapM_scale_entry_short (x pc ps cs ss : list Q) :
  length pc = length ps ->
  (length x <= length cs)%nat -> (length x <= length ss)%nat ->
  exists y,
    mapM (scale_entry (pc ++ cs) (ps ++ ss))
         (combine (seq (length pc) (length x)) x) = Ok y.
Proof.
  revert pc ps cs ss.
  induction x as [|v x IH]; intros pc ps cs ss Hp Hc Hs; [cbn; eauto|].
  destruct cs as [|c cs]; [cbn in Hc; lia|].
  destruct ss as [|sc ss]; [cbn in Hs; lia|].
  cbn [length seq combine mapM]. unfold scale_entry at 1.
  rewrite getnumber_tolist. cbn [bind]. rewrite Hp, getnumber_tolist. cbn [bind].
  specialize (IH (pc ++ [c])%list (ps ++ [sc])%list cs ss).
  rewrite !length_app in IH. cbn [length] in IH.
  rewrite <- !app_assoc in IH. cbn [app] in IH.
  replace (length pc + 1)%nat with (S (length pc)) in IH by lia.
  rewrite <- Hp. destruct IH as (y & ->); [lia|cbn in Hc; lia|cbn in Hs; lia|].
  cbn [bind]. eauto.
Qed.

Lemma mapM_scale_entry_long (x pc ps cs ss : list Q) :
  length pc = length ps -> length cs = length ss ->
  (length cs < length x)%nat ->
  mapM (scale_entry (pc ++ cs) (ps ++ ss))
       (combine (seq (length pc) (length x)) x) = Raise IndexError.
Proof.
  revert pc ps cs ss.
  induction x as [|v x IH]; intros pc ps cs ss Hp Hcs Hlt; [cbn in Hlt; lia|].
  destruct cs as [|c cs].
  - cbn [length seq combine mapM]. unfold scale_entry at 1.
    rewrite app_nil_r, getnumber_past_the_end. reflexivity.
  - destruct ss as [|sc ss]; [discriminate|].
    cbn [length seq combine mapM]. unfold scale_entry at 1.
    rewrite getnumber_tolist. cbn [bind]. rewrite Hp, getnumber_tolist.
    cbn [bind].
    specialize (IH (pc ++ [c])%list (ps ++ [sc])%list cs ss).
    rewrite !length_app in IH. cbn [length] in IH.
    rewrite <- !app_assoc in IH. cbn [app] in IH.
    replace (length pc + 1)%nat with (S (length pc)) in IH by lia.
    rewrite <- Hp. rewrite IH; [reflexivity|lia|cbn in Hcs; lia|cbn in Hlt; lia].
Qed.

Lemma scale_sample_widths (fields : list (string * json)) (center_key : string)
    (center scale x : list Q) :
  lookup center_key fields = Some (tolist center) ->
  lookup "scale_" fields = Some (tolist scale) ->
  length center = length scale ->
  ((length x <= length center)%nat ->
   exists y, scale_sample (JObject fields) center_key x = Ok y /\
             length y = length x) /\
  ((length center < length x)%nat ->
   scale_sample (JObject fields) center_key x = Raise IndexError).
Proof.
  intros Hc Hs Hlen. unfold scale_sample, enumerate.
  rewrite (@mapM_ext _ _ _ (scale_entry center scale)).
  2:{ intros [j val]. unfold getkey. rewrite Hc, Hs. reflexivity. }
  split.
  - intros Hx.
    destruct (@mapM_scale_entry_short x [] [] center scale) as (y & Hy);
      [reflexivity|lia|lia|].
    cbn [app length] in Hy. exists y. split; [exact Hy|].
    apply mapM_length in Hy. rewrite Hy, length_combine, length_seq. lia.
  - intros Hx. apply (@mapM_scale_entry_long x [] [] center scale); auto.
Qed.



End ScalerProperties.

(** ** Further properties of the inference server *)

Module InferenceProperties.
Import Py Inference Reals Lra.
Local Open Scope R_scope.
Local Open Scope string_scope.

(** A response is one of the two dictionaries of [predict]: the fail-closed
    one, or a prediction whose probabilities and confidence lie between 0
    and 1. *)
Definition well_formed (r : Response) : Prop :=
  (exists description, r = fail_closed description) \/
  (error r = None /\ 0 <= profitable r <= 1 /\ 0 <= rug_risk r <= 1 /\
   0 <= confidence r <= 1).

(** The data of an array fill its shape. *)
Definition consistent (a : ndarray) : Prop :=
  length (data a) = fold_right Nat.mul 1%nat (shape a).

Lemma sigmoid_range (x : R) : 0 < sigmoid x < 1.
Proof.
  pose proof (exp_pos (- x)). split; [apply sigmoid_gt|apply sigmoid_lt]; lra.
Qed.

Lemma exp_minus_1 : 1 / 3 < exp (- (1)).
Proof.
  set (q := - (1) / 8).
  assert (E : exp (- (1))
              = (exp q * exp q) * (exp q * exp q)
                * ((exp q * exp q) * (exp q * exp q))).
  { rewrite <- !exp_plus. f_equal. unfold q. lra. }
  pose proof (exp_ineq1_le q) as H. unfold q in H at 1.
  assert (H2 : 0.765625 <= exp q * exp q) by nra.
  assert (H4 : 0.586 <= (exp q * exp q) * (exp q * exp q)) by nra.
  rewrite E. nra.
Qed.

Lemma sigmoid_of_a_probability (p : R) :
  0 <= p <= 1 -> 1 / 2 <= sigmoid p < 3 / 4.
Proof.
  intros [H0 H1]. pose proof (exp_pos (- p)) as Hpos.
  assert (Hle : exp (- p) <= 1).
  { rewrite <- exp_0. destruct (Req_dec p 0) as [->|Hne].
    - rewrite Ropp_0. lra.
    - left. apply exp_increasing. lra. }
  assert (Hge : exp (- (1)) <= exp (- p)).
  { destruct (Req_dec p 1) as [->|Hne]; [lra|].
    left. apply exp_increasing. lra. }
  pose proof exp_minus_1 as H3.
  split.
  - destruct (Req_dec (exp (- p)) 1) as [E|Hne].
    + right. unfold sigmoid. rewrite E. replace (1 + 1) with 2 by lra. lra.
    + left. apply sigmoid_gt. lra.
  - apply sigmoid_lt. lra.
Qed.

Lemma item_sigmoid (t : ndarray) (v : R) :
  item (torch_sigmoid t) = Ok v -> exists x, v = sigmoid x.
Proof.
  unfold item, torch_sigmoid. cbn [data].
  destruct (data t) as [|x [|y rest]]; cbn; try discriminate.
  intros H. injection H as <-. eauto.
Qed.

Section Server.

Variable request : Type.
Variable json_loads : string -> result request.
Variable np_array_field : request -> string -> result ndarray.
Variable scaler_transform : string -> ndarray -> result ndarray.
Variable model : ndarray -> ndarray -> result (ndarray * ndarray * ndarray).

Local Abbreviation preprocess := (preprocess np_array_field scaler_transform).
Local Abbreviation infer := (infer np_array_field scaler_transform model).
Local Abbreviation predict := (predict np_array_field scaler_transform model).
Local Abbreviation handle_line :=
  (handle_line json_loads np_array_field scaler_transform model).
Local Abbreviation run := (run json_loads np_array_field scaler_transform model).

Lemma infer_well_formed (raw : request) (r : Response) :
  infer raw = Ok r ->
  error r = None /\ 0 <= profitable r <= 1 /\ 0 <= rug_risk r <= 1 /\
  0 <= confidence r <= 1.
Proof.
  unfold Inference.infer. intros H.
  apply bind_Ok in H as ([candles combined] & _ & H).
  apply bind_Ok in H as ([[pl mp] rl] & _ & H).
  apply bind_Ok in H as (pp & Hp & H).
  apply bind_Ok in H as (rp & Hr & H).
  apply bind_Ok in H as (mv & _ & H).
  injection H as <-. cbn [error profitable rug_risk confidence].
  apply item_sigmoid in Hp as (x & ->). apply item_sigmoid in Hr as (y & ->).
  pose proof (sigmoid_range x) as Hx. pose proof (sigmoid_range y) as Hy.
  split; [reflexivity|]. split; [lra|]. split; [lra|].
  unfold Rabs. destruct (Rcase_abs (sigmoid x - 0.5));
    destruct (Rcase_abs (sigmoid y - 0.5)); lra.
Qed.

Lemma predict_well_formed (raw : request) : well_formed (predict raw).
Proof.
  unfold Inference.predict. destruct (infer raw) as [r|e] eqn:E.
  - right. exact (@infer_well_formed _ _ E).
  - left. eauto.
Qed.

(** X21: every response the loop prints is either the fail-closed
    dictionary (an error description with profitable 0, max_profit 0,
    rug_risk 1 and confidence 0) or a prediction without an error key whose
    profitable, rug_risk and confidence lie between 0 and 1. *)
Theorem responses_are_fail_closed_or_probabilities (stdin : list string)
    (response : Response) :
  In response (run stdin) ->
  well_formed response.
Proof.
  intros Hin.
  induction stdin as [|line rest IH]; cbn [Inference.run] in Hin; [destruct Hin|].
  apply in_app_or in Hin as [Hin|Hin]; [|exact (IH Hin)].
  unfold Inference.handle_line in Hin.
  destruct (is_empty (strip line)); [destruct Hin|].
  destruct (json_loads (strip line)) as [raw|e].
  - destruct Hin as [<-|[]]. apply predict_well_formed.
  - left. destruct e; destruct Hin as [<-|[]]; eauto.
Qed.

(** X22: when the model returns probabilities, as the network's final
    sigmoid makes it do, the second sigmoid of [predict] moves them into
    [1/2, 3/4): the response reports profitable and rug_risk in that band,
    whatever the scores, and a confidence below 1/2. *)
Theorem second_sigmoid_compresses_probabilities (raw : request)
    (candles combined : ndarray) (p m r : R) :
  preprocess raw = Ok (candles, combined) ->
  model candles combined = Ok (scalar p, scalar m, scalar r) ->
  0 <= p <= 1 -> 0 <= r <= 1 ->
  1 / 2 <= profitable (predict raw) < 3 / 4 /\
  max_profit (predict raw) = m /\
  1 / 2 <= rug_risk (predict raw) < 3 / 4 /\
  0 <= confidence (predict raw) < 1 / 2.
Proof.
  intros Hpre Hmodel Hp Hr.
  rewrite (@predict_scores _ np_array_field scaler_transform model
             raw candles combined p m r Hpre Hmodel).
  cbn [profitable max_profit rug_risk confidence].
  pose proof (sigmoid_of_a_probability Hp) as Sp.
  pose proof (sigmoid_of_a_probability Hr) as Sr.
  split; [exact Sp|]. split; [reflexivity|]. split; [exact Sr|].
  unfold spec_confidence. rewrite !Rabs_pos_eq by lra. lra.
Qed.

Hypothesis transform_keeps_shape :
  forall name X Y, scaler_transform name X = Ok Y -> shape Y = shape X.

(** X23: for scalers that keep the shape of their input and a request whose
    arrays fill their shapes, a request that passes [preprocess] yields a candle tensor of shape (1, 100, 5) and a
    combined tensor of shape (1, 18), whose data are the scaled context,
    the scaled indicators and the eight pattern values as they were sent. *)
Theorem preprocess_output_shapes (raw : request) (candles combined : ndarray) :
  (forall key a, np_array_field raw key = Ok a -> consistent a) ->
  preprocess raw = Ok (candles, combined) ->
  shape candles = [1; 100; 5]%nat /\
  shape combined = [1; 18]%nat /\
  exists patterns scaled,
    np_array_field raw "patterns" = Ok patterns /\
    data combined = (scaled ++ data patterns)%list.
Proof.
  unfold Inference.preprocess. intros arrays_are_consistent H.
  apply bind_Ok in H as (c & Hc & H). apply bind_Ok in H as (x & Hx & H).
  apply bind_Ok in H as (i & Hi & H). apply bind_Ok in H as (p & Hp & H).
  destruct (shape_eqb_cases (shape c) [100; 5]%nat) as [[E Sc]|[E _]];
    rewrite E in H; cbn [negb] in H; [|discriminate].
  clear E.
  destruct (shape_eqb_cases (shape x) [5%nat]) as [[E Sx]|[E _]];
    rewrite E in H; cbn [negb] in H; [|discriminate].
  clear E.
  destruct (shape_eqb_cases (shape i) [5%nat]) as [[E Si]|[E _]];
    rewrite E in H; cbn [negb] in H; [|discriminate].
  clear E.
  destruct (shape_eqb_cases (shape p) [8%nat]) as [[E Sp]|[E _]];
    rewrite E in H; cbn [negb] in H; [|discriminate].
  clear E.
  apply bind_Ok in H as (cs & Hcs & H).
  apply bind_Ok in H as (x2 & Hx2 & H).
  apply bind_Ok in H as (xs & Hxs & H).
  apply bind_Ok in H as (i2 & Hi2 & H).
  apply bind_Ok in H as (is_ & His & H).
  apply bind_Ok in H as (cb & Hcb & H).
  injection H as <- <-.
  apply transform_keeps_shape in Hcs, Hx2, Hi2.
  apply arrays_are_consistent in Hx, Hi.
  unfold consistent in Hx, Hi. rewrite Sx in Hx. rewrite Si in Hi. cbn in Hx, Hi.
  unfold reshape_row in Hx2, Hi2. cbn [shape] in Hx2, Hi2.
  unfold first_row in Hxs, His. rewrite Hx2 in Hxs. rewrite Hi2 in His.
  injection Hxs as <-. injection His as <-.
  unfold concatenate in Hcb. cbn [shape] in Hcb. rewrite Sp in Hcb.
  injection Hcb as <-.
  unfold unsqueeze0. cbn [shape data].
  split; [congruence|].
  split.
  - rewrite Hx, Hi. reflexivity.
  - exists p. eexists. split; [exact Hp|]. rewrite app_assoc. reflexivity.
Qed.

End Server.

Lemma responses_are_fail_closed_or_probabilities_witness :
  well_formed (stub_predict example_request).
Proof.
  apply (@responses_are_fail_closed_or_probabilities stub_request stub_loads
           stub_array_field identity_transform stub_model
           [example_line; "not json"]).
  left. reflexivity.
Defined.

Lemma second_sigmoid_compresses_probabilities_witness :
  1 / 2 <= profitable (stub_predict example_request) < 3 / 4 /\
  max_profit (stub_predict example_request) = 4.0 /\
  1 / 2 <= rug_risk (stub_predict example_request) < 3 / 4 /\
  0 <= confidence (stub_predict example_request) < 1 / 2.
Proof.
  destruct stub_preprocess_example as (candles & combined & Hpre & _).
  apply (@second_sigmoid_compresses_probabilities stub_request
           stub_array_field identity_transform stub_model example_request
           candles combined 0.7 4.0 0.05 Hpre eq_refl); lra.
Defined.

Lemma example_request_consistent (key : string) (a : ndarray) :
  stub_array_field example_request key = Ok a -> consistent a.
Proof.
  unfold stub_array_field, example_request. cbn [lookup].
  repeat match goal with
         | |- context [String.eqb ?k key] => destruct (String.eqb k key)
         end;
    intros H; try discriminate H; injection H as <-; reflexivity.
Qed.

Lemma identity_keeps_shape (name : string) (X Y : ndarray) :
  identity_transform name X = Ok Y -> shape Y = shape X.
Proof. intros H. injection H as <-. reflexivity. Qed.

Lemma preprocess_output_shapes_witness :
  exists candles combined,
    preprocess stub_array_field identity_transform example_request
    = Ok (candles, combined) /\
    shape candles = [1; 100; 5]%nat /\
    shape combined = [1; 18]%nat /\
    exists patterns scaled,
      stub_array_field example_request "patterns" = Ok patterns /\
      data combined = (scaled ++ data patterns)%list.
Proof.
  destruct stub_preprocess_example as (candles & combined & Hpre & _).
  exists candles, combined. split; [exact Hpre|].
  apply (@preprocess_output_shapes stub_request stub_array_field
           identity_transform identity_keeps_shape example_request candles combined example_request_consistent Hpre).
Defined.

End InferenceProperties.

(** ** The learning rate schedule *)

Module Schedule.
Import Py Reals Lra.
Local Open Scope R_scope.

(** [a / b] for a float [a] and an integer [b]. *)
Definition div_int (a : R) (b : Z) : result R :=
  if (b =? 0)%Z then Raise ZeroDivisionError else Ok (a / IZR b).

(** model_pytorch.py, the closure [lr_lambda] of [create_lr_schedule]: the
    factor by which [LambdaLR] multiplies the initial rate at an epoch. *)
Definition lr_lambda (warmup_epochs total_epochs epoch : Z) : result R :=
  if (epoch <? warmup_epochs)%Z
  then div_int (IZR (epoch + 1)) warmup_epochs
  else
    progress <- div_int (IZR (epoch - warmup_epochs))
                        (total_epochs - warmup_epochs) ;;
    Ok (0.5 * (1.0 + cos (PI * progress))).

Definition create_lr_schedule (initial_lr : R) (warmup_epochs total_epochs : Z)
  : Z -> result R :=
  lr_lambda warmup_epochs total_epochs.

Lemma div_int_ok (a : R) (b : Z) :
  b <> 0%Z -> div_int a b = Ok (a / IZR b).
Proof. intros H. unfold div_int. apply Z.eqb_neq in H. now rewrite H. Qed.

Lemma div_int_zero (a : R) : div_int a 0 = Raise ZeroDivisionError.
Proof. reflexivity. Qed.

Lemma lr_lambda_warmup (w t e : Z) :
  (e < w)%Z -> w <> 0%Z -> lr_lambda w t e = Ok (IZR (e + 1) / IZR w).
Proof.
  intros He Hw. unfold lr_lambda. apply Z.ltb_lt in He. rewrite He.
  now apply div_int_ok.
Qed.

Lemma lr_lambda_annealing (w t e : Z) :
  (w <= e)%Z -> t <> w ->
  lr_lambda w t e
  = Ok (0.5 * (1.0 + cos (PI * (IZR (e - w) / IZR (t - w))))).
Proof.
  intros He Hw. unfold lr_lambda. apply Z.ltb_ge in He. rewrite He.
  rewrite div_int_ok by lia. reflexivity.
Qed.

(** The position in the annealing stage, between 0 and 1. *)
Lemma progress_range (w t e : Z) :
  (w <= e <= t)%Z -> (w < t)%Z -> 0 <= IZR (e - w) / IZR (t - w) <= 1.
Proof.
  intros He Hw.
  assert (0 < IZR (t - w)) by (apply IZR_lt; lia).
  assert (0 <= IZR (e - w)) by (apply IZR_le; lia).
  assert (IZR (e - w) <= IZR (t - w)) by (apply IZR_le; lia).
  split.
  - apply Rmult_le_reg_r with (IZR (t - w)); [assumption|].
    unfold Rdiv. rewrite Rmult_assoc, Rinv_l by lra. lra.
  - apply Rmult_le_reg_r with (IZR (t - w)); [assumption|].
    unfold Rdiv. rewrite Rmult_assoc, Rinv_l by lra. lra.
Qed.

Lemma progress_increasing (w t e1 e2 : Z) :
  (w < t)%Z -> (e1 < e2)%Z ->
  IZR (e1 - w) / IZR (t - w) < IZR (e2 - w) / IZR (t - w).
Proof.
  intros Hw He.
  assert (0 < IZR (t - w)) by (apply IZR_lt; lia).
  assert (IZR (e1 - w) < IZR (e2 - w)) by (apply IZR_lt; lia).
  apply Rmult_lt_reg_r with (IZR (t - w)); [assumption|].
  unfold Rdiv. rewrite !Rmult_assoc, Rinv_l by lra. lra.
Qed.

(** X24: at every epoch of a training of [total_epochs] epochs the schedule
    returns a factor in (0, 1]: the learning rate is never zero and never
    above the initial rate while the model is trained. *)
Theorem schedule_factor_in_unit_interval (warmup_epochs total_epochs epoch : Z) :
  (0 <= epoch < total_epochs)%Z ->
  exists factor,
    lr_lambda warmup_epochs total_epochs epoch = Ok factor /\
    0 < factor <= 1.
Proof.
  intros [H0 Ht].
  destruct (Z_lt_le_dec epoch warmup_epochs) as [Hw|Hw].
  - rewrite lr_lambda_warmup by lia. eexists. split; [reflexivity|].
    assert (0 < IZR warmup_epochs) by (apply IZR_lt; lia).
    assert (0 < IZR (epoch + 1)) by (apply IZR_lt; lia).
    assert (IZR (epoch + 1) <= IZR warmup_epochs) by (apply IZR_le; lia).
    split.
    + apply Rdiv_lt_0_compat; assumption.
    + apply Rmult_le_reg_r with (IZR warmup_epochs); [assumption|].
      unfold Rdiv. rewrite Rmult_assoc, Rinv_l by lra. lra.
  - rewrite lr_lambda_annealing by lia. eexists. split; [reflexivity|].
    set (progress := IZR (epoch - warmup_epochs)
                     / IZR (total_epochs - warmup_epochs)).
    assert (Hp : 0 <= progress <= 1) by (apply progress_range; lia).
    assert (Hlt : progress < 1).
    { replace 1 with (IZR (total_epochs - warmup_epochs)
                      / IZR (total_epochs - warmup_epochs)).
      - apply progress_increasing; lia.
      - apply Rdiv_diag. apply not_0_IZR. lia. }
    pose proof PI_RGT_0 as Hpi.
    pose proof (COS_bound (PI * progress)) as [_ Hub].
    assert (cos PI < cos (PI * progress)) as Hcos.
    { apply cos_decreasing_1; nra. }
    rewrite cos_PI in Hcos. lra.
Qed.

Lemma schedule_factor_in_unit_interval_witness :
  exists factor, lr_lambda 10 100 99 = Ok factor /\ 0 < factor <= 1.
Proof. apply (@schedule_factor_in_unit_interval 10 100 99). lia. Defined.

(** X25: the factor rises strictly during the warm-up and falls strictly
    from the end of the warm-up to [total_epochs]. *)
Theorem schedule_rises_then_falls (warmup_epochs total_epochs e1 e2 : Z)
    (f1 f2 : R) :
  (0 <= e1 < e2)%Z -> (e2 <= total_epochs)%Z ->
  lr_lambda warmup_epochs total_epochs e1 = Ok f1 ->
  lr_lambda warmup_epochs total_epochs e2 = Ok f2 ->
  ((e2 < warmup_epochs)%Z -> f1 < f2) /\
  ((warmup_epochs <= e1)%Z -> f2 < f1).
Proof.
  intros He Ht H1 H2. split; intros Hw.
  - rewrite lr_lambda_warmup in H1, H2 by lia.
    injection H1 as <-. injection H2 as <-.
    assert (0 < IZR warmup_epochs) by (apply IZR_lt; lia).
    assert (IZR (e1 + 1) < IZR (e2 + 1)) by (apply IZR_lt; lia).
    apply Rmult_lt_reg_r with (IZR warmup_epochs); [assumption|].
    unfold Rdiv. rewrite !Rmult_assoc, Rinv_l by lra. lra.
  - rewrite lr_lambda_annealing in H1, H2 by lia.
    injection H1 as <-. injection H2 as <-.
    pose proof PI_RGT_0 as Hpi.
    assert (P1 := @progress_range warmup_epochs total_epochs e1).
    assert (P2 := @progress_range warmup_epochs total_epochs e2).
    assert (P := @progress_increasing warmup_epochs total_epochs e1 e2).
    destruct P1 as [L1 U1]; [lia|lia|]. destruct P2 as [L2 U2]; [lia|lia|].
    specialize (P ltac:(lia) ltac:(lia)).
    assert (cos (PI * (IZR (e2 - warmup_epochs)
                       / IZR (total_epochs - warmup_epochs)))
            < cos (PI * (IZR (e1 - warmup_epochs)
                         / IZR (total_epochs - warmup_epochs)))) as Hcos.
    { apply cos_decreasing_1; nra. }
    lra.
Qed.

Lemma schedule_rises_then_falls_witness :
  exists f1 f2,
    lr_lambda 10 100 20 = Ok f1 /\ lr_lambda 10 100 30 = Ok f2 /\
    ((30 < 10)%Z -> f1 < f2) /\ ((10 <= 20)%Z -> f2 < f1).
Proof.
  do 2 eexists. split; [reflexivity|]. split; [reflexivity|].
  apply (@schedule_rises_then_falls 10 100 20 30); [lia|lia|reflexivity..].
Defined.

(** X26: the factor is 1 at the last epoch of the warm-up and at the first
    epoch after it, and 0 at [total_epochs], the epoch the scheduler
    reaches by its step after the last training epoch. *)
Theorem schedule_peak_and_end (warmup_epochs total_epochs : Z) :
  (0 < warmup_epochs < total_epochs)%Z ->
  lr_lambda warmup_epochs total_epochs (warmup_epochs - 1) = Ok 1 /\
  lr_lambda warmup_epochs total_epochs warmup_epochs = Ok 1 /\
  lr_lambda warmup_epochs total_epochs total_epochs = Ok 0.
Proof.
  intros Hw. split; [|split].
  - rewrite lr_lambda_warmup by lia. f_equal.
    replace (warmup_epochs - 1 + 1)%Z with warmup_epochs by lia.
    apply Rdiv_diag. apply not_0_IZR. lia.
  - rewrite lr_lambda_annealing by lia. f_equal.
    rewrite Z.sub_diag. unfold Rdiv. rewrite Rmult_0_l, Rmult_0_r, cos_0. lra.
  - rewrite lr_lambda_annealing by lia. f_equal.
    rewrite Rdiv_diag by (apply not_0_IZR; lia).
    rewrite Rmult_1_r, cos_PI. lra.
Qed.

Lemma schedule_peak_and_end_witness :
  lr_lambda 10 100 (10 - 1) = Ok 1 /\
  lr_lambda 10 100 10 = Ok 1 /\
  lr_lambda 10 100 100 = Ok 0.
Proof. apply (@schedule_peak_and_end 10 100). lia. Defined.

(** X27: the schedule raises exactly on a zero divisor, and then
    [ZeroDivisionError]: at an epoch before a warm-up of length 0, or at an
    epoch from the warm-up on when [total_epochs] equals [warmup_epochs]. *)
Theorem schedule_raises_on_zero_divisors_only (warmup_epochs total_epochs epoch : Z)
    (e : exn) :
  lr_lambda warmup_epochs total_epochs epoch = Raise e <->
  e = ZeroDivisionError /\
  ((epoch < warmup_epochs)%Z /\ warmup_epochs = 0%Z \/
   (warmup_epochs <= epoch)%Z /\ total_epochs = warmup_epochs).
Proof.
  destruct (Z_lt_le_dec epoch warmup_epochs) as [Hw|Hw].
  - destruct (Z.eq_dec warmup_epochs 0) as [E|E].
    + unfold lr_lambda. apply Z.ltb_lt in Hw as Hb. rewrite Hb, E.
      rewrite div_int_zero. split.
      * intros H. injection H as <-. split; [reflexivity|]. left. lia.
      * intros [-> _]. reflexivity.
    + rewrite lr_lambda_warmup by assumption. split; [discriminate|].
      intros [_ [[_ H]|[H _]]]; [contradiction|lia].
  - destruct (Z.eq_dec total_epochs warmup_epochs) as [E|E].
    + unfold lr_lambda. apply Z.ltb_ge in Hw as Hb. rewrite Hb, E, Z.sub_diag.
      rewrite div_int_zero. split.
      * intros H. injection H as <-. split; [reflexivity|]. right. lia.
      * intros [-> _]. reflexivity.
    + rewrite lr_lambda_annealing by assumption. split; [discriminate|].
      intros [_ [[H _]|[_ H]]]; [lia|contradiction].
Qed.

End Schedule.

(** ** Early stopping *)

Module Training.
Import Py Lqa.
Local Open Scope Q_scope.

Definition patience : nat := 15.

(** The variables the loop of [train_model] carries from epoch to epoch:
    the best validation AUC, the patience counter, the epoch at which the
    best model was saved last in this run, and the number of epochs run. *)
Record Progress : Type := mkProgress {
  best_val_auc : Q;
  patience_counter : nat;
  best_epoch : option nat;
  epochs_run : nat
}.

(** The loop over [range(start_epoch, epochs)], for the validation AUC
    [validate_epoch] returns at each epoch. *)
Fixpoint training_loop (val_auc_at : nat -> Q) (range : list nat) (s : Progress)
  : Progress :=
  match range with
  | [] => s
  | epoch :: rest =>
      let val_auc := val_auc_at epoch in
      if gt val_auc (best_val_auc s)
      then training_loop val_auc_at rest
             (mkProgress val_auc 0 (Some epoch) (S (epochs_run s)))
      else
        let counter := S (patience_counter s) in
        let s' := mkProgress (best_val_auc s) counter (best_epoch s)
                             (S (epochs_run s)) in
        if (patience <=? counter)%nat then s'
        else training_loop val_auc_at rest s'
  end.

(** [train_model], from the best AUC it starts with: 0.0, or the one of
    the checkpoint it resumes from. *)
Definition train_model (val_auc_at : nat -> Q) (start_epoch epochs : nat)
    (best : Q) : Progress :=
  training_loop val_auc_at (seq start_epoch (epochs - start_epoch))
                (mkProgress best 0 None 0).

(** The epochs run since the best model was saved, or since the start. *)
Definition since_best (start_epoch next : nat) (s : Progress) : nat :=
  match best_epoch s with
  | Some e => (next - e - 1)%nat
  | None => (next - start_epoch)%nat
  end.

(** What holds before epoch [next] is run. *)
Record invariant (val_auc_at : nat -> Q) (start_epoch : nat) (best : Q)
    (next : nat) (s : Progress) : Prop := mkInvariant {
  inv_run : epochs_run s = (next - start_epoch)%nat;
  inv_start : (start_epoch <= next)%nat;
  inv_best : best <= best_val_auc s;
  inv_max : forall e, (start_epoch <= e < next)%nat ->
                      val_auc_at e <= best_val_auc s;
  inv_epoch : match best_epoch s with
              | Some e =>
                  (start_epoch <= e < next)%nat /\
                  best_val_auc s = val_auc_at e /\
                  best < val_auc_at e /\
                  (forall e', (start_epoch <= e' < e)%nat ->
                              val_auc_at e' < val_auc_at e)
              | None => best_val_auc s = best
              end;
  inv_counter : patience_counter s = since_best start_epoch next s
}.

Lemma loop_invariant (f : nat -> Q) (start : nat) (best : Q) (n : nat) :
  forall next s,
    invariant f start best next s ->
    (patience_counter s < patience)%nat ->
    exists last,
      (next <= last <= next + n)%nat /\
      invariant f start best last (training_loop f (seq next n) s) /\
      (patience_counter (training_loop f (seq next n) s) <= patience)%nat /\
      ((last < next + n)%nat ->
       patience_counter (training_loop f (seq next n) s) = patience).
Proof.
  induction n as [|n IH]; intros next s I Hc.
  - exists next. cbn [seq training_loop].
    split; [lia|]. split; [exact I|]. split; lia.
  - cbn [seq training_loop].
    destruct I as [Irun Istart Ibest Imax Iepoch Icounter].
    destruct (gt_cases (f next) (best_val_auc s)) as [[-> Hgt]|[-> Hle]].
    + destruct (IH (S next) (mkProgress (f next) 0 (Some next) (S (epochs_run s))))
        as (last & Hlast & I' & Hp & Hstop).
      * constructor; cbn [epochs_run best_val_auc best_epoch patience_counter].
        -- lia.
        -- lia.
        -- lra.
        -- intros e He. destruct (Nat.eq_dec e next) as [->|Hne]; [lra|].
           specialize (Imax e ltac:(lia)). lra.
        -- split; [lia|]. split; [reflexivity|]. split; [lra|].
           intros e' He'. specialize (Imax e' ltac:(lia)). lra.
        -- unfold since_best. cbn [best_epoch]. lia.
      * cbn. unfold patience. lia.
      * exists last. split; [lia|]. split; [exact I'|]. split; [exact Hp|].
        intros H. apply Hstop. lia.
    + assert (I1 : invariant f start best (S next)
                     (mkProgress (best_val_auc s) (S (patience_counter s))
                                 (best_epoch s) (S (epochs_run s)))).
      { constructor; cbn [epochs_run best_val_auc best_epoch patience_counter].
        - lia.
        - lia.
        - exact Ibest.
        - intros e He. destruct (Nat.eq_dec e next) as [->|Hne]; [exact Hle|].
          apply Imax. lia.
        - destruct (best_epoch s) as [e|]; [|exact Iepoch].
          destruct Iepoch as (He & Hb & Hlt & Hfirst).
          repeat split; try assumption; lia.
        - rewrite Icounter. unfold since_best. cbn [best_epoch].
          destruct (best_epoch s) as [e|]; [destruct Iepoch as (He & _)|]; lia. }
      destruct (patience <=? S (patience_counter s))%nat eqn:Hstop.
      * apply Nat.leb_le in Hstop. exists (S next).
        cbn [patience_counter]. split; [lia|]. split; [exact I1|]. split; lia.
      * apply Nat.leb_gt in Hstop.
        destruct (IH (S next) _ I1 Hstop) as (last & Hlast & I' & Hp & Hs).
        exists last. split; [lia|]. split; [exact I'|]. split; [exact Hp|].
        intros H. apply Hs. lia.
Qed.

Lemma train_model_invariant (f : nat -> Q) (start epochs : nat) (best : Q) :
  exists last,
    (start <= last <= start + (epochs - start))%nat /\
    invariant f start best last (train_model f start epochs best) /\
    (patience_counter (train_model f start epochs best) <= patience)%nat /\
    ((last < start + (epochs - start))%nat ->
     patience_counter (train_model f start epochs best) = patience).
Proof.
  apply loop_invariant.
  - constructor; cbn [epochs_run best_val_auc best_epoch patience_counter].
    + lia.
    + lia.
    + lra.
    + intros e He. lia.
    + reflexivity.
    + unfold since_best. cbn [best_epoch]. lia.
  - cbn. unfold patience. lia.
Qed.

(** X28: when the loop ends, the best validation AUC is at least the AUC
    the run started from and at least the AUC of every epoch run; the best
    model was saved at the first epoch that reached it, whose AUC exceeds
    strictly the starting AUC and the AUC of every epoch before. *)
Theorem best_auc_is_the_largest_seen (val_auc_at : nat -> Q)
    (start_epoch epochs : nat) (best : Q) :
  let s := train_model val_auc_at start_epoch epochs best in
  best <= best_val_auc s /\
  (forall e, (start_epoch <= e < start_epoch + epochs_run s)%nat ->
             val_auc_at e <= best_val_auc s) /\
  (forall e, best_epoch s = Some e ->
             (start_epoch <= e < start_epoch + epochs_run s)%nat /\
             best_val_auc s = val_auc_at e /\
             best < val_auc_at e /\
             (forall e', (start_epoch <= e' < e)%nat ->
                         val_auc_at e' < val_auc_at e)).
Proof.
  intros s. subst s.
  destruct (train_model_invariant val_auc_at start_epoch epochs best)
    as (last & Hlast & [Irun Istart Ibest Imax Iepoch Icounter] & _).
  split; [exact Ibest|]. split.
  - intros e He. apply Imax. lia.
  - intros e He. rewrite He in Iepoch.
    destruct Iepoch as (H1 & H2 & H3 & H4). repeat split; try assumption; lia.
Qed.

(** X29: the loop runs at most [epochs - start_epoch] epochs and stops
    before the last of them only with the patience counter at 15; the
    counter is the number of epochs run since the best model was saved, or
    since the start of the run when none was. *)
Theorem patience_counts_epochs_since_the_best (val_auc_at : nat -> Q)
    (start_epoch epochs : nat) (best : Q) :
  let s := train_model val_auc_at start_epoch epochs best in
  (epochs_run s <= epochs - start_epoch)%nat /\
  (patience_counter s <= patience)%nat /\
  ((epochs_run s < epochs - start_epoch)%nat -> patience_counter s = patience) /\
  patience_counter s
  = match best_epoch s with
    | Some e => (start_epoch + epochs_run s - e - 1)%nat
    | None => epochs_run s
    end.
Proof.
  intros s. subst s.
  destruct (train_model_invariant val_auc_at start_epoch epochs best)
    as (last & Hlast & [Irun Istart Ibest Imax Iepoch Icounter] & Hp & Hstop).
  split; [lia|]. split; [exact Hp|]. split.
  - intros H. apply Hstop. lia.
  - rewrite Icounter. unfold since_best.
    destruct (best_epoch _) as [e|]; lia.
Qed.

(** X30: a run saves no best model exactly when no epoch it runs has a
    validation AUC strictly above the AUC the run started from; an AUC
    equal to it saves nothing. *)
Theorem no_improvement_saves_no_model (val_auc_at : nat -> Q)
    (start_epoch epochs : nat) (best : Q) :
  let s := train_model val_auc_at start_epoch epochs best in
  best_epoch s = None <->
  (forall e, (start_epoch <= e < start_epoch + epochs_run s)%nat ->
             val_auc_at e <= best).
Proof.
  intros s. subst s.
  destruct (train_model_invariant val_auc_at start_epoch epochs best)
    as (last & Hlast & [Irun Istart Ibest Imax Iepoch Icounter] & _).
  split.
  - intros Hnone e He. rewrite Hnone in Iepoch. rewrite <- Iepoch.
    apply Imax. lia.
  - intros Hall. destruct (best_epoch _) as [e|]; [exfalso|reflexivity].
    destruct Iepoch as (He & _ & Hlt & _).
    specialize (Hall e ltac:(lia)). lra.
Qed.

End Training.
